(** * Voxelize: the STL-to-voxel viewer of [src/main.py]

    A shallow embedding of the script's own logic: the pitch computation of
    [voxelize_mesh], the temporary-file handling of [load_stl_file], the
    occupied-cell enumeration, colouring and slicing of the two renderers, the
    statistics of [display_mesh_info] and the two export paths of [main].

    Third-party code (the mesh loader, the voxelizer, the pseudorandom
    generator, the mean of an array, the validation the charting library and
    the slider widget apply to their arguments) is not part of the script; it
    enters the development as the class [Library].  Floating-point values are IEEE
    binary64 numbers (Rocq's primitive floats), NumPy integers are 64-bit.
    Voxel grids are objects in a heap, read through references, since the
    script sets an attribute on the grid the library returns. *)

From Stdlib Require Import ZArith List Lia Bool String Ascii Sorted.
From Stdlib Require Import Strings.Byte.
From Stdlib Require Import DecimalString PrimFloat FloatOps SpecFloat.
From Stdlib Require FloatAxioms Uint63 DecimalNat DecimalFacts.
From stdpp Require Import gmap strings.

Import ListNotations.
Local Open Scope nat_scope.

(** ** NumPy arrays of booleans

    An array is its shape together with its elements in C (row-major) order. *)

Module Np.

Record ndarray3 := mk_ndarray3 {
  shape3 : nat * nat * nat;
  buf3 : list bool
}.

Record ndarray2 := mk_ndarray2 {
  shape2 : nat * nat;
  buf2 : list bool
}.

Definition dim0 (m : ndarray3) : nat := fst (fst (shape3 m)).
Definition dim1 (m : ndarray3) : nat := snd (fst (shape3 m)).
Definition dim2 (m : ndarray3) : nat := snd (shape3 m).

(** NumPy's invariant on an array that exists: the buffer holds one element
    per index, and the element count fits a signed 64-bit integer. *)
Definition wf3 (m : ndarray3) : Prop :=
  List.length (buf3 m) = dim0 m * dim1 m * dim2 m /\
  (Z.of_nat (dim0 m * dim1 m * dim2 m) < 2 ^ 63)%Z.

Definition wf2 (a : ndarray2) : Prop :=
  List.length (buf2 a) = fst (shape2 a) * snd (shape2 a).

(** [m[i, j, k]] for indices in range. *)
Definition get3 (m : ndarray3) (i j k : nat) : bool :=
  nth ((i * dim1 m + j) * dim2 m + k) (buf3 m) false.

Definition get2 (a : ndarray2) (r c : nat) : bool :=
  nth (r * snd (shape2 a) + c) (buf2 a) false.

(** A 2D array given by its elements. *)
Definition tabulate2 (rows cols : nat) (f : nat -> nat -> bool) : ndarray2 :=
  {| shape2 := (rows, cols);
     buf2 := flat_map (fun r => map (f r) (seq 0 cols)) (seq 0 rows) |}.

(** The three basic slices [m[i, :, :]], [m[:, i, :]] and [m[:, :, i]]. *)
Definition slice_x (m : ndarray3) (i : nat) : ndarray2 :=
  tabulate2 (dim1 m) (dim2 m) (fun j k => get3 m i j k).
Definition slice_y (m : ndarray3) (i : nat) : ndarray2 :=
  tabulate2 (dim0 m) (dim2 m) (fun j k => get3 m j i k).
Definition slice_z (m : ndarray3) (i : nat) : ndarray2 :=
  tabulate2 (dim0 m) (dim1 m) (fun j k => get3 m j k i).

(** Signed 64-bit wrap-around. *)
Definition wrap64 (z : Z) : Z := ((z + 2 ^ 63) mod 2 ^ 64 - 2 ^ 63)%Z.

(** [np.sum] of a boolean array: the number of [True] elements, as int64. *)
Definition count_true (l : list bool) : nat :=
  List.length (List.filter (fun b => b) l).
Definition sum (m : ndarray3) : Z := wrap64 (Z.of_nat (count_true (buf3 m))).

(** [np.prod] of a shape tuple: int64 product. *)
Definition prod (s : nat * nat * nat) : Z :=
  let '(a, b, c) := s in
  wrap64 (wrap64 (Z.of_nat a * Z.of_nat b) * Z.of_nat c).

(** Flat indices of the non-zero elements, in buffer order. *)
Fixpoint flatnonzero_from (n : nat) (l : list bool) : list nat :=
  match l with
  | [] => []
  | b :: r => if b then n :: flatnonzero_from (S n) r
              else flatnonzero_from (S n) r
  end.
Definition flatnonzero (l : list bool) : list nat := flatnonzero_from 0 l.

(** [np.unravel_index] for a 3D shape in C order. *)
Definition unravel_index (s : nat * nat * nat) (n : nat) : nat * nat * nat :=
  let '(_, d1, d2) := s in
  (n / (d1 * d2), (n / d2) mod d1, n mod d2).

(** [np.argwhere]: one row of indices per non-zero element, C order. *)
Definition argwhere (m : ndarray3) : list (nat * nat * nat) :=
  map (unravel_index (shape3 m)) (flatnonzero (buf3 m)).

(** Integer indexing along an axis of length [n]: negative indices count
    from the end, anything else out of range is an [IndexError]. *)
Definition normalize_index (n : nat) (i : Z) : option nat :=
  if ((0 <=? i) && (i <? Z.of_nat n))%Z then Some (Z.to_nat i)
  else if ((- Z.of_nat n <=? i) && (i <? 0))%Z then Some (Z.to_nat (Z.of_nat n + i))
  else None.

(** The flat index of an index triple in C order. *)
Definition ravel (s : nat * nat * nat) (p : nat * nat * nat) : nat :=
  let '(_, d1, d2) := s in
  let '(i, j, k) := p in (i * d1 + j) * d2 + k.

End Np.

(** ** Binary64 helpers *)

(** The binary64 value nearest to an integer (NumPy's int64-to-float64
    conversion; exact below 2^53). *)
Definition float_of_Z (z : Z) : float :=
  SF2Prim (binary_normalize prec emax z 0 false).

(** Python's built-in [max] over an iterable: keep the current maximum unless
    the next item compares greater. *)
Definition py_max (first : float) (rest : list float) : float :=
  fold_left (fun maxitem item => if PrimFloat.ltb maxitem item then item else maxitem)
            rest first.

Definition vec3 : Type := float * float * float.

(** Element-wise [a - b] on arrays of three floats. *)
Definition vec3_sub (a b : vec3) : vec3 :=
  let '(a0, a1, a2) := a in
  let '(b0, b1, b2) := b in
  (PrimFloat.sub a0 b0, PrimFloat.sub a1 b1, PrimFloat.sub a2 b2).

Definition vec3_max (v : vec3) : float :=
  let '(v0, v1, v2) := v in py_max v0 [v1; v2].

(** ** Strings *)

Definition newline : string := String (ascii_of_nat 10) EmptyString.

(** [str(n)] for a non-negative integer. *)
Definition str_nat (n : nat) : string := NilZero.string_of_uint (Nat.to_uint n).

(** [str(z)] for an integer. *)
Definition str_Z (z : Z) : string := NilZero.string_of_int (Z.to_int z).

(** [s[:-4]]: the string without its last four characters. *)
Definition drop_last4 (s : string) : string :=
  substring 0 (String.length s - 4) s.

(** ** Objects of the mesh library and of the charting library *)

(** Python exceptions: the class name and the message.  For the exceptions
    whose text the script prints the message is [str(e)]; a [KeyError]
    carries the key it was raised with. *)
Inductive exn := Exn (cls : string) (msg : string).

Definition exn_str (e : exn) : string := let '(Exn _ msg) := e in msg.

Inductive result (A : Type) :=
| Ok (a : A)
| Raise (e : exn).
Arguments Ok {A} a.
Arguments Raise {A} e.

(** A loaded mesh, by the attributes the script reads.  [bounds] is [None]
    for a mesh without vertices. *)
Record Trimesh := {
  vertices : nat;
  faces : nat;
  volume : float;
  area : float;
  bounds : option (vec3 * vec3)
}.

(** A voxel grid object: the occupancy matrix, the library's own [pitch]
    attribute when it has one, and the [_pitch] attribute the script adds. *)
Record VoxelGrid := {
  matrix : Np.ndarray3;
  pitch : option float;
  _pitch : option float
}.

Definition set__pitch (p : float) (g : VoxelGrid) : VoxelGrid :=
  {| matrix := matrix g; pitch := pitch g; _pitch := Some p |}.

Inductive color_values :=
| ColorInt (l : list nat)
| ColorFloat (l : list float).

(** The description handed to [go.Figure(go.Scatter3d(...))]. *)
Record Figure3d := {
  fig_x : list nat;
  fig_y : list nat;
  fig_z : list nat;
  fig_marker_size : Z;
  fig_color : color_values;
  fig_colorscale : string;
  fig_opacity : float;
  fig_text : list string;
  fig_color_title : string;
  fig_voxels : nat
}.

(** The description handed to [px.imshow]. *)
Record Figure2d := {
  img_data : Np.ndarray2;
  img_title : string;
  img_labels : string * string;
  img_colorscale : string
}.

(** What [display_mesh_info] writes, by value (number formatting is the
    UI layer's). *)
Record mesh_info := {
  info_vertices : nat;
  info_faces : nat;
  info_volume : float;
  info_area : float
}.

Inductive pitch_line :=
| VoxelPitch (p : float)
| EstimatedVoxelPitch (p : float).

Record voxel_info := {
  info_grid_size : nat * nat * nat;
  info_filled : Z;
  info_total : Z;
  info_fill_ratio : float;
  info_pitch : pitch_line
}.

Inductive download_data :=
| NpyArray (shape : nat * nat * nat) (elements : list N)
| CsvText (text : string).

(** What the script puts on the page, in order.  Captions of widgets and
    of the sidebar are not recorded; what the user does with the widgets is
    the record [inputs] below. *)
Inductive ui_event :=
| StText (s : string)
| StImage (path : string)
| StInfo (msg : string)
| StWarning (msg : string)
| StError (msg : string)
| StMeshInfo (i : mesh_info)
| StBoundingBox (b : vec3 * vec3)
| StVoxelInfo (i : voxel_info)
| StPlotly3d (fig : Figure3d)
| StPlotly2d (fig : Figure2d)
| StDownloadButton (label : string) (data : download_data) (file_name mime : string).

(** ** The libraries the script calls *)

Class Library := {
  (** state of NumPy's global pseudorandom generator *)
  rng_state : Type;
  (** [np.random.seed] *)
  np_random_seed : Z -> rng_state;
  (** [np.random.rand(n)]: [n] draws and the state after them *)
  np_random_rand : rng_state -> nat -> list float * rng_state;
  (** [np.mean] of an integer array *)
  np_mean : list nat -> float;
  (** [trimesh.load_mesh], on the content of the file it is pointed at *)
  trimesh_load_mesh : list byte -> result Trimesh;
  (** [mesh.voxelized(pitch=...)] *)
  trimesh_voxelized : Trimesh -> float -> result VoxelGrid;
  (** the path [tempfile.NamedTemporaryFile] picks, given the suffix *)
  tempfile_name : gmap string (list byte) -> string -> string;
  (** [go.Scatter3d(marker=dict(size=..., colorscale=..., opacity=...))]:
      plotly's validation of the colour scale, the marker size and the
      opacity; it raises on a value it does not accept *)
  plotly_scatter3d : string -> Z -> float -> result unit;
  (** [px.imshow(..., color_continuous_scale=...)]: plotly's validation of
      the colour scale *)
  plotly_imshow : string -> result unit;
  (** [st.slider(label, min_value, max_value, value)] on a range that is
      not proper ([min_value < max_value] with the value inside): whether
      Streamlit accepts it *)
  streamlit_slider : Z -> Z -> Z -> result unit
}.

(** ** The world the script runs in *)

Record world `{Library} := {
  fs : gmap string (list byte);
  heap : gmap nat VoxelGrid;
  rng : rng_state;
  ui : list ui_event
}.

(** Computations: a result or a raised exception, and the world after. *)
Definition M `{Library} (A : Type) : Type := world -> result A * world.

Definition ret `{Library} {A} (a : A) : M A := fun w => (Ok a, w).

Definition raise `{Library} {A} (e : exn) : M A := fun w => (Raise e, w).

Definition bind `{Library} {A B} (m : M A) (k : A -> M B) : M B :=
  fun w => match m w with
           | (Ok a, w') => k a w'
           | (Raise e, w') => (Raise e, w')
           end.

Notation "x <- c1 ;; c2" := (bind c1 (fun x => c2))
  (at level 100, c1 at next level, right associativity).
Notation "c1 ;; c2" := (bind c1 (fun _ => c2))
  (at level 100, right associativity).

(** [try: body  except Exception as e: handler e]. *)
Definition try_except `{Library} {A} (body : M A) (handler : exn -> M A) : M A :=
  fun w => match body w with
           | (Ok a, w') => (Ok a, w')
           | (Raise e, w') => handler e w'
           end.

Definition lift `{Library} {A} (r : result A) : M A := fun w => (r, w).

Definition emit `{Library} (e : ui_event) : M unit :=
  fun w => (Ok tt, {| fs := fs w; heap := heap w; rng := rng w; ui := ui w ++ [e] |}).

Definition st_error `{Library} (msg : string) : M unit := emit (StError msg).
Definition st_warning `{Library} (msg : string) : M unit := emit (StWarning msg).

(** Reading an object through its reference. *)
Definition deref `{Library} (r : nat) : M VoxelGrid :=
  fun w => match heap w !! r with
           | Some g => (Ok g, w)
           | None => (Raise (Exn "ReferenceError" "no such object"), w)
           end.

(** A new object at a reference not in use. *)
Definition alloc `{Library} (g : VoxelGrid) : M nat :=
  fun w => let r := fresh (dom (heap w)) in
           (Ok r, {| fs := fs w; heap := <[r := g]> (heap w); rng := rng w; ui := ui w |}).

(** [setattr(obj, '_pitch', p)]. *)
Definition setattr__pitch `{Library} (r : nat) (p : float) : M unit :=
  fun w => match heap w !! r with
           | Some g => (Ok tt, {| fs := fs w; heap := <[r := set__pitch p g]> (heap w);
                                  rng := rng w; ui := ui w |})
           | None => (Raise (Exn "ReferenceError" "no such object"), w)
           end.

(** [with tempfile.NamedTemporaryFile(delete=False, suffix=...) as f:
       f.write(data); path = f.name] *)
Definition named_temporary_file `{Library} (suffix : string) (data : list byte) : M string :=
  fun w => let path := tempfile_name (fs w) suffix in
           (Ok path, {| fs := <[path := data]> (fs w); heap := heap w;
                        rng := rng w; ui := ui w |}).

(** [trimesh.load_mesh(path)] *)
Definition load_mesh `{Library} (path : string) : M Trimesh :=
  fun w => match fs w !! path with
           | Some content => (trimesh_load_mesh content, w)
           | None => (Raise (Exn "FileNotFoundError" path), w)
           end.

(** [os.unlink(path)] *)
Definition os_unlink `{Library} (path : string) : M unit :=
  fun w => match fs w !! path with
           | Some _ => (Ok tt, {| fs := delete path (fs w); heap := heap w;
                                  rng := rng w; ui := ui w |})
           | None => (Raise (Exn "FileNotFoundError" path), w)
           end.

(** [np.random.seed(s)] *)
Definition random_seed `{Library} (s : Z) : M unit :=
  fun w => (Ok tt, {| fs := fs w; heap := heap w; rng := np_random_seed s; ui := ui w |}).

(** [np.random.rand(n)] *)
Definition random_rand `{Library} (n : nat) : M (list float) :=
  fun w => let '(v, s) := np_random_rand (rng w) n in
           (Ok v, {| fs := fs w; heap := heap w; rng := s; ui := ui w |}).

(** ** The script: [load_stl_file] and [voxelize_mesh] *)

(** [uploaded_file]: the name of the upload and what [getvalue()] returns. *)
Definition UploadedFile : Type := string * list byte.

(** The [try] block of [load_stl_file]. *)
Definition load_stl_file_try `{Library} (uploaded_file : UploadedFile) : M (option Trimesh) :=
  tmp_file_path <- named_temporary_file ".stl" (snd uploaded_file) ;;
  mesh_obj <- load_mesh tmp_file_path ;;
  os_unlink tmp_file_path ;;
  ret (Some mesh_obj).

Definition load_stl_file `{Library} (uploaded_file : UploadedFile) : M (option Trimesh) :=
  try_except
    (load_stl_file_try uploaded_file)
    (fun e =>
       st_error ("Error loading STL file: " ++ exn_str e) ;;
       ret None).

(** [mesh_obj.bounds] followed by a subscript: a [TypeError] on [None]. *)
Definition get_bounds `{Library} (mesh_obj : Trimesh) : M (vec3 * vec3) :=
  match bounds mesh_obj with
  | Some b => ret b
  | None => raise (Exn "TypeError" "'NoneType' object is not subscriptable")
  end.

(** [max(bounds[1] - bounds[0])] *)
Definition max_extent (b : vec3 * vec3) : float :=
  vec3_max (vec3_sub (snd b) (fst b)).

(** The [try] block of [voxelize_mesh]. *)
Definition voxelize_mesh_try `{Library} (mesh_obj : Trimesh) (resolution : Z) : M (option nat) :=
  b <- get_bounds mesh_obj ;;
  let max_dimension := max_extent b in
  let pitch := PrimFloat.div max_dimension (float_of_Z resolution) in
  g <- lift (trimesh_voxelized mesh_obj pitch) ;;
  voxel_grid <- alloc g ;;
  setattr__pitch voxel_grid pitch ;;
  ret (Some voxel_grid).

Definition voxelize_mesh `{Library} (mesh_obj : Trimesh) (resolution : Z) : M (option nat) :=
  try_except
    (voxelize_mesh_try mesh_obj resolution)
    (fun e =>
       st_error ("Error voxelizing mesh: " ++ exn_str e) ;;
       ret None).

(** ** The 3D renderer *)

Definition col0 (rows : list (nat * nat * nat)) : list nat := map (fun p => fst (fst p)) rows.
Definition col1 (rows : list (nat * nat * nat)) : list nat := map (fun p => snd (fst p)) rows.
Definition col2 (rows : list (nat * nat * nat)) : list nat := map (fun p => snd p) rows.

(** [(v - c)**2] for an integer [v] and a float [c]. *)
Definition sq_dev (c : float) (v : nat) : float :=
  let d := PrimFloat.sub (float_of_Z (Z.of_nat v)) c in PrimFloat.mul d d.

Definition distance3 (cx cy cz : float) (p : nat * nat * nat) : float :=
  let '(x, y, z) := p in
  PrimFloat.sqrt (PrimFloat.add (PrimFloat.add (sq_dev cx x) (sq_dev cy y)) (sq_dev cz z)).

Definition distance2 (cx cy : float) (p : nat * nat * nat) : float :=
  let '(x, y, _) := p in
  PrimFloat.sqrt (PrimFloat.add (sq_dev cx x) (sq_dev cy y)).

(** The colouring policy: the scalar per occupied cell, and its title. *)
Definition color_policy `{Library} (color_by : string) (filled_positions : list (nat * nat * nat))
  : M (color_values * string) :=
  let x := col0 filled_positions in
  let y := col1 filled_positions in
  let z := col2 filled_positions in
  if String.eqb color_by "Z-coordinate" then ret (ColorInt z, "Z")
  else if String.eqb color_by "Y-coordinate" then ret (ColorInt y, "Y")
  else if String.eqb color_by "X-coordinate" then ret (ColorInt x, "X")
  else if String.eqb color_by "Distance from Center" then
    let center_x := np_mean x in
    let center_y := np_mean y in
    let center_z := np_mean z in
    ret (ColorFloat (map (distance3 center_x center_y center_z) filled_positions), "Distance")
  else if String.eqb color_by "Radial (XY)" then
    let center_x := np_mean x in
    let center_y := np_mean y in
    ret (ColorFloat (map (distance2 center_x center_y) filled_positions), "Radial XY")
  else
    random_seed 42 ;;
    color_values <- random_rand (List.length x) ;;
    ret (ColorFloat color_values, "Random").

Definition voxel_label (p : nat * nat * nat) : string :=
  let '(i, j, k) := p in
  "Voxel (" ++ str_nat i ++ "," ++ str_nat j ++ "," ++ str_nat k ++ ")".

(** [go.Figure(data=go.Scatter3d(...))]: the figure, once plotly has
    validated the marker; the exception it raises otherwise leaves the
    renderer. *)
Definition go_scatter3d `{Library} (fig : Figure3d) : M Figure3d :=
  lift (plotly_scatter3d (fig_colorscale fig) (fig_marker_size fig) (fig_opacity fig)) ;;
  ret fig.

Definition create_voxel_visualization `{Library} (voxel_grid : nat)
    (colormap color_by : string) (marker_size : Z) (opacity : float)
  : M (option Figure3d) :=
  vg <- deref voxel_grid ;;
  let filled_positions := Np.argwhere (matrix vg) in
  if List.length filled_positions =? 0 then
    st_warning "No voxels found in the mesh" ;;
    ret None
  else
    c <- color_policy color_by filled_positions ;;
    fig <- go_scatter3d {| fig_x := col0 filled_positions;
                           fig_y := col1 filled_positions;
                           fig_z := col2 filled_positions;
                           fig_marker_size := marker_size;
                           fig_color := fst c;
                           fig_colorscale := colormap;
                           fig_opacity := opacity;
                           fig_text := map voxel_label filled_positions;
                           fig_color_title := snd c;
                           fig_voxels := List.length (col0 filled_positions) |} ;;
    ret (Some fig).

(** ** The 2D slice renderer *)

(** [{'x': 0, 'y': 1, 'z': 2}[slice_axis]] *)
Definition axis_number `{Library} (slice_axis : string) : M nat :=
  if String.eqb slice_axis "x" then ret 0
  else if String.eqb slice_axis "y" then ret 1
  else if String.eqb slice_axis "z" then ret 2
  else raise (Exn "KeyError" slice_axis).

(** [shape[a]] for a 3-tuple; [a] comes from [axis_number]. *)
Definition shape_at (s : nat * nat * nat) (a : nat) : nat :=
  let '(d0, d1, d2) := s in
  match a with 0 => d0 | 1 => d1 | _ => d2 end.

(** An integer index on axis number [axis], of length [n]. *)
Definition take_index `{Library} (axis n : nat) (i : Z) : M nat :=
  match Np.normalize_index n i with
  | Some k => ret k
  | None => raise (Exn "IndexError"
                     ("index " ++ str_Z i ++ " is out of bounds for axis " ++ str_nat axis
                      ++ " with size " ++ str_nat n))
  end.

(** [px.imshow(slice_data, ...)]: the figure, once plotly has validated the
    colour scale; the exception it raises otherwise leaves the renderer. *)
Definition px_imshow `{Library} (fig : Figure2d) : M Figure2d :=
  lift (plotly_imshow (img_colorscale fig)) ;;
  ret fig.

Definition create_slice_visualization `{Library} (voxel_grid : nat)
    (slice_axis : string) (slice_index : option Z) (colormap : string)
  : M Figure2d :=
  vg <- deref voxel_grid ;;
  let volume := matrix vg in
  slice_index <- match slice_index with
                 | None =>
                     a <- axis_number slice_axis ;;
                     ret (Z.of_nat (shape_at (Np.shape3 volume) a / 2))
                 | Some i => ret i
                 end ;;
  if String.eqb slice_axis "x" then
    i <- take_index 0 (Np.dim0 volume) slice_index ;;
    px_imshow {| img_data := Np.slice_x volume i;
                 img_title := "X-slice at index " ++ str_Z slice_index;
                 img_labels := ("Y Coordinate", "Z Coordinate");
                 img_colorscale := colormap |}
  else if String.eqb slice_axis "y" then
    i <- take_index 1 (Np.dim1 volume) slice_index ;;
    px_imshow {| img_data := Np.slice_y volume i;
                 img_title := "Y-slice at index " ++ str_Z slice_index;
                 img_labels := ("X Coordinate", "Z Coordinate");
                 img_colorscale := colormap |}
  else
    i <- take_index 2 (Np.dim2 volume) slice_index ;;
    px_imshow {| img_data := Np.slice_z volume i;
                 img_title := "Z-slice at index " ++ str_Z slice_index;
                 img_labels := ("X Coordinate", "Y Coordinate");
                 img_colorscale := colormap |}.

(** ** The information panel *)

(** Python's [max] over a tuple of three integers. *)
Definition max_shape (s : nat * nat * nat) : nat :=
  let '(d0, d1, d2) := s in Nat.max (Nat.max d0 d1) d2.

(** True division of two int64 values. *)
Definition true_divide (a b : Z) : float :=
  PrimFloat.div (float_of_Z a) (float_of_Z b).

Definition display_mesh_info `{Library} (mesh_obj : Trimesh) (voxel_grid : nat) : M unit :=
  emit (StMeshInfo {| info_vertices := vertices mesh_obj;
                      info_faces := faces mesh_obj;
                      info_volume := volume mesh_obj;
                      info_area := area mesh_obj |}) ;;
  b <- get_bounds mesh_obj ;;
  emit (StBoundingBox b) ;;
  vg <- deref voxel_grid ;;
  let voxel_count := Np.sum (matrix vg) in
  let total_voxels := Np.prod (Np.shape3 (matrix vg)) in
  let fill_ratio := true_divide voxel_count total_voxels in
  let line :=
    match _pitch vg with
    | Some p => VoxelPitch p
    | None =>
        match pitch vg with
        | Some p => VoxelPitch p
        | None =>
            EstimatedVoxelPitch
              (PrimFloat.div (max_extent b)
                 (float_of_Z (Z.of_nat (max_shape (Np.shape3 (matrix vg))))))
        end
    end in
  emit (StVoxelInfo {| info_grid_size := Np.shape3 (matrix vg);
                       info_filled := voxel_count;
                       info_total := total_voxels;
                       info_fill_ratio := fill_ratio;
                       info_pitch := line |}).

(** ** The exporters *)

(** One line of [DataFrame.to_csv(index=False)]: the fields joined by commas. *)
Definition csv_line (fields : list string) : string :=
  String.concat "," fields ++ newline.

Definition csv_row (p : nat * nat * nat) : string :=
  let '(i, j, k) := p in csv_line [str_nat i; str_nat j; str_nat k].

(** [pd.DataFrame(rows, columns=['X', 'Y', 'Z']).to_csv(index=False)] *)
Definition to_csv (rows : list (nat * nat * nat)) : string :=
  csv_line ["X"; "Y"; "Z"] ++ String.concat EmptyString (map csv_row rows).

(** The coordinate export: the text offered for download. *)
Definition export_coordinates (m : Np.ndarray3) : string :=
  let filled_positions := Np.argwhere m in
  to_csv filled_positions.

(** [matrix.astype(np.uint8)] *)
Definition astype_uint8 (m : Np.ndarray3) : list N :=
  map (fun b : bool => if b then 1%N else 0%N) (Np.buf3 m).

(** ** The page *)

(** What the user did with the widgets; [None] leaves a widget at its default. *)
Record inputs := {
  uploaded_file : option UploadedFile;
  in_resolution : option Z;
  in_colormap : option nat;
  in_color_by : option nat;
  in_opacity : option float;
  in_marker_size : option Z;
  in_slice_axis : option nat;
  in_slice_index : option Z;
  in_slice_colormap : option nat;
  in_npy_button : bool;
  in_csv_button : bool
}.

(** The value of a slider over integers that Streamlit has accepted: the
    user's position when it lies in the range, the default otherwise. *)
Definition slider_value (lo hi default : Z) (user : option Z) : Z :=
  match user with
  | Some v => if ((lo <=? v) && (v <=? hi))%Z then v else default
  | None => default
  end.

(** The same over floats. *)
Definition slider_value_float (lo hi default : float) (user : option float) : float :=
  match user with
  | Some v => if PrimFloat.leb lo v && PrimFloat.leb v hi then v else default
  | None => default
  end.

(** [st.slider(label, lo, hi, default)] with bounds computed at run time.
    A proper range ([lo < hi], the default inside) is accepted; on any
    other, Streamlit decides, and the exception it raises leaves the
    script. *)
Definition st_slider `{Library} (lo hi default : Z) (user : option Z) : M Z :=
  (if ((lo <? hi) && (lo <=? default) && (default <=? hi))%Z then ret tt
   else lift (streamlit_slider lo hi default)) ;;
  ret (slider_value lo hi default user).

(** A select box: the option the user picked, the one at [index] otherwise. *)
Definition st_selectbox (options : list string) (index : nat) (user : option nat) : string :=
  match user with
  | Some i => if i <? List.length options then nth i options EmptyString
              else nth index options EmptyString
  | None => nth index options EmptyString
  end.

(** [options.index(value)] for a value that is in the list. *)
Fixpoint list_index (value : string) (options : list string) : nat :=
  match options with
  | [] => 0
  | o :: rest => if String.eqb o value then 0 else S (list_index value rest)
  end.

Definition colormap_options : list string :=
  [ "Viridis"; "Plasma"; "Inferno"; "Magma"; "Cividis";
    "Turbo"; "Rainbow"; "Jet"; "Hot"; "Cool"; "Spring"; "Summer";
    "Autumn"; "Winter"; "Spectral"; "RdYlBu"; "RdBu"; "PiYG";
    "BrBG"; "RdGy"; "PuOr"; "Sunset"; "Sunsetdark"; "Oryel";
    "Peach"; "Pinkyl"; "Mint"; "BluGrn"; "Darkmint"; "Electric";
    "Plotly3"; "Deep"; "Dense"; "Haline"; "Ice"; "Thermal" ].

Definition color_by_options : list string :=
  [ "Z-coordinate"; "Y-coordinate"; "X-coordinate";
    "Distance from Center"; "Radial (XY)"; "Random" ].

(** [st.image("image.png")]: fails when the file is not there. *)
Definition st_image `{Library} (path : string) : M unit :=
  fun w => match fs w !! path with
           | Some _ => emit (StImage path) w
           | None => (Raise (Exn "MediaFileStorageError" path), w)
           end.

(** The part of [main] under [if voxel_grid is not None]. *)
Definition show_grid `{Library} (i : inputs) (file_name : string)
    (mesh_obj : Trimesh) (voxel_grid : nat) : M unit :=
  display_mesh_info mesh_obj voxel_grid ;;
  emit (StText "---") ;;
  let selected_colormap := st_selectbox colormap_options 0 (in_colormap i) in
  let color_by := st_selectbox color_by_options 0 (in_color_by i) in
  let opacity := slider_value_float 0x1.999999999999ap-4 1 0x1.999999999999ap-1
                                    (in_opacity i) in
  let marker_size := slider_value 1 10 4 (in_marker_size i) in
  emit (StText "3D Voxel Visualization") ;;
  fig_3d <- create_voxel_visualization voxel_grid selected_colormap color_by marker_size opacity ;;
  match fig_3d with
  | Some fig => emit (StPlotly3d fig)
  | None => ret tt
  end ;;
  emit (StText "---") ;;
  emit (StText "2D Slice Visualization") ;;
  let slice_axis := st_selectbox ["x"; "y"; "z"] 0 (in_slice_axis i) in
  vg <- deref voxel_grid ;;
  a <- axis_number slice_axis ;;
  let max_slice := (Z.of_nat (shape_at (Np.shape3 (matrix vg)) a) - 1)%Z in
  slice_index <- st_slider 0 max_slice (max_slice / 2)%Z (in_slice_index i) ;;
  let slice_colormap :=
    st_selectbox colormap_options (list_index selected_colormap colormap_options)
                 (in_slice_colormap i) in
  fig_slice <- create_slice_visualization voxel_grid slice_axis (Some slice_index) slice_colormap ;;
  emit (StPlotly2d fig_slice) ;;
  emit (StText "---") ;;
  emit (StText "Export Options") ;;
  (if in_npy_button i then
     vg <- deref voxel_grid ;;
     let voxel_data := astype_uint8 (matrix vg) in
     emit (StDownloadButton "Download Voxel Array"
             (NpyArray (Np.shape3 (matrix vg)) voxel_data)
             (drop_last4 file_name ++ "_voxels.npy")
             "application/octet-stream")
   else ret tt) ;;
  (if in_csv_button i then
     vg <- deref voxel_grid ;;
     let csv := export_coordinates (matrix vg) in
     emit (StDownloadButton "Download Voxel Coordinates"
             (CsvText csv)
             (drop_last4 file_name ++ "_coordinates.csv")
             "text/csv")
   else ret tt).

(** The top of the page: title, branding image (a warning when it is
    missing), and the invitation to upload. *)
Definition page_header `{Library} : M unit :=
  emit (StText "Voxelize") ;;
  try_except (st_image "image.png")
    (fun _ => st_warning "Image 'image.png' not found in the current directory") ;;
  emit (StText "Upload an STL file to visualize it as voxels").

Definition main `{Library} (i : inputs) : M unit :=
  page_header ;;
  match uploaded_file i with
  | Some file =>
      mesh_obj <- load_stl_file file ;;
      match mesh_obj with
      | Some mesh_obj =>
          let resolution := slider_value 10 200 50 (in_resolution i) in
          voxel_grid <- voxelize_mesh mesh_obj resolution ;;
          match voxel_grid with
          | Some voxel_grid => show_grid i (fst file) mesh_obj voxel_grid
          | None => ret tt
          end
      | None => ret tt
      end
  | None =>
      emit (StInfo "Upload an STL file to get started!") ;;
      emit (StText "How to use this app")
  end.

(** Running a computation: the events it added to the page. *)
Definition events_of `{Library} {A} (m : M A) (w : world) : list ui_event :=
  drop (List.length (ui w)) (ui (snd (m w))).

(** ** Notions used to state the properties *)

(** Lexicographic order on index triples. *)
Definition lex_lt (p q : nat * nat * nat) : Prop :=
  let '(a, b, c) := p in
  let '(a', b', c') := q in
  a < a' \/ (a = a' /\ (b < b' \/ (b = b' /\ c < c'))).

(** The segments of a text between occurrences of a separator. *)
Fixpoint split_on (c : ascii) (s : string) : list string :=
  match s with
  | EmptyString => [EmptyString]
  | String a r =>
      if Ascii.eqb a c then EmptyString :: split_on c r
      else match split_on c r with
           | h :: t => String a h :: t
           | [] => [String a EmptyString]
           end
  end.

(** A text in which a character does not occur. *)
Fixpoint free_of (c : ascii) (s : string) : Prop :=
  match s with
  | EmptyString => True
  | String a r => a <> c /\ free_of c r
  end.

Definition comma : ascii := ascii_of_nat 44.
Definition linefeed : ascii := ascii_of_nat 10.

(** A row of the table without its line terminator. *)
Definition row_text (p : nat * nat * nat) : string :=
  let '(i, j, k) := p in String.concat "," [str_nat i; str_nat j; str_nat k].

(** [keeps R m]: running [m] takes every world to an [R]-related one. *)
Definition keeps `{Library} {A} (R : world -> world -> Prop) (m : M A) : Prop :=
  forall w, R w (snd (m w)).

(** The stored objects and the files are the same. *)
Definition same_store `{Library} (w w' : world) : Prop :=
  heap w' = heap w /\ fs w' = fs w.

(** The axis an axis name makes [create_slice_visualization] index: its
    length, and the cell of the grid at position [k] on it and [(a, b)] on
    the other two. *)
Definition sliced_length (m : Np.ndarray3) (slice_axis : string) : nat :=
  if String.eqb slice_axis "x" then Np.dim0 m
  else if String.eqb slice_axis "y" then Np.dim1 m
  else Np.dim2 m.

Definition sliced_cell (m : Np.ndarray3) (slice_axis : string) (k a b : nat) : bool :=
  if String.eqb slice_axis "x" then Np.get3 m k a b
  else if String.eqb slice_axis "y" then Np.get3 m a k b
  else Np.get3 m a b k.

(** The position an index in range stands for on an axis of length [n]. *)
Definition position (n : nat) (i : Z) : nat :=
  Z.to_nat (if (i <? 0)%Z then Z.of_nat n + i else i)%Z.

Definition color_length (c : color_values) : nat :=
  match c with
  | ColorInt v => List.length v
  | ColorFloat v => List.length v
  end.

(** Reading a coordinate table back: the header, then one row of three
    decimal numbers per line, every line terminated. *)
Definition read_nat (s : string) : option nat :=
  option_map Nat.of_uint (NilZero.uint_of_string s).

Definition read_row (s : string) : option (nat * nat * nat) :=
  match split_on comma s with
  | [a; b; c] =>
      match read_nat a, read_nat b, read_nat c with
      | Some i, Some j, Some k => Some (i, j, k)
      | _, _, _ => None
      end
  | _ => None
  end.

Fixpoint read_rows (lines : list string) : option (list (nat * nat * nat)) :=
  match lines with
  | [] => None
  | [rest] => if String.eqb rest EmptyString then Some [] else None
  | l :: lines' =>
      match read_row l, read_rows lines' with
      | Some p, Some ps => Some (p :: ps)
      | _, _ => None
      end
  end.

Definition read_coordinates (text : string) : option (list (nat * nat * nat)) :=
  match split_on linefeed text with
  | header :: lines => if String.eqb header "X,Y,Z" then read_rows lines else None
  | [] => None
  end.

(** The grid of a shape whose occupied cells are the listed ones. *)
Definition grid_of_cells (s : nat * nat * nat) (cells : list (nat * nat * nat)) : Np.ndarray3 :=
  let '(d0, d1, d2) := s in
  {| Np.shape3 := s;
     Np.buf3 := map (fun n => existsb (fun p => Nat.eqb (Np.ravel s p) n) cells)
                    (seq 0 (d0 * d1 * d2)) |}.

(** Reading an exported array back: non-zero is occupied. *)
Definition astype_bool (v : list N) : list bool :=
  map (fun n => negb (N.eqb n 0)) v.

(** What [show_grid] puts on the page for a grid, given the two figures. *)
Definition grid_page (i : inputs) (file_name : string) (vg : VoxelGrid)
    (info : list ui_event) (fig_3d : list ui_event) (fig_slice : Figure2d) : list ui_event :=
  info
  ++ [StText "---"; StText "3D Voxel Visualization"]
  ++ fig_3d
  ++ [StText "---"; StText "2D Slice Visualization"; StPlotly2d fig_slice;
      StText "---"; StText "Export Options"]
  ++ (if in_npy_button i then
        [StDownloadButton "Download Voxel Array"
           (NpyArray (Np.shape3 (matrix vg)) (astype_uint8 (matrix vg)))
           (drop_last4 file_name ++ "_voxels.npy") "application/octet-stream"]
      else [])
  ++ (if in_csv_button i then
        [StDownloadButton "Download Voxel Coordinates"
           (CsvText (export_coordinates (matrix vg)))
           (drop_last4 file_name ++ "_coordinates.csv") "text/csv"]
      else []).

(** The top of the page, given the files present. *)
Definition header_page (files : gmap string (list byte)) : list ui_event :=
  [ StText "Voxelize";
    match files !! "image.png" with
    | Some _ => StImage "image.png"
    | None => StWarning "Image 'image.png' not found in the current directory"
    end;
    StText "Upload an STL file to visualize it as voxels" ].

(** The figure description [create_voxel_visualization] builds for the
    occupied cells [cells] coloured by [c], the argument of the charting
    call. *)
Definition scatter_figure (cells : list (nat * nat * nat)) (c : color_values * string)
    (colormap : string) (marker_size : Z) (opacity : float) : Figure3d :=
  {| fig_x := col0 cells;
     fig_y := col1 cells;
     fig_z := col2 cells;
     fig_marker_size := marker_size;
     fig_color := fst c;
     fig_colorscale := colormap;
     fig_opacity := opacity;
     fig_text := map voxel_label cells;
     fig_color_title := snd c;
     fig_voxels := List.length (col0 cells) |}.

(** ** Binary64 rounding, as [SpecFloat] computes it *)

Module FloatSpec.
Local Open Scope Z_scope.

(** The record after [n] shifts, starting from [(m, r, s)]. *)
Fixpoint shifted (n : nat) (m : Z) (r s : bool) : shr_record :=
  match n with
  | O => Build_shr_record m r s
  | S k => let rec := shifted k m r s in
           Build_shr_record (shr_m rec / 2) (Z.odd (shr_m rec)) (shr_r rec || shr_s rec)
  end.

(** The round bit and the sticky bit of a location. *)
Definition loc_r (l : location) : bool :=
  match l with loc_Inexact Eq | loc_Inexact Gt => true | _ => false end.
Definition loc_s (l : location) : bool :=
  match l with loc_Inexact Lt | loc_Inexact Gt => true | _ => false end.

(** The float 1.0. *)
Definition sf_one : spec_float := S754_finite false 4503599627370496 (-52).

(** Round to nearest, ties to even, after dropping [s] low bits. *)
Definition rne (x s : Z) : Z :=
  let rec := shifted (Z.to_nat s) x false false in
  round_nearest_even (shr_m rec) (loc_of_shr_record rec).

(** The integer a binary64 conversion yields. *)
Definition rnd (c : Z) : Z :=
  let d := Zdigits2 c in
  if d <=? 53 then c else rne c (d - 53) * 2 ^ (d - 53).

End FloatSpec.

(** ** Concrete inputs

    A small stand-in for the libraries, on which the script can be run: a
    loader that rejects an empty file and otherwise returns a fixed mesh, a
    voxelizer that needs a positive pitch, a counter-based generator, a
    charting library that knows plotly's colour scales by name and wants
    a marker size of at least 0 and an opacity from 0 to 1, and a slider
    that refuses every range that is not proper. *)

Definition unit_cube : Trimesh :=
  {| vertices := 8; faces := 12; volume := 1%float; area := 6%float;
     bounds := Some ((0%float, 0%float, 0%float), (1%float, 1%float, 1%float)) |}.

(** A mesh without thickness or width: all its vertices coincide. *)
Definition flat_square : Trimesh :=
  {| vertices := 4; faces := 2; volume := 0%float; area := 0%float;
     bounds := Some ((0%float, 0%float, 0%float), (0%float, 0%float, 0%float)) |}.

(** A plate in the plane z = 0, and the grid of a plate: one plane along z. *)
Definition thin_plate : Trimesh :=
  {| vertices := 4; faces := 2; volume := 0%float; area := 1%float;
     bounds := Some ((0%float, 0%float, 0%float), (1%float, 1%float, 0%float)) |}.

Definition plate_grid : VoxelGrid :=
  {| matrix := Np.mk_ndarray3 (2, 2, 1) [true; true; false; true];
     pitch := Some 0.5%float; _pitch := None |}.

Definition demo_matrix : Np.ndarray3 :=
  Np.mk_ndarray3 (2, 2, 3)
    [ true; false; false;   true; true; false;
      false; false; false;  false; true; true ].

Definition demo_grid : VoxelGrid :=
  {| matrix := demo_matrix; pitch := Some 0.5%float; _pitch := None |}.

Definition empty_grid : VoxelGrid :=
  {| matrix := Np.mk_ndarray3 (0, 0, 0) []; pitch := None; _pitch := None |}.

(** The colour scales plotly knows by name (it ignores case). *)
Definition plotly_named_colorscales : list string :=
  [ "aggrnyl"; "agsunset"; "blackbody"; "bluered"; "blues"; "blugrn"; "bluyl";
    "brwnyl"; "bugn"; "bupu"; "burg"; "burgyl"; "cividis"; "darkmint"; "electric";
    "emrld"; "gnbu"; "greens"; "greys"; "hot"; "inferno"; "jet"; "magenta"; "magma";
    "mint"; "orrd"; "oranges"; "oryel"; "peach"; "pinkyl"; "plasma"; "plotly3";
    "pubu"; "pubugn"; "purd"; "purp"; "purples"; "purpor"; "rainbow"; "rdbu"; "rdpu";
    "redor"; "reds"; "sunset"; "sunsetdark"; "teal"; "tealgrn"; "turbo"; "viridis";
    "ylgn"; "ylgnbu"; "ylorbr"; "ylorrd"; "algae"; "amp"; "deep"; "dense"; "gray";
    "haline"; "ice"; "matter"; "solar"; "speed"; "tempo"; "thermal"; "turbid";
    "armyrose"; "brbg"; "earth"; "fall"; "geyser"; "prgn"; "piyg"; "picnic";
    "portland"; "puor"; "rdgy"; "rdylbu"; "rdylgn"; "spectral"; "tealrose"; "temps";
    "tropic"; "balance"; "curl"; "delta"; "oxy"; "edge"; "hsv"; "icefire"; "phase";
    "twilight"; "mrybm"; "mygbm" ].

Definition lower_ascii (a : ascii) : ascii :=
  let n := nat_of_ascii a in
  if (65 <=? n) && (n <=? 90) then ascii_of_nat (n + 32) else a.

Fixpoint lower (s : string) : string :=
  match s with
  | EmptyString => EmptyString
  | String a r => String (lower_ascii a) (lower r)
  end.

Definition named_colorscale (name : string) : bool :=
  existsb (String.eqb (lower name)) plotly_named_colorscales.

Definition demo_library : Library :=
  {| rng_state := Z;
     np_random_seed := fun s => s;
     np_random_rand := fun s n =>
       (map (fun k => PrimFloat.div (float_of_Z ((s + Z.of_nat k) mod 7)) 7%float) (seq 0 n),
        (s + Z.of_nat n)%Z);
     np_mean := fun l =>
       PrimFloat.div (float_of_Z (Z.of_nat (list_sum l)))
                     (float_of_Z (Z.of_nat (List.length l)));
     trimesh_load_mesh := fun content =>
       match content with
       | [] => Raise (Exn "ValueError" "file is empty")
       | [x00] => Ok flat_square
       | [x01] => Ok thin_plate
       | _ => Ok unit_cube
       end;
     trimesh_voxelized := fun mesh_obj p =>
       if PrimFloat.ltb 0%float p then
         if faces mesh_obj =? 2 then Ok plate_grid else Ok demo_grid
       else Raise (Exn "ValueError" "pitch must be positive");
     tempfile_name := fun _ suffix => ("/tmp/tmpvoxelize" ++ suffix)%string;
     plotly_scatter3d := fun colorscale size opacity =>
       if named_colorscale colorscale && (0 <=? size)%Z
          && PrimFloat.leb 0 opacity && PrimFloat.leb opacity 1
       then Ok tt
       else Raise (Exn "ValueError" "Invalid value received for a property of scatter3d.marker");
     plotly_imshow := fun colorscale =>
       if named_colorscale colorscale then Ok tt
       else Raise (Exn "ValueError" "Invalid value received for the 'colorscale' property");
     streamlit_slider := fun _ _ _ =>
       Raise (Exn "StreamlitAPIException"
                "Slider min_value must be less than the max_value") |}.

(** A world with one grid, at reference 0, and an empty grid at 1. *)
Definition demo_world : @world demo_library :=
  {| fs := ∅; heap := {[ 0 := demo_grid; 1 := empty_grid ]};
     rng := np_random_seed 7; ui := [] |}.

Definition demo_file : UploadedFile := ("cube.stl", [x73; x6f; x6c; x69; x64]).
Definition empty_file : UploadedFile := ("empty.stl", []).
Definition flat_file : UploadedFile := ("flat.stl", [x00]).
Definition plate_file : UploadedFile := ("plate.stl", [x01]).

Definition no_input : inputs :=
  {| uploaded_file := None; in_resolution := None; in_colormap := None;
     in_color_by := None; in_opacity := None; in_marker_size := None;
     in_slice_axis := None; in_slice_index := None; in_slice_colormap := None;
     in_npy_button := false; in_csv_button := false |}.

Definition upload (file : UploadedFile) : inputs :=
  {| uploaded_file := Some file; in_resolution := None; in_colormap := None;
     in_color_by := None; in_opacity := None; in_marker_size := None;
     in_slice_axis := None; in_slice_index := None; in_slice_colormap := None;
     in_npy_button := false; in_csv_button := true |}.

(** An upload with every widget moved: 80 cells per extent, the "Hot"
    colour scheme, random colours, the last z plane in "Jet", and both
    export buttons pressed. *)
Definition busy_upload (file : UploadedFile) : inputs :=
  {| uploaded_file := Some file; in_resolution := Some 80%Z; in_colormap := Some 8;
     in_color_by := Some 5; in_opacity := Some 0.5%float; in_marker_size := Some 6%Z;
     in_slice_axis := Some 2; in_slice_index := Some 2%Z; in_slice_colormap := Some 7;
     in_npy_button := true; in_csv_button := true |}.

(** An upload shown in the colour scheme "Spring", everything else left at
    its default. *)
Definition spring_upload (file : UploadedFile) : inputs :=
  {| uploaded_file := Some file; in_resolution := None; in_colormap := Some 10;
     in_color_by := None; in_opacity := None; in_marker_size := None;
     in_slice_axis := None; in_slice_index := None; in_slice_colormap := None;
     in_npy_button := false; in_csv_button := false |}.

(** An upload sliced along z, everything else left at its default. *)
Definition upload_sliced_along_z (file : UploadedFile) : inputs :=
  {| uploaded_file := Some file; in_resolution := None; in_colormap := None;
     in_color_by := None; in_opacity := None; in_marker_size := None;
     in_slice_axis := Some 2; in_slice_index := None; in_slice_colormap := None;
     in_npy_button := false; in_csv_button := false |}.

(** * Properties of the array operations *)

Module NpFacts.
Import Np.

Lemma count_true_cons b l :
  count_true (b :: l) = (if b then 1 else 0) + count_true l.
Proof. unfold count_true; simpl; destruct b; reflexivity. Qed.

Lemma count_true_le l : count_true l <= List.length l.
Proof.
  induction l as [|b l IH]; [reflexivity|].
  rewrite count_true_cons; simpl; destruct b; lia.
Qed.

Lemma length_flatnonzero_from l : forall n,
  List.length (flatnonzero_from n l) = count_true l.
Proof.
  induction l as [|b l IH]; intros n; [reflexivity|].
  rewrite count_true_cons; simpl; destruct b; simpl; rewrite IH; reflexivity.
Qed.

Lemma In_flatnonzero_from l : forall n i,
  In i (flatnonzero_from n l) <->
  n <= i < n + List.length l /\ nth (i - n) l false = true.
Proof.
  induction l as [|b l IH]; intros n i; simpl.
  - split; [tauto | lia].
  - assert (Hstep : In i (flatnonzero_from (S n) l) <->
                    S n <= i < n + S (List.length l) /\
                    nth (i - S n) l false = true).
    { rewrite IH. replace (S n + List.length l) with (n + S (List.length l)) by lia.
      reflexivity. }
    destruct b; simpl; rewrite ?Hstep; split.
    + intros [<- | [Hr Hn]].
      * rewrite Nat.sub_diag; split; [lia | reflexivity].
      * split; [lia|]. destruct (i - n) as [|k] eqn:E; [lia|].
        replace k with (i - S n) by lia; exact Hn.
    + intros [Hr Hn]. destruct (i - n) as [|k] eqn:E.
      * left; lia.
      * right; split; [lia|]. replace (i - S n) with k by lia; exact Hn.
    + intros [Hr Hn]. split; [lia|]. destruct (i - n) as [|k] eqn:E; [lia|].
      replace k with (i - S n) by lia; exact Hn.
    + intros [Hr Hn]. destruct (i - n) as [|k] eqn:E; [discriminate|].
      split; [lia|]. replace (i - S n) with k by lia; exact Hn.
Qed.

Lemma In_flatnonzero l i :
  In i (flatnonzero l) <-> i < List.length l /\ nth i l false = true.
Proof.
  unfold flatnonzero; rewrite In_flatnonzero_from, Nat.sub_0_r; simpl.
  split; intros [? ?]; split; auto; lia.
Qed.

Lemma flatnonzero_from_sorted l : forall n,
  StronglySorted lt (flatnonzero_from n l).
Proof.
  induction l as [|b l IH]; intros n; simpl; [constructor|].
  destruct b; [|apply IH].
  constructor; [apply IH|].
  apply List.Forall_forall; intros i Hi.
  apply In_flatnonzero_from in Hi; lia.
Qed.

Lemma unravel_index_range d0 d1 d2 n :
  n < d0 * d1 * d2 ->
  let '(i, j, k) := unravel_index (d0, d1, d2) n in
  i < d0 /\ j < d1 /\ k < d2.
Proof.
  intros Hn; simpl.
  assert (H1 : d1 <> 0) by (intros ->; lia).
  assert (H2 : d2 <> 0) by (intros ->; lia).
  repeat split.
  - apply Nat.Div0.div_lt_upper_bound; lia.
  - apply Nat.mod_upper_bound; exact H1.
  - apply Nat.mod_upper_bound; exact H2.
Qed.

Lemma ravel_unravel d0 d1 d2 n :
  ravel (d0, d1, d2) (unravel_index (d0, d1, d2) n) = n.
Proof.
  simpl.
  replace (n / (d1 * d2)) with (n / d2 / d1)
    by (rewrite Nat.Div0.div_div; f_equal; lia).
  pose proof (Nat.div_mod_eq (n / d2) d1).
  pose proof (Nat.div_mod_eq n d2). lia.
Qed.

Lemma unravel_index_lt d0 d1 d2 n n' :
  n < n' -> n' < d0 * d1 * d2 ->
  lex_lt (unravel_index (d0, d1, d2) n) (unravel_index (d0, d1, d2) n').
Proof.
  intros Hlt Hn'; simpl.
  assert (H1 : d1 <> 0) by (intros ->; lia).
  assert (H2 : d2 <> 0) by (intros ->; lia).
  replace (n / (d1 * d2)) with (n / d2 / d1)
    by (rewrite Nat.Div0.div_div; f_equal; lia).
  replace (n' / (d1 * d2)) with (n' / d2 / d1)
    by (rewrite Nat.Div0.div_div; f_equal; lia).
  pose proof (Nat.div_mod_eq n d2) as E.
  pose proof (Nat.div_mod_eq n' d2) as E'.
  pose proof (Nat.div_mod_eq (n / d2) d1) as F.
  pose proof (Nat.div_mod_eq (n' / d2) d1) as F'.
  pose proof (Nat.mod_upper_bound n d2 H2).
  pose proof (Nat.mod_upper_bound n' d2 H2).
  pose proof (Nat.mod_upper_bound (n / d2) d1 H1).
  pose proof (Nat.mod_upper_bound (n' / d2) d1 H1).
  assert (Hq : n / d2 <= n' / d2) by (apply Nat.Div0.div_le_mono; lia).
  assert (Hp : n / d2 / d1 <= n' / d2 / d1) by (apply Nat.Div0.div_le_mono; lia).
  destruct (Nat.eq_dec (n / d2 / d1) (n' / d2 / d1)) as [Ea|Na]; [|left; lia].
  right; split; [exact Ea|].
  destruct (Nat.eq_dec ((n / d2) mod d1) ((n' / d2) mod d1)) as [Eb|Nb].
  - right; split; [exact Eb|].
    assert (n / d2 = n' / d2) by congruence. nia.
  - left. rewrite Ea in F. nia.
Qed.

End NpFacts.

Module ArgwhereFacts.
Import Np NpFacts.

Lemma unravel_ravel d0 d1 d2 i j k :
  j < d1 -> k < d2 ->
  unravel_index (d0, d1, d2) (ravel (d0, d1, d2) (i, j, k)) = (i, j, k).
Proof.
  intros Hj Hk; simpl.
  assert (E2 : ((i * d1 + j) * d2 + k) / d2 = i * d1 + j).
  { symmetry; apply (Nat.div_unique _ _ _ k); lia. }
  assert (E3 : ((i * d1 + j) * d2 + k) mod d2 = k).
  { symmetry; apply (Nat.mod_unique _ _ (i * d1 + j)); lia. }
  replace (((i * d1 + j) * d2 + k) / (d1 * d2))
    with (((i * d1 + j) * d2 + k) / d2 / d1)
    by (rewrite Nat.Div0.div_div; f_equal; lia).
  rewrite E2, E3.
  assert (E0 : (i * d1 + j) / d1 = i).
  { symmetry; apply (Nat.div_unique _ _ _ j); lia. }
  assert (E1 : (i * d1 + j) mod d1 = j).
  { symmetry; apply (Nat.mod_unique _ _ i); lia. }
  rewrite E0, E1; reflexivity.
Qed.

Lemma ravel_lt d0 d1 d2 i j k :
  i < d0 -> j < d1 -> k < d2 -> ravel (d0, d1, d2) (i, j, k) < d0 * d1 * d2.
Proof.
  intros Hi Hj Hk; simpl.
  assert (H1 : i * d1 + j + 1 <= d0 * d1) by nia.
  assert (H2 : (i * d1 + j + 1) * d2 <= d0 * d1 * d2)
    by (apply Nat.mul_le_mono_r; exact H1).
  lia.
Qed.

Lemma get3_unravel m n :
  let '(i, j, k) := unravel_index (shape3 m) n in
  get3 m i j k = nth n (buf3 m) false.
Proof.
  destruct m as [[[d0 d1] d2] buf].
  pose proof (ravel_unravel d0 d1 d2 n) as E.
  unfold get3, dim1, dim2; simpl in *. rewrite E; reflexivity.
Qed.

(** The rows of [argwhere] are exactly the in-range indices of the [True]
    cells. *)
Lemma In_argwhere m i j k :
  wf3 m ->
  In (i, j, k) (argwhere m) <->
  i < dim0 m /\ j < dim1 m /\ k < dim2 m /\ get3 m i j k = true.
Proof.
  intros [Hlen _]. unfold argwhere. rewrite List.in_map_iff.
  destruct m as [[[d0 d1] d2] buf]; unfold dim0, dim1, dim2 in *; simpl in *.
  split.
  - intros (n & Hn & Hin). apply In_flatnonzero in Hin as [Hlt Hnth].
    rewrite Hlen in Hlt.
    pose proof (unravel_index_range d0 d1 d2 n Hlt) as Hr.
    pose proof (get3_unravel (mk_ndarray3 (d0, d1, d2) buf) n) as Hg.
    unfold get3, dim1, dim2 in *. simpl in Hn, Hr, Hg.
    injection Hn as <- <- <-.
    destruct Hr as (? & ? & ?). repeat split; auto.
    simpl. rewrite Hg. exact Hnth.
  - intros (Hi & Hj & Hk & Hg).
    exists (ravel (d0, d1, d2) (i, j, k)). split.
    + apply (unravel_ravel d0 d1 d2 i j k); assumption.
    + apply In_flatnonzero. split.
      * rewrite Hlen. apply ravel_lt; assumption.
      * exact Hg.
Qed.

Lemma StronglySorted_map {A B} (R : A -> A -> Prop) (R' : B -> B -> Prop)
    (f : A -> B) (l : list A) :
  (forall x y, In x l -> In y l -> R x y -> R' (f x) (f y)) ->
  StronglySorted R l -> StronglySorted R' (map f l).
Proof.
  intros Hf Hs. induction Hs as [|a l Hs IH Hall]; simpl; [constructor|].
  constructor.
  - apply IH. intros x y Hx Hy; apply Hf; right; assumption.
  - apply List.Forall_forall. intros b Hb.
    apply List.in_map_iff in Hb as (x & <- & Hx).
    apply Hf; [left; reflexivity | right; exact Hx |].
    rewrite List.Forall_forall in Hall. apply Hall; exact Hx.
Qed.

(** The rows come in strictly ascending lexicographic order. *)
Lemma argwhere_sorted m :
  wf3 m -> StronglySorted lex_lt (argwhere m).
Proof.
  intros [Hlen _]. unfold argwhere.
  apply (StronglySorted_map lt); [|apply flatnonzero_from_sorted].
  intros n n' _ Hn' Hlt.
  apply In_flatnonzero in Hn' as [Hb _]. rewrite Hlen in Hb.
  destruct m as [[[d0 d1] d2] buf]; unfold dim0, dim1, dim2 in *; simpl in *.
  apply (unravel_index_lt d0 d1 d2); assumption.
Qed.

Lemma length_argwhere m :
  List.length (argwhere m) = count_true (buf3 m).
Proof.
  unfold argwhere, flatnonzero.
  rewrite List.length_map. apply length_flatnonzero_from.
Qed.

End ArgwhereFacts.

(** * Properties of the 64-bit counts *)

Module CountFacts.
Import Np.

Lemma wrap64_small (z : Z) :
  (- 2 ^ 63 <= z < 2 ^ 63)%Z -> wrap64 z = z.
Proof.
  intros Hz. unfold wrap64.
  rewrite Z.mod_small by lia. lia.
Qed.

Lemma wrap64_mul_l (x y : Z) : wrap64 (wrap64 x * y) = wrap64 (x * y).
Proof.
  unfold wrap64. f_equal.
  replace (((x + 2 ^ 63) mod 2 ^ 64 - 2 ^ 63) * y + 2 ^ 63)%Z
    with (((x + 2 ^ 63) mod 2 ^ 64) * y + (2 ^ 63 - 2 ^ 63 * y))%Z by ring.
  rewrite Z.add_mod, Z.mul_mod_idemp_l, <- Z.add_mod by lia.
  f_equal. ring.
Qed.

Lemma prod_shape (m : ndarray3) :
  wf3 m -> prod (shape3 m) = Z.of_nat (dim0 m * dim1 m * dim2 m).
Proof.
  intros [_ Hb]. destruct m as [[[d0 d1] d2] buf]; unfold dim0, dim1, dim2 in *.
  simpl in *. rewrite wrap64_mul_l, wrap64_small; lia.
Qed.

Lemma sum_count (m : ndarray3) :
  wf3 m -> sum m = Z.of_nat (count_true (buf3 m)).
Proof.
  intros [Hl Hb]. unfold sum. apply wrap64_small.
  pose proof (NpFacts.count_true_le (buf3 m)). lia.
Qed.

End CountFacts.

(** * Properties of binary64 division of counts

    The operations on primitive floats are specified by the kernel's axioms
    in terms of [SpecFloat]; the lemmas below follow a quotient of two
    converted integers through that specification. *)

Module FloatFacts.
Import FloatSpec.
Local Open Scope Z_scope.

Lemma float_of_Z_spec (z : Z) :
  0 <= z < 2 ^ 63 ->
  Prim2SF (float_of_Z z) = binary_normalize prec emax z 0 false.
Proof.
  intros Hz. unfold float_of_Z.
  assert (E : binary_normalize prec emax z 0 false = Prim2SF (of_uint63 (Uint63.of_Z z))).
  { rewrite FloatAxioms.of_uint63_spec. f_equal.
    rewrite Uint63.of_Z_spec. symmetry. apply Z.mod_small.
    change Uint63.wB with (2 ^ 63). lia. }
  rewrite E, FloatAxioms.SF2Prim_Prim2SF. reflexivity.
Qed.

(** ** Right shifts with round and sticky bits *)

Lemma iter_pos_nat {A} (f : A -> A) (p : positive) (x : A) :
  SpecFloat.iter_pos f p x = Nat.iter (Pos.to_nat p) f x.
Proof.
  revert x. induction p as [p IH|p IH|]; intros x; cbn [SpecFloat.iter_pos].
  - rewrite !IH, Pos2Nat.inj_xI.
    replace (S (2 * Pos.to_nat p))%nat with (Pos.to_nat p + (Pos.to_nat p + 1))%nat by lia.
    rewrite !Nat.iter_add. reflexivity.
  - rewrite !IH, Pos2Nat.inj_xO.
    replace (2 * Pos.to_nat p)%nat with (Pos.to_nat p + Pos.to_nat p)%nat by lia.
    rewrite Nat.iter_add. reflexivity.
  - reflexivity.
Qed.

Lemma shr_1_spec (m : Z) (r s : bool) :
  0 <= m ->
  shr_1 (Build_shr_record m r s) = Build_shr_record (m / 2) (Z.odd m) (r || s).
Proof.
  intros Hm. destruct m as [|p|p]; [reflexivity | | lia].
  destruct p as [p|p|]; simpl.
  - f_equal. rewrite Pos2Z.inj_xI. apply (Z.div_unique _ _ _ 1); lia.
  - f_equal. rewrite Pos2Z.inj_xO. apply (Z.div_unique _ _ _ 0); lia.
  - reflexivity.
Qed.

Lemma shifted_m (n : nat) (m : Z) (r s : bool) :
  0 <= m -> shr_m (shifted n m r s) = m / 2 ^ Z.of_nat n.
Proof.
  intros Hm. induction n as [|n IH].
  - simpl. rewrite Z.div_1_r. reflexivity.
  - cbn [shifted shr_m]. rewrite IH, Nat2Z.inj_succ, Z.pow_succ_r by lia.
    rewrite Z.div_div by lia. f_equal. lia.
Qed.

Lemma shifted_nonneg (n : nat) (m : Z) (r s : bool) :
  0 <= m -> 0 <= shr_m (shifted n m r s).
Proof. intros Hm. rewrite shifted_m by exact Hm. apply Z.div_pos; lia. Qed.

Lemma iter_shr_1 (n : nat) (m : Z) (r s : bool) :
  0 <= m -> Nat.iter n shr_1 (Build_shr_record m r s) = shifted n m r s.
Proof.
  intros Hm. induction n as [|n IH]; [reflexivity|].
  simpl Nat.iter. rewrite IH.
  pose proof (shifted_nonneg n m r s Hm) as Hn.
  cbn [shifted]. destruct (shifted n m r s) as [m' r' s']. simpl in *.
  apply shr_1_spec; exact Hn.
Qed.


(** ** Binary digits *)

Lemma digits2_pos_bounds (p : positive) :
  2 ^ (Zpos (digits2_pos p) - 1) <= Zpos p < 2 ^ Zpos (digits2_pos p).
Proof.
  induction p as [p IH|p IH|]; cbn [digits2_pos].
  - rewrite Pos2Z.inj_succ, (Pos2Z.inj_xI p).
    replace (Z.succ (Zpos (digits2_pos p)) - 1) with (Z.succ (Zpos (digits2_pos p) - 1)) by lia.
    rewrite !Z.pow_succ_r by lia.
    revert IH. generalize (2 ^ (Zpos (digits2_pos p) - 1)) (2 ^ Zpos (digits2_pos p)).
    intros a b IH. lia.
  - rewrite Pos2Z.inj_succ, (Pos2Z.inj_xO p).
    replace (Z.succ (Zpos (digits2_pos p)) - 1) with (Z.succ (Zpos (digits2_pos p) - 1)) by lia.
    rewrite !Z.pow_succ_r by lia.
    revert IH. generalize (2 ^ (Zpos (digits2_pos p) - 1)) (2 ^ Zpos (digits2_pos p)).
    intros a b IH. lia.
  - simpl. lia.
Qed.

Lemma Zdigits2_bounds (m : Z) :
  0 < m -> 2 ^ (Zdigits2 m - 1) <= m < 2 ^ Zdigits2 m.
Proof.
  destruct m as [|p|p]; try lia. intros _. apply digits2_pos_bounds.
Qed.

Lemma Zdigits2_nonneg (m : Z) : 0 <= Zdigits2 m.
Proof. destruct m; simpl; lia. Qed.

Lemma Zdigits2_le_pow (m k : Z) :
  0 <= m -> 0 <= k -> m <= 2 ^ k -> Zdigits2 m <= k + 1.
Proof.
  intros Hm Hk Hle.
  destruct (Z.eq_dec m 0) as [->|Hne]; [simpl; lia|].
  pose proof (Zdigits2_bounds m ltac:(lia)) as [Hlo _].
  pose proof (Zdigits2_nonneg m).
  destruct (Z.le_gt_cases (Zdigits2 m) (k + 1)) as [|Hgt]; [assumption|].
  exfalso.
  assert (2 ^ k < 2 ^ (Zdigits2 m - 1)) by (apply Z.pow_lt_mono_r; lia).
  lia.
Qed.

Lemma Zdigits2_unique (m k : Z) :
  2 ^ (k - 1) <= m < 2 ^ k -> 0 < k -> Zdigits2 m = k.
Proof.
  intros [Hlo Hhi] Hk.
  assert (Hm : 0 < m) by (pose proof (Z.pow_pos_nonneg 2 (k - 1)); lia).
  pose proof (Zdigits2_bounds m Hm) as [Hlo' Hhi'].
  pose proof (Zdigits2_nonneg m).
  destruct (Z.lt_trichotomy (Zdigits2 m) k) as [Hlt | [Heq | Hgt]]; [|assumption|].
  - exfalso. assert (2 ^ Zdigits2 m <= 2 ^ (k - 1)) by (apply Z.pow_le_mono_r; lia). lia.
  - exfalso. assert (2 ^ k <= 2 ^ (Zdigits2 m - 1)) by (apply Z.pow_le_mono_r; lia). lia.
Qed.

(** ** One rounding step: [shr_fexp] *)

Lemma shr_record_of_loc_spec (m : Z) (l : location) :
  shr_record_of_loc m l = Build_shr_record m (loc_r l) (loc_s l).
Proof. destruct l as [|[| |]]; reflexivity. Qed.

Lemma shr_fexp_spec (m e : Z) (l : location) :
  0 <= m ->
  let e1 := Z.max e (fexp prec emax (Zdigits2 m + e)) in
  shr_fexp prec emax m e l = (shifted (Z.to_nat (e1 - e)) m (loc_r l) (loc_s l), e1).
Proof.
  intros Hm e1. unfold shr_fexp, shr. rewrite shr_record_of_loc_spec.
  destruct (fexp prec emax (Zdigits2 m + e) - e) as [|p|p] eqn:E.
  - replace e1 with e by lia. rewrite Z.sub_diag. reflexivity.
  - replace e1 with (e + Zpos p) by lia.
    rewrite iter_pos_nat, iter_shr_1 by exact Hm.
    replace (e + Zpos p - e) with (Zpos p) by lia. reflexivity.
  - replace e1 with e by lia. rewrite Z.sub_diag. reflexivity.
Qed.


Lemma fexp_eq (x : Z) : fexp prec emax x = Z.max (x - 53) (-1074).
Proof. reflexivity. Qed.

Lemma shifted_r (k : nat) (m : Z) (r s : bool) :
  0 <= m -> shr_r (shifted (S k) m r s) = Z.odd (m / 2 ^ Z.of_nat k).
Proof. intros Hm. cbn [shifted shr_r]. rewrite shifted_m by exact Hm. reflexivity. Qed.

(** A value of at most one stays so under truncation, strictly below one when
    something was cut off. *)
Lemma shifted_le_one (q e e1 : Z) (r s : bool) :
  0 <= q -> e <= e1 -> e1 <= 0 ->
  q <= 2 ^ (- e) -> (r = true -> q < 2 ^ (- e)) ->
  shr_m (shifted (Z.to_nat (e1 - e)) q r s) <= 2 ^ (- e1) /\
  (shr_r (shifted (Z.to_nat (e1 - e)) q r s) = true ->
   shr_m (shifted (Z.to_nat (e1 - e)) q r s) < 2 ^ (- e1)).
Proof.
  intros Hq He He1 Hle Hr.
  assert (Hsplit : 2 ^ (- e) = 2 ^ (e1 - e) * 2 ^ (- e1)).
  { rewrite <- Z.pow_add_r by lia. f_equal. lia. }
  assert (Hp : 0 < 2 ^ (e1 - e)) by (apply Z.pow_pos_nonneg; lia).
  assert (Hp1 : 0 < 2 ^ (- e1)) by (apply Z.pow_pos_nonneg; lia).
  rewrite shifted_m by exact Hq. rewrite Z2Nat.id by lia.
  split.
  - apply Z.div_le_upper_bound; lia.
  - destruct (Z.to_nat (e1 - e)) as [|k] eqn:Ek.
    + assert (e1 = e) by lia. subst e1. simpl. rewrite Z.sub_diag in *.
      simpl. rewrite Z.div_1_r. exact Hr.
    + rewrite shifted_r by exact Hq. intros Hodd.
      apply Z.div_lt_upper_bound; [exact Hp|].
      destruct (Z.eq_dec q (2 ^ (- e))) as [Heq|Hne]; [|lia].
      exfalso. rewrite Heq in Hodd.
      assert (Hk : Z.of_nat k = e1 - e - 1) by lia.
      rewrite Hk, <- Z.pow_sub_r in Hodd by lia.
      rewrite Z.odd_pow in Hodd by lia. discriminate.
Qed.

Lemma round_nearest_even_bounds (rec : shr_record) :
  let m2 := round_nearest_even (shr_m rec) (loc_of_shr_record rec) in
  shr_m rec <= m2 <= shr_m rec + 1 /\ (m2 <> shr_m rec -> shr_r rec = true).
Proof.
  destruct rec as [m [|] [|]]; simpl; try destruct (Z.even m); split; try lia; auto.
Qed.

(** Rounding a value of at most one gives a float in [0, 1]. *)
Lemma binary_round_aux_le_one (q e : Z) (l : location) :
  0 <= q -> e <= -52 ->
  q <= 2 ^ (- e) -> (l <> loc_Exact -> q < 2 ^ (- e)) ->
  SFleb (binary_round_aux prec emax false q e l) sf_one = true /\
  SFleb (S754_zero false) (binary_round_aux prec emax false q e l) = true.
Proof.
  intros Hq He Hle Hl.
  unfold binary_round_aux.
  rewrite (shr_fexp_spec q e l Hq).
  set (e1 := Z.max e (fexp prec emax (Zdigits2 q + e))).
  assert (He1 : e <= e1 <= -52).
  { subst e1. rewrite fexp_eq.
    pose proof (Zdigits2_le_pow q (- e) Hq ltac:(lia) Hle). lia. }
  destruct (shifted_le_one q e e1 (loc_r l) (loc_s l) Hq ltac:(lia) ltac:(lia) Hle)
    as [Hm1 Hm1'].
  { intros Hr. apply Hl. intros ->. discriminate. }
  pose proof (shifted_nonneg (Z.to_nat (e1 - e)) q (loc_r l) (loc_s l) Hq) as Hm1n.
  set (rec1 := shifted (Z.to_nat (e1 - e)) q (loc_r l) (loc_s l)) in *.
  destruct (round_nearest_even_bounds rec1) as [Hm2 Hm2'].
  set (m2 := round_nearest_even (shr_m rec1) (loc_of_shr_record rec1)) in *.
  assert (Hm2le : m2 <= 2 ^ (- e1)).
  { destruct (Z.eq_dec m2 (shr_m rec1)) as [->|Hne]; [exact Hm1|].
    specialize (Hm1' (Hm2' Hne)). lia. }
  assert (Hm2n : 0 <= m2) by lia.
  rewrite (shr_fexp_spec m2 e1 loc_Exact Hm2n).
  set (e3 := Z.max e1 (fexp prec emax (Zdigits2 m2 + e1))).
  assert (He3 : e1 <= e3 <= -52).
  { subst e3. rewrite fexp_eq.
    pose proof (Zdigits2_le_pow m2 (- e1) Hm2n ltac:(lia) Hm2le). lia. }
  destruct (shifted_le_one m2 e1 e3 false false Hm2n ltac:(lia) ltac:(lia) Hm2le)
    as [Hm3 _]; [discriminate|].
  pose proof (shifted_nonneg (Z.to_nat (e3 - e1)) m2 false false Hm2n) as Hm3n.
  simpl loc_r. simpl loc_s.
  destruct (shr_m (shifted (Z.to_nat (e3 - e1)) m2 false false)) as [|m|m]; [| |lia].
  - split; reflexivity.
  - replace (e3 <=? emax - prec) with true
      by (symmetry; apply Z.leb_le; change (emax - prec) with 971; lia).
    split; [|reflexivity].
    unfold SFleb, sf_one, SFcompare.
    destruct (Z.compare_spec e3 (-52)) as [Heq|Hlt|Hgt]; [|reflexivity|lia].
    rewrite Pos.compare_cont_spec. simpl Pos.switch_Eq.
    subst e3. rewrite Heq in Hm3. change (2 ^ (- -52)) with 4503599627370496 in Hm3.
    destruct (Pos.compare_spec m 4503599627370496) as [|Hlt|Hgt]; try reflexivity.
    exfalso. lia.
Qed.


Lemma new_location_exact (n r : Z) :
  new_location n r <> loc_Exact -> r <> 0.
Proof.
  unfold new_location, new_location_even, new_location_odd.
  intros H ->. destruct (Z.even n); simpl in H; apply H; reflexivity.
Qed.

(** The quotient of a positive float by one that is not smaller lies in
    [0, 1].  Values are compared after scaling by 2^52. *)
Lemma SFdiv_le_one (mx my : positive) (ex ey : Z) :
  -52 <= ex -> -52 <= ey ->
  Zpos mx * 2 ^ (ex + 52) <= Zpos my * 2 ^ (ey + 52) ->
  SFleb (SFdiv prec emax (S754_finite false mx ex) (S754_finite false my ey)) sf_one = true /\
  SFleb (S754_zero false)
        (SFdiv prec emax (S754_finite false mx ex) (S754_finite false my ey)) = true.
Proof.
  intros Hex Hey Hle.
  unfold SFdiv, SFdiv_core_binary. cbn [Zdigits2 xorb].
  set (d1 := Zpos (digits2_pos mx)). set (d2 := Zpos (digits2_pos my)).
  set (e' := Z.min (fexp prec emax (d1 + ex - (d2 + ey))) (ex - ey)).
  pose proof (digits2_pos_bounds mx) as [Hd1 _].
  pose proof (digits2_pos_bounds my) as [_ Hd2].
  fold d1 in Hd1. fold d2 in Hd2.
  assert (Hd : d1 + ex <= d2 + ey).
  { assert (H1 : 2 ^ (d1 - 1 + (ex + 52)) <= Zpos mx * 2 ^ (ex + 52)).
    { rewrite (Z.pow_add_r 2 (d1 - 1) (ex + 52)) by (subst d1; lia).
      apply Z.mul_le_mono_nonneg_r; [apply Z.pow_nonneg; lia | exact Hd1]. }
    assert (H2 : Zpos my * 2 ^ (ey + 52) < 2 ^ (d2 + (ey + 52))).
    { rewrite (Z.pow_add_r 2 d2 (ey + 52)) by (subst d2; lia).
      apply Z.mul_lt_mono_pos_r; [apply Z.pow_pos_nonneg; lia | exact Hd2]. }
    assert (H3 : 2 ^ (d1 - 1 + (ex + 52)) < 2 ^ (d2 + (ey + 52))) by lia.
    apply Z.pow_lt_mono_r_iff in H3; [lia | lia | subst d2; lia]. }
  assert (He' : e' <= -52 /\ e' <= ex - ey).
  { subst e'. rewrite fexp_eq. lia. }
  set (s := ex - ey - e').
  assert (Hs : 0 <= s) by (subst s; lia).
  set (m' := match s with Z.pos _ => Z.shiftl (Zpos mx) s | 0 => Zpos mx | Z.neg _ => 0 end).
  assert (Hm' : m' = Zpos mx * 2 ^ s).
  { subst m'. destruct s as [|k|k] eqn:Es; [simpl; lia | | lia].
    rewrite Z.shiftl_mul_pow2 by lia. reflexivity. }
  assert (Hbound : m' <= Zpos my * 2 ^ (- e')).
  { rewrite Hm'.
    assert (Hp : 0 < 2 ^ (ey + 52)) by (apply Z.pow_pos_nonneg; lia).
    apply (Z.mul_le_mono_pos_r _ _ _ Hp).
    replace (Zpos mx * 2 ^ s * 2 ^ (ey + 52)) with (Zpos mx * 2 ^ (ex + 52) * 2 ^ (- e')).
    2:{ rewrite <- !Z.mul_assoc, <- !Z.pow_add_r by lia. do 2 f_equal. subst s. lia. }
    replace (Zpos my * 2 ^ (- e') * 2 ^ (ey + 52)) with (Zpos my * 2 ^ (ey + 52) * 2 ^ (- e'))
      by ring.
    apply Z.mul_le_mono_nonneg_r; [apply Z.pow_nonneg; lia | exact Hle]. }
  assert (Hm'n : 0 <= m') by (rewrite Hm'; apply Z.mul_nonneg_nonneg; [lia | apply Z.pow_nonneg; lia]).
  pose proof (Z_div_mod m' (Zpos my) ltac:(lia)) as Hdm.
  destruct (Z.div_eucl m' (Zpos my)) as [q r]. destruct Hdm as [Hdm Hr].
  assert (Hp' : 0 < 2 ^ (- e')) by (apply Z.pow_pos_nonneg; lia).
  apply binary_round_aux_le_one.
  - nia.
  - lia.
  - nia.
  - intros Hl%new_location_exact. nia.
Qed.


(** ** Integers to binary64 *)

Lemma pos_iter_xO (p k : positive) :
  Zpos (Pos.iter xO p k) = Zpos p * 2 ^ Zpos k.
Proof.
  apply (Pos.iter_ind _ xO p (fun k a => Zpos a = Zpos p * 2 ^ Zpos k)).
  - rewrite (Pos2Z.inj_xO p). simpl. lia.
  - intros k' a IH. rewrite (Pos2Z.inj_xO a), IH, Pos2Z.inj_succ, Z.pow_succ_r by lia.
    ring.
Qed.

(** A mantissa of 53 digits with an exponent in range is kept as it is. *)
Lemma binary_round_aux_exact (m : positive) (e : Z) :
  Zdigits2 (Zpos m) = 53 -> -1074 <= e <= 971 ->
  binary_round_aux prec emax false (Zpos m) e loc_Exact = S754_finite false m e.
Proof.
  intros Hd He. unfold binary_round_aux.
  rewrite (shr_fexp_spec (Zpos m) e loc_Exact) by lia.
  rewrite Hd, fexp_eq. replace (Z.max e (Z.max (53 + e - 53) (-1074))) with e by lia.
  rewrite Z.sub_diag. change (Z.to_nat 0) with 0%nat.
  cbn [shifted loc_r loc_s shr_m loc_of_shr_record round_nearest_even].
  rewrite (shr_fexp_spec (Zpos m) e loc_Exact) by lia.
  rewrite Hd, fexp_eq. replace (Z.max e (Z.max (53 + e - 53) (-1074))) with e by lia.
  rewrite Z.sub_diag. change (Z.to_nat 0) with 0%nat. cbn [shifted loc_r loc_s shr_m].
  replace (e <=? emax - prec) with true
    by (symmetry; apply Z.leb_le; change (emax - prec) with 971; lia).
  reflexivity.
Qed.

Lemma rne_bounds (x s : Z) :
  0 <= x -> 0 <= s -> x / 2 ^ s <= rne x s <= x / 2 ^ s + 1.
Proof.
  intros Hx Hs. unfold rne.
  destruct (round_nearest_even_bounds (shifted (Z.to_nat s) x false false)) as [H _].
  rewrite shifted_m, Z2Nat.id in H by lia.
  rewrite shifted_m, Z2Nat.id by lia. exact H.
Qed.

Lemma binary_normalize_spec (c : Z) :
  1 <= c < 2 ^ 63 ->
  exists m e,
    binary_normalize prec emax c 0 false = S754_finite false m e /\
    -52 <= e /\ Zpos m * 2 ^ (e + 52) = rnd c * 2 ^ 52.
Proof.
  intros Hc. destruct c as [|p|p]; try lia.
  cbn [binary_normalize]. unfold binary_round, rnd. cbn [Zdigits2].
  pose proof (digits2_pos_bounds p) as Hd.
  set (d := Zpos (digits2_pos p)) in *.
  assert (Hd1 : 1 <= d <= 63).
  { split; [subst d; lia|].
    destruct (Z.le_gt_cases d 63) as [|Hgt]; [assumption|]. exfalso.
    assert (2 ^ 63 <= 2 ^ (d - 1)) by (apply Z.pow_le_mono_r; lia). lia. }
  rewrite Z.add_0_r, fexp_eq. replace (Z.max (d - 53) (-1074)) with (d - 53) by lia.
  unfold shl_align. rewrite Z.sub_0_r.
  destruct (Z.leb_spec d 53) as [Hle|Hgt].
  - (* at most 53 digits: the conversion is exact *)
    assert (Hex : exists mz, (match d - 53 with
                              | Z.neg k => (Pos.iter xO p k, d - 53)
                              | _ => (p, 0)
                              end) = (mz, d - 53)
                             /\ Zpos mz = Zpos p * 2 ^ (53 - d)).
    { destruct (d - 53) as [|k|k] eqn:E; [| lia |].
      - exists p. split; [reflexivity|]. replace (53 - d) with 0 by lia. lia.
      - exists (Pos.iter xO p k). split; [reflexivity|].
        rewrite pos_iter_xO. do 2 f_equal. lia. }
    destruct Hex as (mz & -> & Hmz).
    assert (Hdig : Zdigits2 (Zpos mz) = 53).
    { apply Zdigits2_unique; [|lia]. rewrite Hmz.
      assert (Hp : 0 < 2 ^ (53 - d)) by (apply Z.pow_pos_nonneg; lia).
      replace (2 ^ (53 - 1)) with (2 ^ (d - 1) * 2 ^ (53 - d))
        by (rewrite <- Z.pow_add_r by lia; f_equal; lia).
      replace (2 ^ 53) with (2 ^ d * 2 ^ (53 - d))
        by (rewrite <- Z.pow_add_r by lia; f_equal; lia).
      split; [apply Z.mul_le_mono_nonneg_r | apply Z.mul_lt_mono_pos_r]; lia. }
    rewrite (binary_round_aux_exact mz (d - 53) Hdig) by lia.
    exists mz, (d - 53). split; [reflexivity|]. split; [lia|].
    rewrite Hmz, <- Z.mul_assoc, <- Z.pow_add_r by lia.
    do 2 f_equal. lia.
  - (* more than 53 digits: the low bits are rounded away *)
    set (s := d - 53) in *.
    assert (Es : s = d - 53) by reflexivity. clearbody s.
    replace (match s with Z.neg k => (Pos.iter xO p k, s) | _ => (p, 0) end) with (p, 0)
      by (destruct s; [reflexivity | reflexivity | lia]).
    unfold binary_round_aux.
    rewrite (shr_fexp_spec (Zpos p) 0 loc_Exact) by lia.
    cbn [Zdigits2]. fold d. rewrite Z.add_0_r, fexp_eq.
    replace (Z.max 0 (Z.max (d - 53) (-1074))) with s by lia.
    rewrite Z.sub_0_r. cbn [loc_r loc_s]. fold (rne (Zpos p) s).
    pose proof (rne_bounds (Zpos p) s ltac:(lia) ltac:(lia)) as Hm2.
    assert (Hps : 0 < 2 ^ s) by (apply Z.pow_pos_nonneg; lia).
    assert (Hm1 : 2 ^ 52 <= Zpos p / 2 ^ s < 2 ^ 53).
    { assert (E1 : 2 ^ (d - 1) = 2 ^ s * 2 ^ 52)
        by (rewrite <- Z.pow_add_r by lia; f_equal; lia).
      assert (E2 : 2 ^ d = 2 ^ s * 2 ^ 53)
        by (rewrite <- Z.pow_add_r by lia; f_equal; lia).
      split; [apply Z.div_le_lower_bound | apply Z.div_lt_upper_bound]; lia. }
    set (m2 := rne (Zpos p) s) in *.
    rewrite (shr_fexp_spec m2 s loc_Exact) by lia. cbn [loc_r loc_s]. rewrite fexp_eq.
    destruct (Z.eq_dec m2 (2 ^ 53)) as [E53|N53].
    + assert (Hdig : Zdigits2 m2 = 54) by (apply Zdigits2_unique; [rewrite E53; simpl; lia | lia]).
      rewrite Hdig. replace (Z.max s (Z.max (54 + s - 53) (-1074))) with (s + 1) by lia.
      replace (s + 1 - s) with 1 by lia.
      change (Z.to_nat 1) with 1%nat. cbn [shifted shr_m]. rewrite E53.
      change (2 ^ 53 / 2) with (Zpos 4503599627370496).
      cbn iota.
      replace (s + 1 <=? emax - prec) with true
        by (symmetry; apply Z.leb_le; change (emax - prec) with 971; lia).
      exists 4503599627370496%positive, (s + 1). split; [reflexivity|]. split; [lia|].
      change (Zpos 4503599627370496) with (2 ^ 52).
      rewrite <- !Z.mul_assoc, <- !Z.pow_add_r by lia.
      f_equal. lia.
    + assert (Hdig : Zdigits2 m2 = 53) by (apply Zdigits2_unique; [simpl; lia | lia]).
      rewrite Hdig. replace (Z.max s (Z.max (53 + s - 53) (-1074))) with s by lia.
      rewrite Z.sub_diag. change (Z.to_nat 0) with 0%nat. cbn [shifted shr_m].
      destruct m2 as [|m|m] eqn:Em; [lia | | lia].
      replace (s <=? emax - prec) with true
        by (symmetry; apply Z.leb_le; change (emax - prec) with 971; lia).
      exists m, s. split; [reflexivity|]. split; [lia|].
      rewrite <- !Z.mul_assoc, <- !Z.pow_add_r by lia. reflexivity.
Qed.


Lemma shifted_s (k : nat) (x : Z) :
  0 <= x ->
  shr_s (shifted (S k) x false false) = negb (x mod 2 ^ Z.of_nat k =? 0).
Proof.
  intros Hx. induction k as [|k IH].
  - simpl. rewrite Z.mod_1_r. reflexivity.
  - change (shr_s (shifted (S (S k)) x false false))
      with (shr_r (shifted (S k) x false false) || shr_s (shifted (S k) x false false)).
    rewrite IH, shifted_r by exact Hx.
    rewrite Nat2Z.inj_succ, Z.pow_succ_r by lia.
    assert (Hp : 0 < 2 ^ Z.of_nat k) by (apply Z.pow_pos_nonneg; lia).
    rewrite (Z.mul_comm 2), Z.rem_mul_r by lia.
    rewrite Zmod_odd.
    pose proof (Z.mod_pos_bound x (2 ^ Z.of_nat k) Hp) as Hb.
    destruct (Z.odd (x / 2 ^ Z.of_nat k)); simpl.
    + symmetry. apply negb_true_iff, Z.eqb_neq. lia.
    + rewrite Z.mul_0_r, Z.add_0_r. reflexivity.
Qed.

Lemma rne_spec (x s : Z) :
  0 <= x -> 1 <= s ->
  rne x s = x / 2 ^ s
            + (if Z.odd (x / 2 ^ (s - 1))
                  && (negb (x mod 2 ^ (s - 1) =? 0) || Z.odd (x / 2 ^ s))
               then 1 else 0).
Proof.
  intros Hx Hs. unfold rne.
  destruct (Z.to_nat s) as [|k] eqn:Ek; [lia|].
  assert (Hk : Z.of_nat k = s - 1) by lia.
  pose proof (shifted_m (S k) x false false Hx) as Hm.
  pose proof (shifted_r k x false false Hx) as Hr.
  pose proof (shifted_s k x Hx) as Hst.
  rewrite Hk in Hr, Hst. replace (Z.of_nat (S k)) with s in Hm by lia.
  destruct (shifted (S k) x false false) as [m r st]. simpl in Hm, Hr, Hst.
  subst m r st.
  destruct (Z.odd (x / 2 ^ (s - 1))), (negb (x mod 2 ^ (s - 1) =? 0));
    cbn [loc_of_shr_record round_nearest_even shr_m andb orb];
    rewrite <- ?Z.negb_even; try destruct (Z.even (x / 2 ^ s));
    cbn [negb]; lia.
Qed.

Lemma rne_mono (x y s : Z) :
  0 <= x <= y -> 1 <= s -> rne x s <= rne y s.
Proof.
  intros Hxy Hs. rewrite !rne_spec by lia.
  set (h := 2 ^ (s - 1)).
  assert (Hh : 0 < h) by (apply Z.pow_pos_nonneg; lia).
  assert (E : 2 ^ s = h * 2).
  { subst h. rewrite Z.mul_comm, <- Z.pow_succ_r by lia. f_equal. lia. }
  rewrite E, <- !Z.div_div by lia.
  pose proof (Z.div_mod x h ltac:(lia)) as Ex.
  pose proof (Z.div_mod y h ltac:(lia)) as Ey.
  pose proof (Z.mod_pos_bound x h Hh) as Bx.
  pose proof (Z.mod_pos_bound y h Hh) as By.
  assert (Hab : x / h <= y / h) by (apply Z.div_le_mono; lia).
  set (a := x / h) in *. set (b := y / h) in *.
  set (lx := x mod h) in *. set (ly := y mod h) in *.
  pose proof (Z.div_mod a 2 ltac:(lia)) as Ea.
  pose proof (Z.div_mod b 2 ltac:(lia)) as Eb.
  rewrite Zmod_odd in Ea, Eb.
  assert (Hm : a / 2 <= b / 2) by (apply Z.div_le_mono; lia).
  destruct (Z.eq_dec (a / 2) (b / 2)) as [EM|NM].
  2:{ destruct (Z.odd a && _), (Z.odd b && _); lia. }
  rewrite <- EM in *.
  destruct (Z.odd a) eqn:Oa; simpl; [|destruct (Z.odd b && _); lia].
  destruct (Z.odd b) eqn:Ob; simpl.
  - assert (Eab : a = b) by lia.
    assert (Hl : lx <= ly) by (rewrite <- Eab in Ey; lia).
    destruct (Z.odd (a / 2)); rewrite ?orb_true_r; [lia|]. rewrite !orb_false_r.
    destruct (Z.eqb_spec lx 0), (Z.eqb_spec ly 0); simpl; lia.
  - lia.
Qed.


Lemma Zdigits2_mono (c t : Z) :
  1 <= c <= t -> Zdigits2 c <= Zdigits2 t.
Proof.
  intros Hct.
  pose proof (Zdigits2_bounds c ltac:(lia)) as [Hc _].
  pose proof (Zdigits2_bounds t ltac:(lia)) as [_ Ht].
  pose proof (Zdigits2_nonneg t).
  destruct (Z.le_gt_cases (Zdigits2 c) (Zdigits2 t)) as [|Hgt]; [assumption|].
  exfalso.
  assert (2 ^ Zdigits2 t <= 2 ^ (Zdigits2 c - 1)) by (apply Z.pow_le_mono_r; lia).
  lia.
Qed.

Lemma rnd_bounds (c : Z) :
  1 <= c -> 2 ^ (Zdigits2 c - 1) <= rnd c <= 2 ^ Zdigits2 c.
Proof.
  intros Hc. pose proof (Zdigits2_bounds c ltac:(lia)) as Hd.
  unfold rnd. destruct (Z.leb_spec (Zdigits2 c) 53) as [Hle|Hgt]; [lia|].
  set (d := Zdigits2 c) in *. set (s := d - 53).
  assert (Hps : 0 < 2 ^ s) by (apply Z.pow_pos_nonneg; subst s; lia).
  pose proof (rne_bounds c s ltac:(lia) ltac:(subst s; lia)) as Hm2.
  assert (E1 : 2 ^ (d - 1) = 2 ^ 52 * 2 ^ s)
    by (rewrite <- Z.pow_add_r by (subst s; lia); f_equal; subst s; lia).
  assert (E2 : 2 ^ d = 2 ^ 53 * 2 ^ s)
    by (rewrite <- Z.pow_add_r by (subst s; lia); f_equal; subst s; lia).
  assert (Hm1 : 2 ^ 52 <= c / 2 ^ s < 2 ^ 53).
  { split; [apply Z.div_le_lower_bound | apply Z.div_lt_upper_bound]; lia. }
  rewrite E1, E2.
  split; apply Z.mul_le_mono_nonneg_r; lia.
Qed.

Lemma rnd_mono (c t : Z) :
  1 <= c <= t -> rnd c <= rnd t.
Proof.
  intros Hct.
  pose proof (Zdigits2_mono c t Hct) as Hd.
  pose proof (rnd_bounds c ltac:(lia)) as [_ Hc].
  pose proof (rnd_bounds t ltac:(lia)) as [Ht _].
  pose proof (Zdigits2_bounds c ltac:(lia)) as Bc.
  destruct (Z.eq_dec (Zdigits2 c) (Zdigits2 t)) as [E|N].
  - unfold rnd. rewrite <- E.
    destruct (Z.leb_spec (Zdigits2 c) 53) as [Hle|Hgt]; [lia|].
    apply Z.mul_le_mono_nonneg_r; [apply Z.pow_nonneg; lia|].
    apply rne_mono; lia.
  - assert (2 ^ Zdigits2 c <= 2 ^ (Zdigits2 t - 1))
      by (apply Z.pow_le_mono_r; [lia | pose proof (Zdigits2_nonneg c); lia]).
    lia.
Qed.

(** The binary64 quotient of two integers [0 <= c <= t], [t] positive, both
    below 2^63, lies between 0 and 1. *)
Theorem div_of_counts_in_unit_interval (c t : Z) :
  0 <= c <= t -> 0 < t < 2 ^ 63 ->
  PrimFloat.leb 0 (PrimFloat.div (float_of_Z c) (float_of_Z t)) = true /\
  PrimFloat.leb (PrimFloat.div (float_of_Z c) (float_of_Z t)) 1 = true.
Proof.
  intros Hc Ht.
  rewrite !FloatAxioms.leb_spec, FloatAxioms.div_spec, !float_of_Z_spec by lia.
  change (Prim2SF 0) with (S754_zero false). change (Prim2SF 1) with sf_one.
  destruct (binary_normalize_spec t ltac:(lia)) as (my & ey & -> & Hey & Vy).
  destruct (Z.eq_dec c 0) as [->|Hc0].
  - split; reflexivity.
  - destruct (binary_normalize_spec c ltac:(lia)) as (mx & ex & -> & Hex & Vx).
    apply and_comm. apply SFdiv_le_one; [assumption..|].
    rewrite Vx, Vy. apply Z.mul_le_mono_nonneg_r; [lia|].
    apply rnd_mono. lia.
Qed.

End FloatFacts.

(** * Properties of the text export *)

Module CsvFacts.

Lemma append_cons (a : ascii) (s t : string) :
  (String a s ++ t)%string = String a (s ++ t).
Proof. reflexivity. Qed.

Lemma append_nil_r (s : string) : (s ++ EmptyString)%string = s.
Proof.
  induction s as [|a s IH]; [reflexivity|].
  rewrite append_cons, IH; reflexivity.
Qed.

Lemma append_assoc (s1 s2 s3 : string) :
  ((s1 ++ s2) ++ s3)%string = (s1 ++ (s2 ++ s3))%string.
Proof.
  induction s1 as [|a s1 IH]; [reflexivity|].
  rewrite !append_cons, IH; reflexivity.
Qed.

Lemma concat_empty_cons (x : string) (xs : list string) :
  String.concat EmptyString (x :: xs) = (x ++ String.concat EmptyString xs)%string.
Proof.
  destruct xs as [|y ys]; [symmetry; apply append_nil_r | reflexivity].
Qed.

Lemma free_of_app (c : ascii) (s1 s2 : string) :
  free_of c s1 -> free_of c s2 -> free_of c (s1 ++ s2).
Proof.
  induction s1 as [|a s1 IH]; [intros _ H; exact H|].
  rewrite append_cons; simpl.
  intros [Ha H1] H2; split; [exact Ha | apply IH; assumption].
Qed.

Lemma split_on_free (c : ascii) (s : string) :
  free_of c s -> split_on c s = [s].
Proof.
  induction s as [|a s IH]; simpl; [reflexivity|].
  intros [Ha Hs]. rewrite (IH Hs).
  destruct (Ascii.eqb_spec a c) as [->|_]; [contradiction | reflexivity].
Qed.

Lemma split_on_app (c : ascii) (s r : string) :
  free_of c s -> split_on c (s ++ String c r) = s :: split_on c r.
Proof.
  induction s as [|a s IH].
  - intros _. change (split_on c (String c r) = EmptyString :: split_on c r).
    simpl. rewrite Ascii.eqb_refl. reflexivity.
  - rewrite append_cons; simpl. intros [Ha Hs]. rewrite (IH Hs).
    destruct (Ascii.eqb_spec a c) as [->|_]; [contradiction | reflexivity].
Qed.

(** Decimal numerals consist of digits only. *)
Lemma string_of_uint_free (c : ascii) (d : Decimal.uint) :
  nat_of_ascii c < 48 \/ 57 < nat_of_ascii c ->
  free_of c (NilEmpty.string_of_uint d).
Proof.
  intros Hc.
  induction d; simpl; try exact I; (split; [|assumption]);
    intros <-; vm_compute in Hc; lia.
Qed.

Lemma str_nat_free (c : ascii) (n : nat) :
  nat_of_ascii c < 48 \/ 57 < nat_of_ascii c ->
  free_of c (str_nat n).
Proof.
  intros Hc. unfold str_nat, NilZero.string_of_uint.
  destruct (Nat.to_uint n) eqn:E;
    try (rewrite <- E; apply string_of_uint_free; exact Hc).
  simpl. split; [|exact I]. intros <-; vm_compute in Hc; lia.
Qed.

Lemma row_text_free (p : nat * nat * nat) : free_of linefeed (row_text p).
Proof.
  destruct p as [[i j] k]. unfold row_text. simpl String.concat.
  assert (Hd : forall n, free_of linefeed (str_nat n))
    by (intros n; apply str_nat_free; left; vm_compute; lia).
  apply free_of_app; [apply Hd|].
  change ("," ++ ?r)%string with (String comma r).
  split; [discriminate|].
  apply free_of_app; [apply Hd|].
  change ("," ++ ?r)%string with (String comma r).
  split; [discriminate | apply Hd].
Qed.

Lemma csv_row_text (p : nat * nat * nat) :
  csv_row p = (row_text p ++ newline)%string.
Proof. destruct p as [[i j] k]; reflexivity. Qed.

Lemma split_rows (rows : list (nat * nat * nat)) :
  split_on linefeed (String.concat EmptyString (map csv_row rows))
  = map row_text rows ++ [EmptyString].
Proof.
  induction rows as [|p rows IH]; [reflexivity|].
  simpl map. rewrite concat_empty_cons, csv_row_text, append_assoc.
  change (newline ++ ?r)%string with (String linefeed r).
  rewrite split_on_app by apply row_text_free.
  rewrite IH. reflexivity.
Qed.

Lemma split_row_fields (i j k : nat) :
  split_on comma (row_text (i, j, k)) = [str_nat i; str_nat j; str_nat k].
Proof.
  assert (Hd : forall n, free_of comma (str_nat n))
    by (intros n; apply str_nat_free; left; vm_compute; lia).
  unfold row_text. simpl String.concat.
  change ("," ++ ?r)%string with (String comma r).
  rewrite split_on_app by apply Hd.
  change ("," ++ ?r)%string with (String comma r).
  rewrite split_on_app by apply Hd.
  rewrite split_on_free by apply Hd. reflexivity.
Qed.

(** Reading the table back. *)
Lemma read_nat_str_nat (n : nat) : read_nat (str_nat n) = Some n.
Proof.
  unfold read_nat, str_nat.
  assert (Hn : Nat.to_uint n <> Decimal.Nil).
  { rewrite <- (DecimalNat.Unsigned.of_to n) at 1.
    rewrite DecimalNat.Unsigned.to_of. apply DecimalFacts.unorm_nonnil. }
  rewrite (NilZero.usu _ Hn). cbn. rewrite DecimalNat.Unsigned.of_to. reflexivity.
Qed.

Lemma read_row_row_text (p : nat * nat * nat) : read_row (row_text p) = Some p.
Proof.
  destruct p as [[i j] k]. unfold read_row.
  rewrite split_row_fields, !read_nat_str_nat. reflexivity.
Qed.

Lemma read_rows_row_texts (rows : list (nat * nat * nat)) :
  read_rows (map row_text rows ++ [EmptyString]) = Some rows.
Proof.
  induction rows as [|p rows IH]; [reflexivity|].
  cbn [map List.app] in *.
  destruct (map row_text rows ++ [EmptyString]) as [|l ls] eqn:E.
  { destruct rows; discriminate E. }
  cbn [read_rows]. rewrite read_row_row_text.
  cbn [read_rows] in IH. rewrite IH. reflexivity.
Qed.

Lemma read_to_csv (rows : list (nat * nat * nat)) :
  read_coordinates (to_csv rows) = Some rows.
Proof.
  unfold read_coordinates, to_csv.
  change (csv_line ["X"; "Y"; "Z"]) with ("X,Y,Z" ++ newline)%string.
  rewrite append_assoc.
  change (newline ++ ?r)%string with (String linefeed r).
  rewrite split_on_app by (simpl; repeat split; discriminate).
  rewrite split_rows.
  change (String.eqb "X,Y,Z" "X,Y,Z") with true. cbv iota.
  apply read_rows_row_texts.
Qed.

End CsvFacts.

(** C4. The exported text is the header line [X,Y,Z] followed by one line
    per occupied cell: the number of data lines is the number of [True]
    cells, every line ends in a line feed, and the header and every data line
    have exactly three comma-separated fields (the cell's three indices). *)
Theorem coordinate_export_rows (m : Np.ndarray3) :
  split_on linefeed (export_coordinates m)
    = "X,Y,Z" :: map row_text (Np.argwhere m) ++ [EmptyString] /\
  List.length (map row_text (Np.argwhere m)) = Np.count_true (Np.buf3 m) /\
  split_on comma "X,Y,Z" = ["X"; "Y"; "Z"] /\
  Forall (fun p => split_on comma (row_text p)
                   = [str_nat (fst (fst p)); str_nat (snd (fst p)); str_nat (snd p)])
         (Np.argwhere m).
Proof.
  split; [|split; [|split]].
  - unfold export_coordinates, to_csv.
    change (csv_line ["X"; "Y"; "Z"]) with ("X,Y,Z" ++ newline)%string.
    rewrite CsvFacts.append_assoc.
    change (newline ++ ?r)%string with (String linefeed r).
    rewrite CsvFacts.split_on_app.
    + rewrite CsvFacts.split_rows. reflexivity.
    + simpl. repeat split; discriminate.
  - rewrite List.length_map. apply ArgwhereFacts.length_argwhere.
  - reflexivity.
  - apply List.Forall_forall. intros [[i j] k] _. apply CsvFacts.split_row_fields.
Qed.

(** * Properties of the script *)

Section Script.
Context `{L : Library}.

Lemma deref_ok (w : world) (r : nat) (vg : VoxelGrid) :
  heap w !! r = Some vg -> deref r w = (Ok vg, w).
Proof. intros E; unfold deref; rewrite E; reflexivity. Qed.

Lemma normalize_index_in_range (n : nat) (i : Z) :
  (- Z.of_nat n <= i < Z.of_nat n)%Z ->
  exists k, Np.normalize_index n i = Some k /\ k < n.
Proof.
  intros Hi. unfold Np.normalize_index.
  destruct ((0 <=? i) && (i <? Z.of_nat n))%Z eqn:E1.
  - apply andb_true_iff in E1 as [?%Z.leb_le ?%Z.ltb_lt].
    exists (Z.to_nat i); split; [reflexivity | lia].
  - destruct ((- Z.of_nat n <=? i) && (i <? 0))%Z eqn:E2.
    + apply andb_true_iff in E2 as [?%Z.leb_le ?%Z.ltb_lt].
      exists (Z.to_nat (Z.of_nat n + i)); split; [reflexivity | lia].
    + apply andb_false_iff in E1, E2. exfalso.
      destruct E1 as [?%Z.leb_gt | ?%Z.ltb_ge];
        destruct E2 as [?%Z.leb_gt | ?%Z.ltb_ge]; lia.
Qed.

Lemma length_tabulate2 (rows cols : nat) (f : nat -> nat -> bool) :
  List.length (Np.buf2 (Np.tabulate2 rows cols f)) = rows * cols.
Proof.
  unfold Np.tabulate2; simpl.
  assert (G : forall s, List.length (flat_map (fun r => map (f r) (seq 0 cols))
                                              (seq s rows)) = rows * cols).
  { induction rows as [|n IH]; intros s; simpl; [reflexivity|].
    rewrite List.length_app, List.length_map, List.length_seq, IH. reflexivity. }
  apply G.
Qed.

Lemma wf2_tabulate2 (rows cols : nat) (f : nat -> nat -> bool) :
  Np.wf2 (Np.tabulate2 rows cols f).
Proof. unfold Np.wf2. rewrite length_tabulate2. reflexivity. Qed.

Lemma get2_tabulate2 (rows cols : nat) (f : nat -> nat -> bool) (a b : nat) :
  a < rows -> b < cols -> Np.get2 (Np.tabulate2 rows cols f) a b = f a b.
Proof.
  unfold Np.get2, Np.tabulate2; simpl.
  assert (G : forall s a, a < rows -> b < cols ->
                nth (a * cols + b)
                    (flat_map (fun r => map (f r) (seq 0 cols)) (seq s rows)) false
                = f (s + a) b).
  { clear a. induction rows as [|n IH]; intros s a Ha Hb; [lia|].
    cbn [seq flat_map].
    destruct a as [|a].
    - rewrite List.app_nth1 by (rewrite List.length_map, List.length_seq; lia).
      rewrite (List.nth_indep _ false (f s 0))
        by (rewrite List.length_map, List.length_seq; lia).
      rewrite List.map_nth, List.seq_nth by lia.
      rewrite Nat.add_0_r. reflexivity.
    - rewrite List.app_nth2 by (rewrite List.length_map, List.length_seq; lia).
      rewrite List.length_map, List.length_seq.
      replace (S a * cols + b - cols) with (a * cols + b) by lia.
      rewrite IH by lia. f_equal. lia. }
  intros Ha Hb. apply (G 0 a Ha Hb).
Qed.

(** The slices hold the grid's cells at the fixed index. *)
Lemma slice_cells (m : Np.ndarray3) (i a b : nat) :
  (a < Np.dim1 m -> b < Np.dim2 m -> Np.get2 (Np.slice_x m i) a b = Np.get3 m i a b) /\
  (a < Np.dim0 m -> b < Np.dim2 m -> Np.get2 (Np.slice_y m i) a b = Np.get3 m a i b) /\
  (a < Np.dim0 m -> b < Np.dim1 m -> Np.get2 (Np.slice_z m i) a b = Np.get3 m a b i).
Proof.
  unfold Np.slice_x, Np.slice_y, Np.slice_z.
  repeat split; intros Ha Hb; rewrite get2_tabulate2 by assumption; reflexivity.
Qed.

(** The plane an index in range selects: negative indices count from the
    end. *)
Lemma normalize_index_value (n : nat) (i : Z) :
  (- Z.of_nat n <= i < Z.of_nat n)%Z ->
  Np.normalize_index n i
  = Some (Z.to_nat (if (i <? 0)%Z then Z.of_nat n + i else i)%Z).
Proof.
  intros Hi. unfold Np.normalize_index.
  destruct (Z.leb_spec 0 i), (Z.ltb_spec i (Z.of_nat n)),
    (Z.leb_spec (- Z.of_nat n) i), (Z.ltb_spec i 0); cbn; try lia; reflexivity.
Qed.

Lemma normalize_index_none (n : nat) (i : Z) :
  (i < - Z.of_nat n \/ Z.of_nat n <= i)%Z -> Np.normalize_index n i = None.
Proof.
  intros Hi. unfold Np.normalize_index.
  destruct (Z.leb_spec 0 i), (Z.ltb_spec i (Z.of_nat n)),
    (Z.leb_spec (- Z.of_nat n) i), (Z.ltb_spec i 0); cbn; try lia; reflexivity.
Qed.

(** The charting calls: the figure when plotly accepts the arguments, its
    exception otherwise; nothing else changes. *)
Lemma px_imshow_run (fig : Figure2d) (w : world) :
  px_imshow fig w
  = match plotly_imshow (img_colorscale fig) with
    | Ok _ => (Ok fig, w)
    | Raise e => (Raise e, w)
    end.
Proof. unfold px_imshow, bind, lift, ret. destruct (plotly_imshow _); reflexivity. Qed.

Lemma px_imshow_ok (fig : Figure2d) (w : world) :
  plotly_imshow (img_colorscale fig) = Ok tt -> px_imshow fig w = (Ok fig, w).
Proof. intros H. rewrite px_imshow_run, H. reflexivity. Qed.

Lemma go_scatter3d_run (fig : Figure3d) (w : world) :
  go_scatter3d fig w
  = match plotly_scatter3d (fig_colorscale fig) (fig_marker_size fig) (fig_opacity fig) with
    | Ok _ => (Ok fig, w)
    | Raise e => (Raise e, w)
    end.
Proof. unfold go_scatter3d, bind, lift, ret. destruct (plotly_scatter3d _ _ _); reflexivity. Qed.

(** Each branch of [create_slice_visualization], given what the index
    lookup yields. *)
Lemma slice_figure_x (w : world) (r : nat) (vg : VoxelGrid) (i : Z) (colormap : string) :
  heap w !! r = Some vg ->
  create_slice_visualization r "x" (Some i) colormap w =
  match Np.normalize_index (Np.dim0 (matrix vg)) i with
  | Some k => px_imshow {| img_data := Np.slice_x (matrix vg) k;
                           img_title := "X-slice at index " ++ str_Z i;
                           img_labels := ("Y Coordinate", "Z Coordinate");
                           img_colorscale := colormap |} w
  | None => (Raise (Exn "IndexError"
                      ("index " ++ str_Z i ++ " is out of bounds for axis " ++ str_nat 0
                       ++ " with size " ++ str_nat (Np.dim0 (matrix vg)))), w)
  end.
Proof.
  intros Hr. unfold create_slice_visualization, bind. rewrite (deref_ok _ _ _ Hr).
  cbn. unfold take_index. destruct (Np.normalize_index _ i); reflexivity.
Qed.

Lemma slice_figure_y (w : world) (r : nat) (vg : VoxelGrid) (i : Z) (colormap : string) :
  heap w !! r = Some vg ->
  create_slice_visualization r "y" (Some i) colormap w =
  match Np.normalize_index (Np.dim1 (matrix vg)) i with
  | Some k => px_imshow {| img_data := Np.slice_y (matrix vg) k;
                           img_title := "Y-slice at index " ++ str_Z i;
                           img_labels := ("X Coordinate", "Z Coordinate");
                           img_colorscale := colormap |} w
  | None => (Raise (Exn "IndexError"
                      ("index " ++ str_Z i ++ " is out of bounds for axis " ++ str_nat 1
                       ++ " with size " ++ str_nat (Np.dim1 (matrix vg)))), w)
  end.
Proof.
  intros Hr. unfold create_slice_visualization, bind. rewrite (deref_ok _ _ _ Hr).
  cbn. unfold take_index. destruct (Np.normalize_index _ i); reflexivity.
Qed.

(** Every axis name other than "x" and "y" takes the last branch. *)
Lemma slice_figure_else (w : world) (r : nat) (vg : VoxelGrid) (slice_axis : string)
    (i : Z) (colormap : string) :
  heap w !! r = Some vg ->
  slice_axis <> "x" -> slice_axis <> "y" ->
  create_slice_visualization r slice_axis (Some i) colormap w =
  match Np.normalize_index (Np.dim2 (matrix vg)) i with
  | Some k => px_imshow {| img_data := Np.slice_z (matrix vg) k;
                           img_title := "Z-slice at index " ++ str_Z i;
                           img_labels := ("X Coordinate", "Y Coordinate");
                           img_colorscale := colormap |} w
  | None => (Raise (Exn "IndexError"
                      ("index " ++ str_Z i ++ " is out of bounds for axis " ++ str_nat 2
                       ++ " with size " ++ str_nat (Np.dim2 (matrix vg)))), w)
  end.
Proof.
  intros Hr Hx Hy. unfold create_slice_visualization, bind. rewrite (deref_ok _ _ _ Hr).
  apply String.eqb_neq in Hx, Hy. cbn. rewrite Hx, Hy.
  unfold take_index. destruct (Np.normalize_index _ i); reflexivity.
Qed.

(** A slice at an index in range, along each of the three axes: the call
    is the charting call on a figure whose image has the grid's other two
    dimensions. *)
Lemma slice_along_x (w : world) (r : nat) (vg : VoxelGrid) (I : Z) (colormap : string) :
  heap w !! r = Some vg ->
  (- Z.of_nat (Np.dim0 (matrix vg)) <= I < Z.of_nat (Np.dim0 (matrix vg)))%Z ->
  exists fig, create_slice_visualization r "x" (Some I) colormap w = px_imshow fig w
              /\ Np.shape2 (img_data fig) = (Np.dim1 (matrix vg), Np.dim2 (matrix vg))
              /\ Np.wf2 (img_data fig)
              /\ img_colorscale fig = colormap.
Proof.
  intros Hr HI. rewrite (slice_figure_x _ _ _ _ _ Hr), (normalize_index_value _ _ HI).
  eexists; split; [reflexivity|]. cbn.
  split; [reflexivity|]. split; [apply wf2_tabulate2 | reflexivity].
Qed.

Lemma slice_along_y (w : world) (r : nat) (vg : VoxelGrid) (I : Z) (colormap : string) :
  heap w !! r = Some vg ->
  (- Z.of_nat (Np.dim1 (matrix vg)) <= I < Z.of_nat (Np.dim1 (matrix vg)))%Z ->
  exists fig, create_slice_visualization r "y" (Some I) colormap w = px_imshow fig w
              /\ Np.shape2 (img_data fig) = (Np.dim0 (matrix vg), Np.dim2 (matrix vg))
              /\ Np.wf2 (img_data fig)
              /\ img_colorscale fig = colormap.
Proof.
  intros Hr HI. rewrite (slice_figure_y _ _ _ _ _ Hr), (normalize_index_value _ _ HI).
  eexists; split; [reflexivity|]. cbn.
  split; [reflexivity|]. split; [apply wf2_tabulate2 | reflexivity].
Qed.

Lemma slice_along_z (w : world) (r : nat) (vg : VoxelGrid) (I : Z) (colormap : string) :
  heap w !! r = Some vg ->
  (- Z.of_nat (Np.dim2 (matrix vg)) <= I < Z.of_nat (Np.dim2 (matrix vg)))%Z ->
  exists fig, create_slice_visualization r "z" (Some I) colormap w = px_imshow fig w
              /\ Np.shape2 (img_data fig) = (Np.dim0 (matrix vg), Np.dim1 (matrix vg))
              /\ Np.wf2 (img_data fig)
              /\ img_colorscale fig = colormap.
Proof.
  intros Hr HI.
  rewrite (slice_figure_else _ _ _ _ _ _ Hr) by discriminate.
  rewrite (normalize_index_value _ _ HI).
  eexists; split; [reflexivity|]. cbn.
  split; [reflexivity|]. split; [apply wf2_tabulate2 | reflexivity].
Qed.

(** Without an index, the slice is taken at [shape[axis] // 2]. *)
Lemma slice_default_index (w : world) (r : nat) (vg : VoxelGrid)
    (slice_axis : string) (a : nat) (colormap : string) :
  heap w !! r = Some vg ->
  axis_number slice_axis w = (Ok a, w) ->
  create_slice_visualization r slice_axis None colormap w =
  create_slice_visualization r slice_axis
    (Some (Z.of_nat (shape_at (Np.shape3 (matrix vg)) a / 2))) colormap w.
Proof.
  intros Hr Ha. unfold create_slice_visualization, bind.
  rewrite (deref_ok _ _ _ Hr), Ha. reflexivity.
Qed.

(** C3. On a grid of shape (nx, ny, nz), for each axis and every index in
    range on it, the slice [create_slice_visualization] extracts and hands
    to the charting call is a 2D array of the grid's shape with that axis
    removed: (ny, nz) for x, (nx, nz) for y, (nx, ny) for z.  The call
    returns the figure with that slice when plotly accepts the colour scale
    (and ends in plotly's exception otherwise).  Without an index it uses
    the mid-index [shape[axis] // 2]. *)
Theorem slice_shape_removes_axis (w : world) (r : nat) (vg : VoxelGrid)
    (nx ny nz : nat) (I : Z) (colormap : string) :
  heap w !! r = Some vg ->
  Np.shape3 (matrix vg) = (nx, ny, nz) ->
  ((- Z.of_nat nx <= I < Z.of_nat nx)%Z ->
   exists fig, create_slice_visualization r "x" (Some I) colormap w = px_imshow fig w
               /\ Np.shape2 (img_data fig) = (ny, nz)
               /\ Np.wf2 (img_data fig)
               /\ (plotly_imshow colormap = Ok tt ->
                   create_slice_visualization r "x" (Some I) colormap w = (Ok fig, w))) /\
  ((- Z.of_nat ny <= I < Z.of_nat ny)%Z ->
   exists fig, create_slice_visualization r "y" (Some I) colormap w = px_imshow fig w
               /\ Np.shape2 (img_data fig) = (nx, nz)
               /\ Np.wf2 (img_data fig)
               /\ (plotly_imshow colormap = Ok tt ->
                   create_slice_visualization r "y" (Some I) colormap w = (Ok fig, w))) /\
  ((- Z.of_nat nz <= I < Z.of_nat nz)%Z ->
   exists fig, create_slice_visualization r "z" (Some I) colormap w = px_imshow fig w
               /\ Np.shape2 (img_data fig) = (nx, ny)
               /\ Np.wf2 (img_data fig)
               /\ (plotly_imshow colormap = Ok tt ->
                   create_slice_visualization r "z" (Some I) colormap w = (Ok fig, w))) /\
  create_slice_visualization r "x" None colormap w =
    create_slice_visualization r "x" (Some (Z.of_nat (nx / 2))) colormap w /\
  create_slice_visualization r "y" None colormap w =
    create_slice_visualization r "y" (Some (Z.of_nat (ny / 2))) colormap w /\
  create_slice_visualization r "z" None colormap w =
    create_slice_visualization r "z" (Some (Z.of_nat (nz / 2))) colormap w.
Proof.
  intros Hr Hs.
  assert (D0 : Np.dim0 (matrix vg) = nx) by (unfold Np.dim0; rewrite Hs; reflexivity).
  assert (D1 : Np.dim1 (matrix vg) = ny) by (unfold Np.dim1; rewrite Hs; reflexivity).
  assert (D2 : Np.dim2 (matrix vg) = nz) by (unfold Np.dim2; rewrite Hs; reflexivity).
  pose proof (slice_along_x w r vg I colormap Hr) as Hx.
  pose proof (slice_along_y w r vg I colormap Hr) as Hy.
  pose proof (slice_along_z w r vg I colormap Hr) as Hz.
  rewrite D0, D1, D2 in Hx, Hy, Hz.
  assert (Hfig : forall (c : M Figure2d) (s : nat * nat),
             (exists fig, c w = px_imshow fig w /\ Np.shape2 (img_data fig) = s
                          /\ Np.wf2 (img_data fig) /\ img_colorscale fig = colormap) ->
             exists fig, c w = px_imshow fig w /\ Np.shape2 (img_data fig) = s
                         /\ Np.wf2 (img_data fig)
                         /\ (plotly_imshow colormap = Ok tt -> c w = (Ok fig, w))).
  { intros c s (fig & Hc & Hshape & Hwf & Hcs). exists fig.
    split; [exact Hc|]. split; [exact Hshape|]. split; [exact Hwf|].
    intros Hok. rewrite Hc. apply px_imshow_ok. rewrite Hcs. exact Hok. }
  split; [intros HI; apply Hfig, Hx, HI|].
  split; [intros HI; apply Hfig, Hy, HI|].
  split; [intros HI; apply Hfig, Hz, HI|].
  pose proof (slice_default_index w r vg "x" 0 colormap Hr eq_refl) as Ex.
  pose proof (slice_default_index w r vg "y" 1 colormap Hr eq_refl) as Ey.
  pose proof (slice_default_index w r vg "z" 2 colormap Hr eq_refl) as Ez.
  rewrite Hs in Ex, Ey, Ez.
  split; [exact Ex|]. split; [exact Ey | exact Ez].
Qed.

(** ** Frame lemmas: what a computation leaves alone *)

Lemma events_of_emit (e : ui_event) (w : world) :
  events_of (emit e) w = [e].
Proof. unfold events_of, emit; simpl. apply drop_app_length. Qed.

Lemma color_policy_ok (color_by : string) (cells : list (nat * nat * nat)) (w : world) :
  exists c w', color_policy color_by cells w = (Ok c, w')
               /\ ui w' = ui w /\ heap w' = heap w /\ fs w' = fs w.
Proof.
  unfold color_policy.
  repeat match goal with
         | |- context [String.eqb ?a ?b] => destruct (String.eqb a b)
         end;
    try (eexists _, w; repeat split; reflexivity).
  unfold bind, random_seed, random_rand, ret; simpl.
  destruct (np_random_rand (np_random_seed 42) (List.length (col0 cells))) as [v s].
  eexists _, _; repeat split; reflexivity.
Qed.

(** The two paths of [create_voxel_visualization]. *)
Lemma create_voxel_visualization_empty (w : world) (r : nat) (vg : VoxelGrid)
    (colormap color_by : string) (marker_size : Z) (opacity : float) :
  heap w !! r = Some vg ->
  Np.count_true (Np.buf3 (matrix vg)) = 0 ->
  create_voxel_visualization r colormap color_by marker_size opacity w
  = (Ok None, {| fs := fs w; heap := heap w; rng := rng w;
                 ui := ui w ++ [StWarning "No voxels found in the mesh"] |}).
Proof.
  intros Hr Hc. unfold create_voxel_visualization, bind.
  rewrite (deref_ok _ _ _ Hr), ArgwhereFacts.length_argwhere, Hc. reflexivity.
Qed.

Lemma create_voxel_visualization_cells (w : world) (r : nat) (vg : VoxelGrid)
    (colormap color_by : string) (marker_size : Z) (opacity : float) :
  heap w !! r = Some vg ->
  0 < Np.count_true (Np.buf3 (matrix vg)) ->
  exists c w',
    color_policy color_by (Np.argwhere (matrix vg)) w = (Ok c, w') /\
    ui w' = ui w /\ heap w' = heap w /\ fs w' = fs w /\
    create_voxel_visualization r colormap color_by marker_size opacity w
    = (match plotly_scatter3d colormap marker_size opacity with
       | Ok _ => Ok (Some (scatter_figure (Np.argwhere (matrix vg)) c
                             colormap marker_size opacity))
       | Raise e => Raise e
       end, w').
Proof.
  intros Hr Hc. unfold create_voxel_visualization, bind.
  rewrite (deref_ok _ _ _ Hr), ArgwhereFacts.length_argwhere.
  destruct (Np.count_true (Np.buf3 (matrix vg))) as [|n] eqn:E; [lia|].
  change (S n =? 0) with false. cbv beta iota.
  destruct (color_policy_ok color_by (Np.argwhere (matrix vg)) w)
    as (c & w' & Hcp & Hui & Hh & Hf).
  exists c, w'. rewrite Hcp. cbv beta iota. rewrite go_scatter3d_run.
  cbn [fig_colorscale fig_marker_size fig_opacity].
  split; [reflexivity|]. split; [exact Hui|]. split; [exact Hh|]. split; [exact Hf|].
  destruct (plotly_scatter3d colormap marker_size opacity); reflexivity.
Qed.


#[local] Instance same_store_preorder : PreOrder same_store.
Proof.
  split.
  - intros w; split; reflexivity.
  - intros w1 w2 w3 [H1 H2] [H3 H4]; split; congruence.
Qed.

Section Keeps.
Context (R : world -> world -> Prop) `{!PreOrder R}.

Lemma keeps_ret {A} (a : A) : keeps R (ret a).
Proof. intros w; simpl; reflexivity. Qed.

Lemma keeps_raise {A} (e : exn) : keeps R (raise (A:=A) e).
Proof. intros w; simpl; reflexivity. Qed.

Lemma keeps_lift {A} (x : result A) : keeps R (lift x).
Proof. intros w; simpl; reflexivity. Qed.

Lemma keeps_deref (r : nat) : keeps R (deref r).
Proof. intros w; unfold deref; destruct (heap w !! r); simpl; reflexivity. Qed.

Lemma keeps_bind {A B} (m : M A) (k : A -> M B) :
  keeps R m -> (forall a, keeps R (k a)) -> keeps R (bind m k).
Proof.
  intros Hm Hk w. unfold bind. specialize (Hm w).
  destruct (m w) as [[a|e] w']; simpl in *; [|exact Hm].
  transitivity w'; [exact Hm | apply Hk].
Qed.

Lemma keeps_try_except {A} (m : M A) (h : exn -> M A) :
  keeps R m -> (forall e, keeps R (h e)) -> keeps R (try_except m h).
Proof.
  intros Hm Hh w. unfold try_except. specialize (Hm w).
  destruct (m w) as [[a|e] w']; simpl in *; [exact Hm|].
  transitivity w'; [exact Hm | apply Hh].
Qed.

Lemma keeps_take_index (axis n : nat) (i : Z) : keeps R (take_index axis n i).
Proof.
  unfold take_index. destruct (Np.normalize_index n i);
    [apply keeps_ret | apply keeps_raise].
Qed.

Lemma keeps_px_imshow (fig : Figure2d) : keeps R (px_imshow fig).
Proof.
  unfold px_imshow. apply keeps_bind; [apply keeps_lift | intros ?; apply keeps_ret].
Qed.

Lemma keeps_go_scatter3d (fig : Figure3d) : keeps R (go_scatter3d fig).
Proof.
  unfold go_scatter3d. apply keeps_bind; [apply keeps_lift | intros ?; apply keeps_ret].
Qed.

Lemma keeps_axis_number (a : string) : keeps R (axis_number a).
Proof.
  unfold axis_number.
  repeat match goal with
         | |- context [String.eqb ?x ?y] => destruct (String.eqb x y)
         end; first [apply keeps_ret | apply keeps_raise].
Qed.

End Keeps.

Lemma keeps_emit (e : ui_event) : keeps same_store (emit e).
Proof. intros w; split; reflexivity. Qed.

Lemma keeps_random_seed (s : Z) : keeps same_store (random_seed s).
Proof. intros w; split; reflexivity. Qed.

Lemma keeps_random_rand (n : nat) : keeps same_store (random_rand n).
Proof.
  intros w; unfold random_rand. destruct (np_random_rand (rng w) n).
  split; reflexivity.
Qed.

(** Decomposes a frame goal along the structure of the computation. *)
Ltac keeps_step :=
  lazymatch goal with
  | |- keeps ?R (bind _ _) => apply (keeps_bind R); [|intros ?]
  | |- keeps ?R (try_except _ _) => apply (keeps_try_except R); [|intros ?]
  | |- keeps ?R (ret _) => apply (keeps_ret R)
  | |- keeps ?R (raise _) => apply (keeps_raise R)
  | |- keeps ?R (lift _) => apply (keeps_lift R)
  | |- keeps ?R (deref _) => apply (keeps_deref R)
  | |- keeps ?R (take_index _ _ _) => apply (keeps_take_index R)
  | |- keeps ?R (px_imshow _) => apply (keeps_px_imshow R)
  | |- keeps ?R (go_scatter3d _) => apply (keeps_go_scatter3d R)
  | |- keeps ?R (axis_number _) => apply (keeps_axis_number R)
  | |- keeps _ (emit _) => apply keeps_emit
  | |- keeps _ (random_seed _) => apply keeps_random_seed
  | |- keeps _ (random_rand _) => apply keeps_random_rand
  | |- keeps _ (match ?x with _ => _ end) => destruct x
  end.
Ltac keeps_tac := repeat keeps_step.

Lemma keeps_color_policy (color_by : string) (cells : list (nat * nat * nat)) :
  keeps same_store (color_policy color_by cells).
Proof. unfold color_policy. keeps_tac. Qed.

Lemma create_voxel_visualization_frame (r : nat)
    (colormap color_by : string) (marker_size : Z) (opacity : float) :
  keeps same_store (create_voxel_visualization r colormap color_by marker_size opacity).
Proof.
  unfold create_voxel_visualization, st_warning. keeps_tac.
  apply keeps_color_policy.
Qed.

Lemma create_slice_visualization_frame (r : nat)
    (slice_axis : string) (slice_index : option Z) (colormap : string) :
  keeps eq (create_slice_visualization r slice_axis slice_index colormap).
Proof. unfold create_slice_visualization. keeps_tac. Qed.

(** C9. Whatever the colour scheme, colouring mode, opacity, marker size,
    slice axis and slice index, neither renderer changes any stored object:
    after the call the heap, and with it the grid and its matrix, is what it
    was before (the 3D renderer's only effects are the warning and the
    re-seeded generator). *)
Theorem renderers_leave_grid_unchanged (w : world) (r : nat)
    (colormap color_by : string) (marker_size : Z) (opacity : float)
    (slice_axis : string) (slice_index : option Z) (slice_colormap : string) :
  heap (snd (create_voxel_visualization r colormap color_by marker_size opacity w)) = heap w /\
  heap (snd (create_slice_visualization r slice_axis slice_index slice_colormap w)) = heap w /\
  forall vg, heap w !! r = Some vg ->
    (matrix <$> heap (snd (create_voxel_visualization r colormap color_by marker_size opacity w)) !! r)
      = Some (matrix vg) /\
    (matrix <$> heap (snd (create_slice_visualization r slice_axis slice_index slice_colormap w)) !! r)
      = Some (matrix vg).
Proof.
  destruct (create_voxel_visualization_frame r colormap color_by marker_size opacity w)
    as [Hv _].
  pose proof (create_slice_visualization_frame r slice_axis slice_index slice_colormap w)
    as Hs.
  rewrite Hv, <- Hs.
  split; [reflexivity|]. split; [reflexivity|].
  intros vg Hr. rewrite Hr. split; reflexivity.
Qed.

(** ** The coordinates that are drawn and exported *)

Lemma color_policy_random (cells : list (nat * nat * nat)) (w : world) :
  fst (color_policy "Random" cells w) =
  Ok (ColorFloat (fst (np_random_rand (np_random_seed 42) (List.length cells))), "Random").
Proof.
  unfold color_policy; simpl. unfold bind, random_seed, random_rand, ret; simpl.
  unfold col0; rewrite List.length_map.
  destruct (np_random_rand (np_random_seed 42) (List.length cells)); reflexivity.
Qed.

Lemma create_voxel_visualization_random (r : nat) (colormap : string)
    (marker_size : Z) (opacity : float) (w1 w2 : world) :
  heap w1 !! r = heap w2 !! r ->
  fst (create_voxel_visualization r colormap "Random" marker_size opacity w1)
  = fst (create_voxel_visualization r colormap "Random" marker_size opacity w2).
Proof.
  intros Hh. unfold create_voxel_visualization, bind, deref. rewrite Hh.
  destruct (heap w2 !! r) as [vg|]; [|reflexivity].
  destruct (List.length (Np.argwhere (matrix vg)) =? 0); [reflexivity|].
  pose proof (color_policy_random (Np.argwhere (matrix vg)) w1) as H1.
  pose proof (color_policy_random (Np.argwhere (matrix vg)) w2) as H2.
  destruct (color_policy "Random" (Np.argwhere (matrix vg)) w1) as [c1 w1'].
  destruct (color_policy "Random" (Np.argwhere (matrix vg)) w2) as [c2 w2'].
  simpl in H1, H2. subst c1 c2. cbv beta iota. rewrite !go_scatter3d_run.
  cbn [fig_colorscale fig_marker_size fig_opacity].
  destruct (plotly_scatter3d colormap marker_size opacity); reflexivity.
Qed.

(** C6. In mode "Random" the scalar sequence is the first [len(x)] draws of
    the generator seeded with 42, whatever state the generator was in: two
    colourings of the same occupied cells, from any two worlds, are
    identical, and rendering a grid a second time gives the figure of the
    first render. *)
Theorem random_coloring_is_deterministic (cells : list (nat * nat * nat)) (w1 w2 : world)
    (r : nat) (colormap : string) (marker_size : Z) (opacity : float) :
  fst (color_policy "Random" cells w1) = fst (color_policy "Random" cells w2) /\
  fst (color_policy "Random" cells w1)
    = Ok (ColorFloat (fst (np_random_rand (np_random_seed 42) (List.length cells))),
          "Random") /\
  fst (create_voxel_visualization r colormap "Random" marker_size opacity
         (snd (create_voxel_visualization r colormap "Random" marker_size opacity w1)))
    = fst (create_voxel_visualization r colormap "Random" marker_size opacity w1).
Proof.
  rewrite !color_policy_random.
  split; [reflexivity|]. split; [reflexivity|].
  apply create_voxel_visualization_random.
  destruct (create_voxel_visualization_frame r colormap "Random" marker_size opacity w1)
    as [Hh _].
  rewrite Hh. reflexivity.
Qed.

(** C10. The 3D renderer plots, and the coordinate exporter writes, the rows
    of [np.argwhere(matrix)]: the coordinate arrays of the figure are the
    three columns of these rows (a call that ends in an exception is one
    plotly refused), the rows read back from the exported text are these rows
    in the same order, and they are exactly the integer index triples
    (i, j, k) of the occupied cells, each inside the grid's shape (no pitch
    and no origin enter), every occupied cell once, in strictly ascending
    lexicographic order. *)
Theorem coordinates_are_grid_indices (w : world) (r : nat) (vg : VoxelGrid)
    (colormap color_by : string) (marker_size : Z) (opacity : float) :
  heap w !! r = Some vg ->
  Np.wf3 (matrix vg) ->
  let cells := Np.argwhere (matrix vg) in
  match fst (create_voxel_visualization r colormap color_by marker_size opacity w) with
  | Ok (Some fig) =>
      fig_x fig = col0 cells /\ fig_y fig = col1 cells /\ fig_z fig = col2 cells
  | Ok None => cells = []
  | Raise e => plotly_scatter3d colormap marker_size opacity = Raise e /\ cells <> []
  end /\
  read_coordinates (export_coordinates (matrix vg)) = Some cells /\
  (forall i j k,
     In (i, j, k) cells <->
     i < Np.dim0 (matrix vg) /\ j < Np.dim1 (matrix vg) /\ k < Np.dim2 (matrix vg)
     /\ Np.get3 (matrix vg) i j k = true) /\
  StronglySorted lex_lt cells.
Proof.
  intros Hr Hwf cells. subst cells.
  split; [|split; [|split]].
  - destruct (Np.count_true (Np.buf3 (matrix vg))) as [|n] eqn:E.
    + rewrite (create_voxel_visualization_empty _ _ _ _ _ _ _ Hr E). cbn [fst].
      apply List.length_zero_iff_nil. rewrite ArgwhereFacts.length_argwhere. exact E.
    + destruct (create_voxel_visualization_cells w r vg colormap color_by marker_size
                  opacity Hr) as (c & w' & _ & _ & _ & _ & Hrun); [lia|].
      rewrite Hrun. cbn [fst].
      destruct (plotly_scatter3d colormap marker_size opacity) as [[]|e].
      * repeat split; reflexivity.
      * split; [reflexivity|]. intros Hnil.
        apply (f_equal (@List.length _)) in Hnil.
        rewrite ArgwhereFacts.length_argwhere, E in Hnil. discriminate Hnil.
  - unfold export_coordinates. apply CsvFacts.read_to_csv.
  - intros i j k. apply ArgwhereFacts.In_argwhere; exact Hwf.
  - apply ArgwhereFacts.argwhere_sorted; exact Hwf.
Qed.

(** ** Loading and voxelizing: what each path returns and leaves behind *)

Lemma load_stl_file_raise (file : UploadedFile) (w : world) (e : exn) :
  trimesh_load_mesh (snd file) = Raise e ->
  load_stl_file file w =
  (Ok None,
   {| fs := <[tempfile_name (fs w) ".stl" := snd file]> (fs w);
      heap := heap w; rng := rng w;
      ui := ui w ++ [StError ("Error loading STL file: " ++ exn_str e)] |}).
Proof.
  intros He.
  unfold load_stl_file, load_stl_file_try, try_except, bind, named_temporary_file,
    load_mesh; simpl.
  rewrite lookup_insert_eq, He. reflexivity.
Qed.

Lemma load_stl_file_ok (file : UploadedFile) (w : world) (mesh_obj : Trimesh) :
  trimesh_load_mesh (snd file) = Ok mesh_obj ->
  load_stl_file file w =
  (Ok (Some mesh_obj),
   {| fs := delete (tempfile_name (fs w) ".stl")
                   (<[tempfile_name (fs w) ".stl" := snd file]> (fs w));
      heap := heap w; rng := rng w; ui := ui w |}).
Proof.
  intros He.
  unfold load_stl_file, load_stl_file_try, try_except, bind, named_temporary_file,
    load_mesh, os_unlink; simpl.
  rewrite lookup_insert_eq, He; simpl. rewrite lookup_insert_eq. reflexivity.
Qed.

Lemma voxelize_mesh_no_bounds (mesh_obj : Trimesh) (resolution : Z) (w : world) :
  bounds mesh_obj = None ->
  voxelize_mesh mesh_obj resolution w =
  (Ok None,
   {| fs := fs w; heap := heap w; rng := rng w;
      ui := ui w ++ [StError ("Error voxelizing mesh: "
                              ++ "'NoneType' object is not subscriptable")] |}).
Proof.
  intros Hb. unfold voxelize_mesh, voxelize_mesh_try, try_except, bind, get_bounds.
  rewrite Hb. reflexivity.
Qed.

Lemma voxelize_mesh_raise (mesh_obj : Trimesh) (resolution : Z) (w : world)
    (b : vec3 * vec3) (e : exn) :
  bounds mesh_obj = Some b ->
  trimesh_voxelized mesh_obj (PrimFloat.div (max_extent b) (float_of_Z resolution)) = Raise e ->
  voxelize_mesh mesh_obj resolution w =
  (Ok None,
   {| fs := fs w; heap := heap w; rng := rng w;
      ui := ui w ++ [StError ("Error voxelizing mesh: " ++ exn_str e)] |}).
Proof.
  intros Hb He. unfold voxelize_mesh, voxelize_mesh_try, try_except, bind, get_bounds, lift.
  rewrite Hb; simpl. rewrite He. reflexivity.
Qed.

Lemma voxelize_mesh_ok (mesh_obj : Trimesh) (resolution : Z) (w : world)
    (b : vec3 * vec3) (g : VoxelGrid) :
  bounds mesh_obj = Some b ->
  trimesh_voxelized mesh_obj (PrimFloat.div (max_extent b) (float_of_Z resolution)) = Ok g ->
  let pitch := PrimFloat.div (max_extent b) (float_of_Z resolution) in
  let r := fresh (dom (heap w)) in
  voxelize_mesh mesh_obj resolution w =
  (Ok (Some r),
   {| fs := fs w; heap := <[r := set__pitch pitch g]> (heap w);
      rng := rng w; ui := ui w |}).
Proof.
  intros Hb He pitch r.
  unfold voxelize_mesh, voxelize_mesh_try, try_except, bind, get_bounds, lift, alloc, setattr__pitch.
  rewrite Hb; simpl. rewrite He; simpl.
  rewrite lookup_insert_eq, insert_insert_eq. reflexivity.
Qed.

(** C1 (as amended). For a mesh with bounding box [b] and any resolution
    from 10 to 200, when the library builds a grid at the pitch it is given,
    [voxelize_mesh] returns that grid with [_pitch] set to the binary64
    quotient [max(bounds[1] - bounds[0]) / resolution], the very pitch it
    handed to the library. *)
Theorem pitch_is_max_extent_over_resolution (mesh_obj : Trimesh) (resolution : Z)
    (w : world) (b : vec3 * vec3) (g : VoxelGrid) :
  (10 <= resolution <= 200)%Z ->
  bounds mesh_obj = Some b ->
  trimesh_voxelized mesh_obj (PrimFloat.div (max_extent b) (float_of_Z resolution)) = Ok g ->
  exists r,
    fst (voxelize_mesh mesh_obj resolution w) = Ok (Some r) /\
    (_pitch <$> heap (snd (voxelize_mesh mesh_obj resolution w)) !! r)
      = Some (Some (PrimFloat.div (vec3_max (vec3_sub (snd b) (fst b)))
                                  (float_of_Z resolution))) /\
    (matrix <$> heap (snd (voxelize_mesh mesh_obj resolution w)) !! r)
      = Some (matrix g).
Proof.
  intros _ Hb He. exists (fresh (dom (heap w))).
  rewrite (voxelize_mesh_ok _ _ _ _ _ Hb He); simpl.
  rewrite lookup_insert_eq. repeat split; reflexivity.
Qed.

(** ** Failures *)

Lemma load_stl_file_try_raises (file : UploadedFile) (w : world) (e : exn) :
  fst (load_stl_file_try file w) = Raise e -> trimesh_load_mesh (snd file) = Raise e.
Proof.
  unfold load_stl_file_try, bind, named_temporary_file, load_mesh, os_unlink; simpl.
  rewrite lookup_insert_eq.
  destruct (trimesh_load_mesh (snd file)) as [m|e']; simpl.
  - rewrite lookup_insert_eq; simpl. discriminate.
  - congruence.
Qed.

Lemma voxelize_mesh_try_raises (mesh_obj : Trimesh) (resolution : Z) (w : world) (e : exn) :
  fst (voxelize_mesh_try mesh_obj resolution w) = Raise e ->
  (bounds mesh_obj = None /\ exn_str e = "'NoneType' object is not subscriptable") \/
  (exists b, bounds mesh_obj = Some b /\
             trimesh_voxelized mesh_obj
               (PrimFloat.div (max_extent b) (float_of_Z resolution)) = Raise e).
Proof.
  unfold voxelize_mesh_try, bind, get_bounds, lift, alloc, setattr__pitch.
  destruct (bounds mesh_obj) as [b|]; simpl.
  - destruct (trimesh_voxelized mesh_obj _) as [g|e'] eqn:E; simpl.
    + rewrite lookup_insert_eq; simpl. discriminate.
    + intros [= ->]. right. exists b. split; [reflexivity | exact E].
  - intros [= <-]. left. split; reflexivity.
Qed.

Lemma voxelize_mesh_caught (mesh_obj : Trimesh) (resolution : Z) (w w0 : world) (e : exn) :
  fst (voxelize_mesh_try mesh_obj resolution w0) = Raise e ->
  voxelize_mesh mesh_obj resolution w =
  (Ok None,
   {| fs := fs w; heap := heap w; rng := rng w;
      ui := ui w ++ [StError ("Error voxelizing mesh: " ++ exn_str e)] |}).
Proof.
  intros He. apply voxelize_mesh_try_raises in He as [[Hb Hs] | (b & Hb & Hv)].
  - rewrite Hs. apply voxelize_mesh_no_bounds; exact Hb.
  - apply (voxelize_mesh_raise _ _ _ b); assumption.
Qed.

Lemma page_header_ok (w : world) :
  exists evs, page_header w =
              (Ok tt, {| fs := fs w; heap := heap w; rng := rng w; ui := ui w ++ evs |}).
Proof.
  unfold page_header, bind, try_except, st_image, st_warning, emit; simpl.
  destruct (fs w !! "image.png"); simpl;
    eexists; rewrite <- !List.app_assoc; reflexivity.
Qed.

Lemma drop_ui_app (l evs : list ui_event) : drop (List.length l) (l ++ evs) = evs.
Proof. apply drop_app_length. Qed.

(** C7. An exception raised while loading or while voxelizing does not
    leave the operation: [load_stl_file] and [voxelize_mesh] always return,
    and when their [try] block raises they put exactly one error message on
    the page and return [None].  [main] then shows nothing further: the page
    is the header followed by that one message. *)
Theorem failures_are_caught_and_reported (i : inputs) (file : UploadedFile)
    (mesh_obj : Trimesh) (w : world) :
  (exists o, fst (load_stl_file file w) = Ok o) /\
  (forall resolution, exists o, fst (voxelize_mesh mesh_obj resolution w) = Ok o) /\
  (forall e, fst (load_stl_file_try file w) = Raise e ->
     fst (load_stl_file file w) = Ok None /\
     events_of (load_stl_file file) w
       = [StError ("Error loading STL file: " ++ exn_str e)] /\
     (uploaded_file i = Some file ->
      events_of (main i) w
        = events_of page_header w
          ++ [StError ("Error loading STL file: " ++ exn_str e)])) /\
  (forall resolution e, fst (voxelize_mesh_try mesh_obj resolution w) = Raise e ->
     fst (voxelize_mesh mesh_obj resolution w) = Ok None /\
     events_of (voxelize_mesh mesh_obj resolution) w
       = [StError ("Error voxelizing mesh: " ++ exn_str e)]) /\
  (forall e, uploaded_file i = Some file ->
     trimesh_load_mesh (snd file) = Ok mesh_obj ->
     fst (voxelize_mesh_try mesh_obj (slider_value 10 200 50 (in_resolution i)) w) = Raise e ->
     events_of (main i) w
       = events_of page_header w
         ++ [StError ("Error voxelizing mesh: " ++ exn_str e)]).
Proof.
  split; [|split; [|split; [|split]]].
  - unfold load_stl_file, try_except.
    destruct (load_stl_file_try file w) as [[o|e] w1]; simpl; eexists; reflexivity.
  - intros resolution. unfold voxelize_mesh, try_except.
    destruct (voxelize_mesh_try mesh_obj resolution w) as [[o|e] w1]; simpl;
      eexists; reflexivity.
  - intros e He. apply load_stl_file_try_raises in He.
    unfold events_of. rewrite (load_stl_file_raise _ _ _ He); simpl.
    split; [reflexivity|]. split; [apply drop_ui_app|].
    intros Hf. unfold main, bind.
    destruct (page_header_ok w) as (evs & ->). rewrite Hf.
    rewrite (load_stl_file_raise _ _ _ He); simpl.
    rewrite <- List.app_assoc, !drop_ui_app. reflexivity.
  - intros resolution e He.
    unfold events_of. rewrite (voxelize_mesh_caught _ _ w _ _ He); simpl.
    split; [reflexivity | apply drop_ui_app].
  - intros e Hf Hl He. unfold events_of, main, bind.
    destruct (page_header_ok w) as (evs & ->). rewrite Hf.
    rewrite (load_stl_file_ok _ _ _ Hl); simpl.
    rewrite (voxelize_mesh_caught _ _ _ _ _ He); simpl.
    rewrite <- List.app_assoc, !drop_ui_app. reflexivity.
Qed.

(** ** The information panel *)

Lemma display_mesh_info_events (mesh_obj : Trimesh) (r : nat) (w : world)
    (b : vec3 * vec3) (vg : VoxelGrid) :
  bounds mesh_obj = Some b ->
  heap w !! r = Some vg ->
  exists mi line,
    events_of (display_mesh_info mesh_obj r) w =
    [ StMeshInfo mi;
      StBoundingBox b;
      StVoxelInfo {| info_grid_size := Np.shape3 (matrix vg);
                     info_filled := Np.sum (matrix vg);
                     info_total := Np.prod (Np.shape3 (matrix vg));
                     info_fill_ratio :=
                       true_divide (Np.sum (matrix vg)) (Np.prod (Np.shape3 (matrix vg)));
                     info_pitch := line |} ].
Proof.
  intros Hb Hr.
  unfold events_of, display_mesh_info, bind, get_bounds, deref, emit.
  simpl. rewrite Hb; simpl. rewrite Hr; simpl.
  eexists _, _. rewrite <- !List.app_assoc. apply drop_ui_app.
Qed.

(** C5. For a grid with at least one cell (a voxelizer returns no other),
    the total that [display_mesh_info] shows is the product of the grid's
    three dimensions,
    the filled count is the number of [True] cells, and the fill ratio shown
    is the binary64 quotient of the two and lies in [0, 1]. *)
Theorem fill_ratio_is_occupied_over_total (mesh_obj : Trimesh) (r : nat) (w : world)
    (b : vec3 * vec3) (vg : VoxelGrid) :
  bounds mesh_obj = Some b ->
  heap w !! r = Some vg ->
  Np.wf3 (matrix vg) ->
  0 < Np.dim0 (matrix vg) * Np.dim1 (matrix vg) * Np.dim2 (matrix vg) ->
  let occupied := Np.count_true (Np.buf3 (matrix vg)) in
  let total := Np.dim0 (matrix vg) * Np.dim1 (matrix vg) * Np.dim2 (matrix vg) in
  exists mi info,
    events_of (display_mesh_info mesh_obj r) w
      = [StMeshInfo mi; StBoundingBox b; StVoxelInfo info]
    /\ info_total info = Z.of_nat total
    /\ info_filled info = Z.of_nat occupied
    /\ info_fill_ratio info
       = PrimFloat.div (float_of_Z (Z.of_nat occupied)) (float_of_Z (Z.of_nat total))
    /\ PrimFloat.leb 0%float (info_fill_ratio info) = true
    /\ PrimFloat.leb (info_fill_ratio info) 1%float = true.
Proof.
  intros Hb Hr Hwf Hpos occupied total.
  destruct (display_mesh_info_events mesh_obj r w b vg Hb Hr) as (mi & line & Hev).
  eexists _, _. split; [exact Hev|]. simpl. unfold true_divide.
  rewrite (CountFacts.prod_shape _ Hwf), (CountFacts.sum_count _ Hwf).
  do 3 (split; [reflexivity|]).
  apply FloatFacts.div_of_counts_in_unit_interval.
  - destruct Hwf as [Hl _]. pose proof (NpFacts.count_true_le (Np.buf3 (matrix vg))). lia.
  - destruct Hwf as [_ Hlt]. lia.
Qed.

End Script.

(** * Further properties of the script *)

Section More.
Context `{L : Library}.

(** ** The slice renderer at its edges *)

(** The figure handed to the charting call for an index in range, whatever
    the axis name. *)
Lemma slice_at_index (w : world) (r : nat) (vg : VoxelGrid) (slice_axis : string)
    (i : Z) (colormap : string) :
  heap w !! r = Some vg ->
  let n := sliced_length (matrix vg) slice_axis in
  (- Z.of_nat n <= i < Z.of_nat n)%Z ->
  exists fig,
    create_slice_visualization r slice_axis (Some i) colormap w = px_imshow fig w /\
    img_data fig
    = (if String.eqb slice_axis "x" then Np.slice_x (matrix vg) (position n i)
       else if String.eqb slice_axis "y" then Np.slice_y (matrix vg) (position n i)
       else Np.slice_z (matrix vg) (position n i)) /\
    img_title fig
    = ((if String.eqb slice_axis "x" then "X"
        else if String.eqb slice_axis "y" then "Y" else "Z")
       ++ "-slice at index " ++ str_Z i)%string /\
    img_colorscale fig = colormap.
Proof.
  intros Hr n Hi. subst n. unfold sliced_length in *.
  destruct (String.eqb_spec slice_axis "x") as [->|Hx].
  { rewrite (slice_figure_x _ _ _ _ _ Hr), (normalize_index_value _ _ Hi).
    eexists; split; [reflexivity|]. cbn. auto. }
  destruct (String.eqb_spec slice_axis "y") as [->|Hy].
  { rewrite (slice_figure_y _ _ _ _ _ Hr), (normalize_index_value _ _ Hi).
    eexists; split; [reflexivity|]. cbn. auto. }
  rewrite (slice_figure_else _ _ _ _ _ _ Hr Hx Hy), (normalize_index_value _ _ Hi).
  eexists; split; [reflexivity|]. cbn. auto.
Qed.

(** The cells of the plane [slice_at_index] describes. *)
Lemma sliced_plane_cells (m : Np.ndarray3) (slice_axis : string) (k a b : nat) :
  let plane := if String.eqb slice_axis "x" then Np.slice_x m k
               else if String.eqb slice_axis "y" then Np.slice_y m k
               else Np.slice_z m k in
  a < fst (Np.shape2 plane) -> b < snd (Np.shape2 plane) ->
  Np.get2 plane a b = sliced_cell m slice_axis k a b.
Proof.
  unfold sliced_cell.
  destruct (String.eqb slice_axis "x"); [|destruct (String.eqb slice_axis "y")];
    cbn; intros Ha Hb; apply slice_cells; assumption.
Qed.

(** X1. A slice at an index in range: the image handed to the charting
    call is the grid's plane at that index, cell for cell; a negative index
    counts from the end of the axis (index [-1] is the last plane), while
    the title prints the index as it was given.  This holds for every axis
    name, an unknown one being treated as the z axis.  The colour scale is
    passed on as given: the call returns this figure when plotly accepts
    the colour scale, and ends in plotly's exception, the world unchanged,
    when it does not. *)
Theorem slice_shows_plane_at_index (w : world) (r : nat) (vg : VoxelGrid)
    (slice_axis : string) (i : Z) (colormap : string) :
  heap w !! r = Some vg ->
  let n := sliced_length (matrix vg) slice_axis in
  (- Z.of_nat n <= i < Z.of_nat n)%Z ->
  exists fig,
    create_slice_visualization r slice_axis (Some i) colormap w = px_imshow fig w /\
    (forall a b,
       a < fst (Np.shape2 (img_data fig)) -> b < snd (Np.shape2 (img_data fig)) ->
       Np.get2 (img_data fig) a b
       = sliced_cell (matrix vg) slice_axis
           (if (i <? 0)%Z then n - Z.to_nat (- i) else Z.to_nat i) a b) /\
    img_title fig
    = ((if String.eqb slice_axis "x" then "X"
        else if String.eqb slice_axis "y" then "Y" else "Z")
       ++ "-slice at index " ++ str_Z i)%string /\
    img_colorscale fig = colormap /\
    (plotly_imshow colormap = Ok tt ->
     create_slice_visualization r slice_axis (Some i) colormap w = (Ok fig, w)) /\
    (forall e, plotly_imshow colormap = Raise e ->
     create_slice_visualization r slice_axis (Some i) colormap w = (Raise e, w)).
Proof.
  intros Hr n Hi.
  destruct (slice_at_index w r vg slice_axis i colormap Hr Hi) as (fig & Hrun & Hd & Ht & Hc).
  exists fig. split; [exact Hrun|]. split; [|split; [exact Ht|split; [exact Hc|split]]].
  - intros a b. rewrite Hd.
    replace (if (i <? 0)%Z then n - Z.to_nat (- i) else Z.to_nat i)
      with (position (sliced_length (matrix vg) slice_axis) i)
      by (unfold position; fold n; destruct (Z.ltb_spec i 0); lia).
    apply sliced_plane_cells.
  - intros Hok. rewrite Hrun, px_imshow_run, Hc, Hok. reflexivity.
  - intros e He. rewrite Hrun, px_imshow_run, Hc, He. reflexivity.
Qed.

(** X2. An index outside [-n, n) on the sliced axis of length [n] makes
    [create_slice_visualization] raise [IndexError]; nothing is put on the
    page and nothing else changes. *)
Theorem slice_index_out_of_range_raises (w : world) (r : nat) (vg : VoxelGrid)
    (slice_axis : string) (i : Z) (colormap : string) :
  heap w !! r = Some vg ->
  let n := sliced_length (matrix vg) slice_axis in
  (i < - Z.of_nat n \/ Z.of_nat n <= i)%Z ->
  exists msg,
    create_slice_visualization r slice_axis (Some i) colormap w
    = (Raise (Exn "IndexError" msg), w).
Proof.
  intros Hr n Hi. subst n. unfold sliced_length in *.
  destruct (String.eqb_spec slice_axis "x") as [->|Hx].
  { rewrite (slice_figure_x _ _ _ _ _ Hr), (normalize_index_none _ _ Hi). eauto. }
  destruct (String.eqb_spec slice_axis "y") as [->|Hy].
  { rewrite (slice_figure_y _ _ _ _ _ Hr), (normalize_index_none _ _ Hi). eauto. }
  rewrite (slice_figure_else _ _ _ _ _ _ Hr Hx Hy), (normalize_index_none _ _ Hi). eauto.
Qed.

(** X3. An axis name other than "x", "y" and "z": with an index, the slice
    is the one along z, the same figure as for "z"; without an index, the
    lookup of the axis number fails with [KeyError] before anything is
    sliced. *)
Theorem unknown_axis_is_sliced_along_z (w : world) (r : nat) (vg : VoxelGrid)
    (slice_axis : string) (i : Z) (colormap : string) :
  slice_axis <> "x" -> slice_axis <> "y" -> slice_axis <> "z" ->
  heap w !! r = Some vg ->
  create_slice_visualization r slice_axis (Some i) colormap w
  = create_slice_visualization r "z" (Some i) colormap w /\
  create_slice_visualization r slice_axis None colormap w
  = (Raise (Exn "KeyError" slice_axis), w).
Proof.
  intros Hx Hy Hz Hr. split.
  - rewrite (slice_figure_else _ _ _ _ _ _ Hr Hx Hy).
    rewrite (slice_figure_else w r vg "z" i colormap Hr) by discriminate. reflexivity.
  - unfold create_slice_visualization, bind. rewrite (deref_ok _ _ _ Hr).
    unfold axis_number.
    apply String.eqb_neq in Hx, Hy, Hz. rewrite Hx, Hy, Hz. reflexivity.
Qed.

(** X4. Without an index, on one of the axes "x", "y", "z" of length [n]:
    when the axis has planes, the image handed to the charting call is the
    plane [n // 2] (and the call returns that figure when plotly accepts the
    colour scale); when the axis is empty the call raises [IndexError]
    (index 0 of nothing). *)
Theorem default_slice_is_the_middle_plane (w : world) (r : nat) (vg : VoxelGrid)
    (slice_axis : string) (colormap : string) :
  heap w !! r = Some vg ->
  slice_axis = "x" \/ slice_axis = "y" \/ slice_axis = "z" ->
  let n := sliced_length (matrix vg) slice_axis in
  (0 < n ->
   exists fig,
     create_slice_visualization r slice_axis None colormap w = px_imshow fig w /\
     (forall a b,
        a < fst (Np.shape2 (img_data fig)) -> b < snd (Np.shape2 (img_data fig)) ->
        Np.get2 (img_data fig) a b = sliced_cell (matrix vg) slice_axis (n / 2) a b) /\
     (plotly_imshow colormap = Ok tt ->
      create_slice_visualization r slice_axis None colormap w = (Ok fig, w))) /\
  (n = 0 ->
   exists msg,
     create_slice_visualization r slice_axis None colormap w
     = (Raise (Exn "IndexError" msg), w)).
Proof.
  intros Hr Hax n.
  assert (Hdef : create_slice_visualization r slice_axis None colormap w
                 = create_slice_visualization r slice_axis (Some (Z.of_nat (n / 2))) colormap w).
  { subst n. unfold sliced_length, Np.dim0, Np.dim1, Np.dim2.
    destruct Hax as [-> | [-> | ->]].
    - rewrite (slice_default_index w r vg "x" 0 colormap Hr eq_refl).
      destruct (Np.shape3 (matrix vg)) as [[d0 d1] d2]; reflexivity.
    - rewrite (slice_default_index w r vg "y" 1 colormap Hr eq_refl).
      destruct (Np.shape3 (matrix vg)) as [[d0 d1] d2]; reflexivity.
    - rewrite (slice_default_index w r vg "z" 2 colormap Hr eq_refl).
      destruct (Np.shape3 (matrix vg)) as [[d0 d1] d2]; reflexivity. }
  rewrite Hdef. split.
  - intros Hn.
    assert (Hi : (- Z.of_nat n <= Z.of_nat (n / 2) < Z.of_nat n)%Z).
    { pose proof (Nat.div_lt n 2 Hn). lia. }
    destruct (slice_at_index w r vg slice_axis _ colormap Hr Hi)
      as (fig & Hrun & Hd & _ & Hc).
    exists fig. split; [exact Hrun|]. split.
    + intros a b. rewrite Hd.
      replace (position (sliced_length (matrix vg) slice_axis) (Z.of_nat (n / 2))) with (n / 2)
        by (unfold position; destruct (Z.ltb_spec (Z.of_nat (n / 2)) 0); lia).
      apply sliced_plane_cells.
    + intros Hok. rewrite Hrun. apply px_imshow_ok. rewrite Hc. exact Hok.
  - intros Hn. rewrite Hn. change (Z.of_nat (0 / 2)) with 0%Z.
    assert (Hi : (0 < - Z.of_nat n \/ Z.of_nat n <= 0)%Z) by lia.
    subst n. unfold sliced_length in *.
    destruct Hax as [-> | [-> | ->]].
    + rewrite (slice_figure_x _ _ _ _ _ Hr), (normalize_index_none _ _ Hi). eauto.
    + rewrite (slice_figure_y _ _ _ _ _ Hr), (normalize_index_none _ _ Hi). eauto.
    + rewrite (slice_figure_else _ _ _ _ _ _ Hr) by discriminate.
      rewrite (normalize_index_none _ _ Hi). eauto.
Qed.

(** ** The colouring policy and the 3D figure *)

(** The five modes the policy tests for by name. *)
Lemma color_policy_named (color_by : string) (cells : list (nat * nat * nat)) (w : world) :
  In color_by ["Z-coordinate"; "Y-coordinate"; "X-coordinate";
               "Distance from Center"; "Radial (XY)"] ->
  exists c, color_policy color_by cells w = (Ok c, w)
            /\ color_length (fst c) = List.length cells.
Proof.
  intros Hin. cbn in Hin.
  destruct Hin as [<- | [<- | [<- | [<- | [<- | []]]]]];
    (eexists; split; [reflexivity|]; cbn;
     unfold col0, col1, col2; rewrite List.length_map; reflexivity).
Qed.

(** Every other mode takes the last branch. *)
Lemma color_policy_else (color_by : string) (cells : list (nat * nat * nat)) (w : world) :
  ~ In color_by ["Z-coordinate"; "Y-coordinate"; "X-coordinate";
                 "Distance from Center"; "Radial (XY)"] ->
  color_policy color_by cells w =
  (Ok (ColorFloat (fst (np_random_rand (np_random_seed 42) (List.length cells))), "Random"),
   {| fs := fs w; heap := heap w;
      rng := snd (np_random_rand (np_random_seed 42) (List.length cells));
      ui := ui w |}).
Proof.
  intros Hn. unfold color_policy.
  destruct (String.eqb_spec color_by "Z-coordinate"); [exfalso; apply Hn; subst; cbn; tauto|].
  destruct (String.eqb_spec color_by "Y-coordinate"); [exfalso; apply Hn; subst; cbn; tauto|].
  destruct (String.eqb_spec color_by "X-coordinate"); [exfalso; apply Hn; subst; cbn; tauto|].
  destruct (String.eqb_spec color_by "Distance from Center");
    [exfalso; apply Hn; subst; cbn; tauto|].
  destruct (String.eqb_spec color_by "Radial (XY)"); [exfalso; apply Hn; subst; cbn; tauto|].
  unfold bind, random_seed, random_rand, ret; cbn.
  unfold col0. rewrite List.length_map.
  destruct (np_random_rand (np_random_seed 42) (List.length cells)); reflexivity.
Qed.

(** X5. A colouring mode that is none of the five modes tested for by name
    is rendered as "Random": same figure, same effect on the generator. *)
Theorem unknown_color_mode_is_random (w : world) (r : nat) (colormap color_by : string)
    (marker_size : Z) (opacity : float) :
  ~ In color_by ["Z-coordinate"; "Y-coordinate"; "X-coordinate";
                 "Distance from Center"; "Radial (XY)"] ->
  create_voxel_visualization r colormap color_by marker_size opacity w
  = create_voxel_visualization r colormap "Random" marker_size opacity w.
Proof.
  intros Hn. unfold create_voxel_visualization, bind.
  destruct (deref r w) as [[vg|e] w1]; [|reflexivity].
  destruct (List.length (Np.argwhere (matrix vg)) =? 0); [reflexivity|].
  rewrite (color_policy_else color_by _ _ Hn).
  rewrite (color_policy_else "Random").
  - reflexivity.
  - cbn. intros [H | [H | [H | [H | [H | []]]]]]; discriminate H.
Qed.

(** X6. What rendering the 3D figure does to NumPy's global generator: in
    the five named modes, and for a grid without occupied cells in any mode,
    its state is left as it was; in any other mode, on a grid with occupied
    cells, it is re-seeded with 42 and advanced by one draw per occupied
    cell, whatever its state was. *)
Theorem rendering_reseeds_the_generator (w : world) (r : nat) (vg : VoxelGrid)
    (colormap color_by : string) (marker_size : Z) (opacity : float) :
  heap w !! r = Some vg ->
  let occupied := Np.count_true (Np.buf3 (matrix vg)) in
  let w' := snd (create_voxel_visualization r colormap color_by marker_size opacity w) in
  (In color_by ["Z-coordinate"; "Y-coordinate"; "X-coordinate";
                "Distance from Center"; "Radial (XY)"] \/ occupied = 0 ->
   rng w' = rng w) /\
  (~ In color_by ["Z-coordinate"; "Y-coordinate"; "X-coordinate";
                  "Distance from Center"; "Radial (XY)"] -> 0 < occupied ->
   rng w' = snd (np_random_rand (np_random_seed 42) occupied)).
Proof.
  intros Hr occupied w'. subst w' occupied.
  unfold create_voxel_visualization, bind.
  rewrite (deref_ok _ _ _ Hr), ArgwhereFacts.length_argwhere.
  destruct (Np.count_true (Np.buf3 (matrix vg))) as [|n] eqn:E.
  - split; [reflexivity | lia].
  - change (S n =? 0) with false. cbv iota. split.
    + intros [Hin | Hz]; [|discriminate Hz].
      destruct (color_policy_named color_by (Np.argwhere (matrix vg)) w Hin) as (c & -> & _).
      cbv beta iota. rewrite go_scatter3d_run.
      destruct (plotly_scatter3d _ _ _); reflexivity.
    + intros Hn _. rewrite (color_policy_else color_by _ _ Hn).
      rewrite ArgwhereFacts.length_argwhere, E.
      cbv beta iota. rewrite go_scatter3d_run.
      destruct (plotly_scatter3d _ _ _); reflexivity.
Qed.

Lemma label_names_coordinates (cells : list (nat * nat * nat)) (n : nat) :
  n < List.length cells ->
  nth n (map voxel_label cells) EmptyString
  = voxel_label (nth n (map (fun p => fst (fst p)) cells) 0,
                 nth n (map (fun p => snd (fst p)) cells) 0,
                 nth n (map (fun p => snd p) cells) 0).
Proof.
  revert n. induction cells as [|[[a b] c] cells IH]; intros n Hn; [cbn in Hn; lia|].
  destruct n as [|n]; [reflexivity|]. cbn in Hn. cbn [map nth]. apply IH. lia.
Qed.

(** X7. The 3D figure built for a grid with occupied cells (the figure
    returned, when plotly accepts the colour scale, marker size and
    opacity; the call ends in plotly's exception otherwise) has one point
    per occupied cell: the three coordinate arrays, the hover labels and,
    in the five named modes, the colour values all have that length, which
    is also the count in the title; the label of a point names the
    coordinates the point is plotted at; and in the modes "X-", "Y-" and
    "Z-coordinate" the colour values are the plotted coordinate itself. *)
Theorem figure_has_one_point_per_cell (w : world) (r : nat) (vg : VoxelGrid)
    (colormap color_by : string) (marker_size : Z) (opacity : float) :
  heap w !! r = Some vg ->
  let occupied := Np.count_true (Np.buf3 (matrix vg)) in
  0 < occupied ->
  exists fig,
    fst (create_voxel_visualization r colormap color_by marker_size opacity w)
    = match plotly_scatter3d colormap marker_size opacity with
      | Ok _ => Ok (Some fig)
      | Raise e => Raise e
      end /\
    List.length (fig_x fig) = occupied /\
    List.length (fig_y fig) = occupied /\
    List.length (fig_z fig) = occupied /\
    List.length (fig_text fig) = occupied /\
    fig_voxels fig = occupied /\
    (In color_by ["Z-coordinate"; "Y-coordinate"; "X-coordinate";
                  "Distance from Center"; "Radial (XY)"] ->
     color_length (fig_color fig) = occupied) /\
    (forall n, n < occupied ->
       nth n (fig_text fig) EmptyString
       = voxel_label (nth n (fig_x fig) 0, nth n (fig_y fig) 0, nth n (fig_z fig) 0)) /\
    (color_by = "X-coordinate" -> fig_color fig = ColorInt (fig_x fig)) /\
    (color_by = "Y-coordinate" -> fig_color fig = ColorInt (fig_y fig)) /\
    (color_by = "Z-coordinate" -> fig_color fig = ColorInt (fig_z fig)).
Proof.
  intros Hr occupied Hpos. subst occupied.
  pose proof (ArgwhereFacts.length_argwhere (matrix vg)) as Hlen.
  destruct (create_voxel_visualization_cells w r vg colormap color_by marker_size opacity
              Hr Hpos) as (c & w' & Hc & _ & _ & _ & Hrun).
  eexists. rewrite Hrun. cbn [fst]. split; [reflexivity|].
  unfold scatter_figure. cbn.
  unfold col0, col1, col2. rewrite !List.length_map, Hlen.
  split; [reflexivity|]. split; [reflexivity|]. split; [reflexivity|].
  split; [reflexivity|]. split; [reflexivity|].
  split.
  { intros Hin.
    destruct (color_policy_named color_by (Np.argwhere (matrix vg)) w Hin) as (c' & Hc' & Hl).
    rewrite Hc' in Hc. injection Hc as <- _. rewrite Hl. exact Hlen. }
  split.
  { intros k Hk. apply label_names_coordinates. rewrite Hlen. exact Hk. }
  split; [|split]; intros ->; cbn in Hc; injection Hc as <- _; reflexivity.
Qed.

(** ** Loading, voxelizing, and the information panel *)

(** X8. After a load that succeeds the temporary file is gone, and when the
    path picked for it was not in use (as [tempfile] guarantees) the world
    is exactly as before: no file left, nothing on the page, the mesh
    returned. *)
Theorem successful_load_leaves_no_trace (file : UploadedFile) (w : world)
    (mesh_obj : Trimesh) :
  trimesh_load_mesh (snd file) = Ok mesh_obj ->
  fst (load_stl_file file w) = Ok (Some mesh_obj) /\
  fs (snd (load_stl_file file w)) !! tempfile_name (fs w) ".stl" = None /\
  (fs w !! tempfile_name (fs w) ".stl" = None ->
   load_stl_file file w = (Ok (Some mesh_obj), w)).
Proof.
  intros Hl. rewrite (load_stl_file_ok _ _ _ Hl). cbn [fst snd fs].
  split; [reflexivity|]. split; [apply lookup_delete_eq|].
  intros Hfresh. rewrite (delete_insert_id _ _ _ Hfresh).
  destruct w; reflexivity.
Qed.

(** X9. [voxelize_mesh] always returns, and touches only what it must: the
    files and the generator are as before and every object that existed is
    unchanged.  When it returns a grid, the grid is a new object (its
    reference was not in use) and nothing was put on the page; when it
    returns [None], no object was created and the page got exactly one
    error message. *)
Theorem voxelize_mesh_only_adds_an_object (mesh_obj : Trimesh) (resolution : Z) (w : world) :
  let w' := snd (voxelize_mesh mesh_obj resolution w) in
  fs w' = fs w /\ rng w' = rng w /\
  (forall r g, heap w !! r = Some g -> heap w' !! r = Some g) /\
  match fst (voxelize_mesh mesh_obj resolution w) with
  | Ok (Some r) => heap w !! r = None /\ is_Some (heap w' !! r) /\ ui w' = ui w
  | Ok None => heap w' = heap w /\ exists msg, ui w' = ui w ++ [StError msg]
  | Raise _ => False
  end.
Proof.
  intros w'. subst w'.
  destruct (bounds mesh_obj) as [b|] eqn:Hb.
  - destruct (trimesh_voxelized mesh_obj
                (PrimFloat.div (max_extent b) (float_of_Z resolution))) as [g|e] eqn:Hv.
    + pose proof (voxelize_mesh_ok _ resolution w _ _ Hb Hv) as Hrun. cbv zeta in Hrun.
      rewrite Hrun. cbn [fst snd fs rng heap ui].
      assert (Hfresh : heap w !! fresh (dom (heap w)) = None).
      { apply not_elem_of_dom. apply is_fresh. }
      split; [reflexivity|]. split; [reflexivity|]. split.
      * intros r g' Hr. rewrite lookup_insert_ne; [exact Hr|].
        intros <-. rewrite Hfresh in Hr. discriminate Hr.
      * split; [exact Hfresh|]. split; [|reflexivity].
        rewrite lookup_insert_eq. eexists; reflexivity.
    + rewrite (voxelize_mesh_raise _ resolution w _ _ Hb Hv). cbn [fst snd fs rng heap ui].
      repeat split; eauto.
  - rewrite (voxelize_mesh_no_bounds _ resolution w Hb). cbn [fst snd fs rng heap ui].
    repeat split; eauto.
Qed.

(** X10. Voxelizing and then displaying: the pitch line of the information
    panel is "Voxel Pitch" with the value [voxelize_mesh] computed and
    stored, [max(bounds[1] - bounds[0]) / resolution], whatever [pitch] the
    library's grid carries; the estimate from the grid's shape is not shown.
    The panel describes the grid the library returned. *)
Theorem displayed_pitch_is_the_computed_one (mesh_obj : Trimesh) (resolution : Z)
    (w : world) (b : vec3 * vec3) (g : VoxelGrid) :
  bounds mesh_obj = Some b ->
  trimesh_voxelized mesh_obj (PrimFloat.div (max_extent b) (float_of_Z resolution)) = Ok g ->
  exists r w1 mi info,
    voxelize_mesh mesh_obj resolution w = (Ok (Some r), w1) /\
    events_of (display_mesh_info mesh_obj r) w1
      = [StMeshInfo mi; StBoundingBox b; StVoxelInfo info] /\
    info_pitch info = VoxelPitch (PrimFloat.div (max_extent b) (float_of_Z resolution)) /\
    info_grid_size info = Np.shape3 (matrix g) /\
    info_filled info = Np.sum (matrix g) /\
    info_total info = Np.prod (Np.shape3 (matrix g)).
Proof.
  intros Hb Hv.
  pose proof (voxelize_mesh_ok _ resolution w _ _ Hb Hv) as Hrun. cbv zeta in Hrun.
  eexists _, _, _, _. split; [exact Hrun|].
  unfold events_of, display_mesh_info, bind, get_bounds, deref, emit.
  cbn [fst snd fs rng heap ui]. rewrite Hb. cbn [ret fst snd fs rng heap ui].
  rewrite lookup_insert_eq. cbn [fst snd fs rng heap ui _pitch set__pitch matrix].
  rewrite <- !List.app_assoc, drop_ui_app.
  split; [reflexivity|]. cbn. auto.
Qed.

(** ** The exports, read back *)

(** The occupied cells determine the buffer of a grid of known shape. *)
Lemma grid_of_argwhere (m : Np.ndarray3) :
  Np.wf3 m -> grid_of_cells (Np.shape3 m) (Np.argwhere m) = m.
Proof.
  intros [Hlen _]. destruct m as [[[d0 d1] d2] buf].
  unfold Np.dim0, Np.dim1, Np.dim2 in Hlen. cbn in Hlen.
  unfold grid_of_cells, Np.argwhere. cbn [Np.shape3 Np.buf3]. f_equal.
  apply (List.nth_ext _ _ false false).
  { rewrite List.length_map, List.length_seq. symmetry. exact Hlen. }
  intros n Hn. rewrite List.length_map, List.length_seq in Hn.
  rewrite (List.nth_indep _ false
             ((fun n => existsb (fun p => Np.ravel (d0, d1, d2) p =? n)
                          (map (Np.unravel_index (d0, d1, d2)) (Np.flatnonzero buf))) 0))
    by (rewrite List.length_map, List.length_seq; exact Hn).
  rewrite (List.map_nth (fun n => existsb _ _)), List.seq_nth by exact Hn.
  cbn [Nat.add].
  destruct (nth n buf false) eqn:Hb.
  - apply existsb_exists. exists (Np.unravel_index (d0, d1, d2) n). split.
    + apply List.in_map. apply NpFacts.In_flatnonzero. split; [lia | exact Hb].
    + rewrite NpFacts.ravel_unravel. apply Nat.eqb_refl.
  - apply not_true_is_false. intros Hex.
    apply existsb_exists in Hex as (p & Hin & Hp).
    apply List.in_map_iff in Hin as (n' & <- & Hin').
    rewrite NpFacts.ravel_unravel in Hp. apply Nat.eqb_eq in Hp. subst n'.
    apply NpFacts.In_flatnonzero in Hin' as [_ Ht]. congruence.
Qed.

(** X11. The coordinate export loses nothing but the shape: reading the
    text back (header, then rows of three decimal numbers) gives the index
    triples of the occupied cells, in order, and filling a grid of the same
    shape at these triples gives the grid back. *)
Theorem coordinate_export_round_trip (m : Np.ndarray3) :
  Np.wf3 m ->
  read_coordinates (export_coordinates m) = Some (Np.argwhere m) /\
  option_map (grid_of_cells (Np.shape3 m)) (read_coordinates (export_coordinates m))
  = Some m.
Proof.
  intros Hwf. unfold export_coordinates. rewrite CsvFacts.read_to_csv.
  split; [reflexivity|]. cbn. rewrite (grid_of_argwhere m Hwf). reflexivity.
Qed.

(** X12. The array export ([astype(np.uint8)]) has one element per cell,
    1 where the cell is occupied and 0 where it is not, at the cell's place
    in C order; reading non-zero as occupied gives the grid's buffer back,
    and the elements add up to the number of occupied cells. *)
Theorem array_export_round_trip (m : Np.ndarray3) :
  List.length (astype_uint8 m) = List.length (Np.buf3 m) /\
  (forall i j k,
     nth (Np.ravel (Np.shape3 m) (i, j, k)) (astype_uint8 m) 0%N
     = if Np.get3 m i j k then 1%N else 0%N) /\
  astype_bool (astype_uint8 m) = Np.buf3 m /\
  fold_right N.add 0%N (astype_uint8 m) = N.of_nat (Np.count_true (Np.buf3 m)).
Proof.
  unfold astype_uint8, astype_bool.
  split; [apply List.length_map|]. split; [|split].
  - intros i j k. unfold Np.get3, Np.ravel, Np.dim1, Np.dim2.
    destruct (Np.shape3 m) as [[d0 d1] d2]. cbn [fst snd].
    exact (List.map_nth (fun b : bool => if b then 1%N else 0%N) (Np.buf3 m) false _).
  - rewrite List.map_map. rewrite <- (List.map_id (Np.buf3 m)) at 2.
    apply List.map_ext. intros []; reflexivity.
  - induction (Np.buf3 m) as [|b l IH]; [reflexivity|].
    rewrite NpFacts.count_true_cons. cbn [map fold_right]. rewrite IH.
    destruct b; lia.
Qed.

(** X13. The stem of the download names: [name[:-4]] removes a four
    character extension such as ".stl" whatever the stem, and a name of at
    most four characters leaves the empty stem, so that the downloads are
    then called "_voxels.npy" and "_coordinates.csv". *)
Theorem download_name_drops_four_characters (stem ext : string) :
  (String.length ext = 4 -> drop_last4 (stem ++ ext) = stem) /\
  (String.length stem <= 4 -> drop_last4 stem = EmptyString).
Proof.
  unfold drop_last4. split.
  - intros He.
    assert (Hl : forall s, String.length (s ++ ext) = String.length s + 4).
    { induction s as [|a s IH]; [exact He|].
      rewrite CsvFacts.append_cons. cbn [String.length]. rewrite IH. reflexivity. }
    rewrite Hl. replace (String.length stem + 4 - 4) with (String.length stem) by lia.
    clear Hl. induction stem as [|a s IH].
    + destruct ext; reflexivity.
    + rewrite CsvFacts.append_cons. cbn [String.length substring]. rewrite IH. reflexivity.
  - intros Hs. replace (String.length stem - 4) with 0 by lia.
    destruct stem; reflexivity.
Qed.

(** ** The page *)

(** The colouring policy returns the same values from every world, and
    changes at most the generator. *)
Lemma color_policy_run (color_by : string) (cells : list (nat * nat * nat)) :
  exists c, forall w, exists g',
    color_policy color_by cells w
    = (Ok c, {| fs := fs w; heap := heap w; rng := g'; ui := ui w |}).
Proof.
  unfold color_policy.
  destruct (String.eqb color_by "Z-coordinate");
    [eexists; intros w; exists (rng w); destruct w; reflexivity|].
  destruct (String.eqb color_by "Y-coordinate");
    [eexists; intros w; exists (rng w); destruct w; reflexivity|].
  destruct (String.eqb color_by "X-coordinate");
    [eexists; intros w; exists (rng w); destruct w; reflexivity|].
  destruct (String.eqb color_by "Distance from Center");
    [eexists; intros w; exists (rng w); destruct w; reflexivity|].
  destruct (String.eqb color_by "Radial (XY)");
    [eexists; intros w; exists (rng w); destruct w; reflexivity|].
  exists (ColorFloat (fst (np_random_rand (np_random_seed 42) (List.length (col0 cells)))),
          "Random").
  intros w. exists (snd (np_random_rand (np_random_seed 42) (List.length (col0 cells)))).
  unfold bind, random_seed, random_rand, ret. cbn [fs heap rng ui].
  destruct (np_random_rand (np_random_seed 42) (List.length (col0 cells))); reflexivity.
Qed.

(** The 3D renderer on a grid, when plotly accepts the marker: the same
    result from every world that holds the grid, at whatever reference; a
    warning on the page exactly when there is no figure. *)
Lemma create_voxel_visualization_run (vg : VoxelGrid)
    (colormap color_by : string) (marker_size : Z) (opacity : float) :
  plotly_scatter3d colormap marker_size opacity = Ok tt ->
  exists o,
    (o = None <-> Np.count_true (Np.buf3 (matrix vg)) = 0) /\
    forall r w, heap w !! r = Some vg ->
      exists g',
        create_voxel_visualization r colormap color_by marker_size opacity w
        = (Ok o, {| fs := fs w; heap := heap w; rng := g';
                    ui := ui w ++ match o with
                                  | None => [StWarning "No voxels found in the mesh"]
                                  | Some _ => []
                                  end |}).
Proof.
  intros Hok. unfold create_voxel_visualization, bind.
  destruct (Np.count_true (Np.buf3 (matrix vg))) as [|n] eqn:E.
  - exists None. split; [tauto|]. intros r w Hr. exists (rng w).
    rewrite (deref_ok _ _ _ Hr), ArgwhereFacts.length_argwhere, E. reflexivity.
  - destruct (color_policy_run color_by (Np.argwhere (matrix vg))) as (c & Hc).
    eexists (Some _). split; [split; [discriminate | lia]|].
    intros r w Hr. destruct (Hc w) as (g' & Hcw). exists g'.
    rewrite (deref_ok _ _ _ Hr), ArgwhereFacts.length_argwhere, E.
    change (S n =? 0) with false. cbv beta iota. rewrite Hcw.
    cbv beta iota. rewrite go_scatter3d_run.
    cbn [fig_colorscale fig_marker_size fig_opacity]. rewrite Hok.
    unfold ret. cbn [fs heap rng ui]. rewrite List.app_nil_r. reflexivity.
Qed.

(** The 3D renderer on a grid with occupied cells, when plotly refuses the
    marker: its exception, nothing on the page. *)
Lemma create_voxel_visualization_refused (vg : VoxelGrid)
    (colormap color_by : string) (marker_size : Z) (opacity : float) (e : exn)
    (r : nat) (w : world) :
  plotly_scatter3d colormap marker_size opacity = Raise e ->
  0 < Np.count_true (Np.buf3 (matrix vg)) ->
  heap w !! r = Some vg ->
  exists g',
    create_voxel_visualization r colormap color_by marker_size opacity w
    = (Raise e, {| fs := fs w; heap := heap w; rng := g'; ui := ui w |}).
Proof.
  intros He Hpos Hr.
  destruct (create_voxel_visualization_cells w r vg colormap color_by marker_size opacity
              Hr Hpos) as (c & w' & _ & Hui & Hh & Hf & Hrun).
  exists (rng w'). rewrite Hrun, He. destruct w'; cbn in *. subst. reflexivity.
Qed.

Lemma display_mesh_info_run (mesh_obj : Trimesh) (b : vec3 * vec3) (vg : VoxelGrid) :
  bounds mesh_obj = Some b ->
  exists mi info, forall r w, heap w !! r = Some vg ->
    display_mesh_info mesh_obj r w
    = (Ok tt, {| fs := fs w; heap := heap w; rng := rng w;
                 ui := ui w ++ [StMeshInfo mi; StBoundingBox b; StVoxelInfo info] |}).
Proof.
  intros Hb. eexists _, _. intros r w Hr.
  unfold display_mesh_info, bind, get_bounds, deref, emit.
  cbn [fst snd fs rng heap ui]. rewrite Hb. cbn [ret fst snd fs rng heap ui].
  rewrite Hr. cbn [fst snd fs rng heap ui]. rewrite <- !List.app_assoc. reflexivity.
Qed.

(** The slice renderer on a grid, when plotly accepts the colour scale: the
    same figure from every world that holds the grid. *)
Lemma slice_run (vg : VoxelGrid) (slice_axis : string) (i : Z) (colormap : string) :
  plotly_imshow colormap = Ok tt ->
  (- Z.of_nat (sliced_length (matrix vg) slice_axis) <= i
   < Z.of_nat (sliced_length (matrix vg) slice_axis))%Z ->
  exists fig, forall r w, heap w !! r = Some vg ->
    create_slice_visualization r slice_axis (Some i) colormap w = (Ok fig, w).
Proof.
  unfold sliced_length. intros Hok Hi.
  destruct (String.eqb_spec slice_axis "x") as [->|Hx].
  { eexists. intros r w Hr.
    rewrite (slice_figure_x _ _ _ _ _ Hr), (normalize_index_value _ _ Hi).
    apply px_imshow_ok. exact Hok. }
  destruct (String.eqb_spec slice_axis "y") as [->|Hy].
  { eexists. intros r w Hr.
    rewrite (slice_figure_y _ _ _ _ _ Hr), (normalize_index_value _ _ Hi).
    apply px_imshow_ok. exact Hok. }
  eexists. intros r w Hr.
  rewrite (slice_figure_else _ _ _ _ _ _ Hr Hx Hy), (normalize_index_value _ _ Hi).
  apply px_imshow_ok. exact Hok.
Qed.

(** The slice renderer when plotly refuses the colour scale. *)
Lemma slice_refused (vg : VoxelGrid) (slice_axis : string) (i : Z) (colormap : string)
    (e : exn) (r : nat) (w : world) :
  plotly_imshow colormap = Raise e ->
  (- Z.of_nat (sliced_length (matrix vg) slice_axis) <= i
   < Z.of_nat (sliced_length (matrix vg) slice_axis))%Z ->
  heap w !! r = Some vg ->
  create_slice_visualization r slice_axis (Some i) colormap w = (Raise e, w).
Proof.
  intros He Hi Hr.
  destruct (slice_at_index w r vg slice_axis i colormap Hr Hi) as (fig & Hrun & _ & _ & Hc).
  rewrite Hrun, px_imshow_run, Hc, He. reflexivity.
Qed.

(** The axis the slice selectbox yields, its number and its length. *)
Lemma selected_axis (user : option nat) (m : Np.ndarray3) :
  let slice_axis := st_selectbox ["x"; "y"; "z"] 0 user in
  exists a, (forall w, axis_number slice_axis w = (Ok a, w))
            /\ shape_at (Np.shape3 m) a = sliced_length m slice_axis.
Proof.
  unfold sliced_length, Np.dim0, Np.dim1, Np.dim2.
  destruct (Np.shape3 m) as [[d0 d1] d2].
  destruct user as [[|[|[|n]]]|]; cbn;
    (exists 0; split; [reflexivity | reflexivity])
    || (exists 1; split; [reflexivity | reflexivity])
    || (exists 2; split; [reflexivity | reflexivity]).
Qed.

(** Sliders. *)
Lemma slider_value_in_range (lo hi default : Z) (user : option Z) :
  (lo <= default <= hi)%Z -> (lo <= slider_value lo hi default user <= hi)%Z.
Proof.
  intros Hd. unfold slider_value. destruct user as [v|]; [|exact Hd].
  destruct ((lo <=? v) && (v <=? hi))%Z eqn:E; [|exact Hd].
  apply andb_true_iff in E as [?%Z.leb_le ?%Z.leb_le]. lia.
Qed.

Lemma st_slider_proper (lo hi default : Z) (user : option Z) (w : world) :
  (lo < hi)%Z -> (lo <= default <= hi)%Z ->
  st_slider lo hi default user w = (Ok (slider_value lo hi default user), w).
Proof.
  intros Hlt Hd. unfold st_slider, bind.
  replace ((lo <? hi) && (lo <=? default) && (default <=? hi))%Z with true; [reflexivity|].
  symmetry. rewrite !andb_true_iff, Z.ltb_lt, !Z.leb_le. lia.
Qed.

Lemma st_slider_refused (lo hi default : Z) (user : option Z) (w : world) (e : exn) :
  (hi <= lo)%Z ->
  streamlit_slider lo hi default = Raise e ->
  st_slider lo hi default user w = (Raise e, w).
Proof.
  intros Hle He. unfold st_slider, bind.
  replace ((lo <? hi) && (lo <=? default) && (default <=? hi))%Z with false.
  - unfold lift. rewrite He. reflexivity.
  - symmetry. apply andb_false_iff. left. apply andb_false_iff. left.
    apply Z.ltb_ge. exact Hle.
Qed.

(** The slider of the slice index, on an axis of at least two planes, is
    accepted and stays on the axis. *)
Lemma slice_slider_in_range (n : nat) (user : option Z) :
  1 <= n ->
  let max_slice := (Z.of_nat n - 1)%Z in
  (0 <= max_slice / 2 <= max_slice)%Z /\
  (0 <= slider_value 0 max_slice (max_slice / 2) user < Z.of_nat n)%Z.
Proof.
  intros Hn max_slice.
  assert (Hdef : (0 <= max_slice / 2 <= max_slice)%Z).
  { assert (0 <= max_slice)%Z by (subst max_slice; lia).
    split; [apply Z.div_pos; lia | apply Z.div_le_upper_bound; lia]. }
  split; [exact Hdef|].
  pose proof (slider_value_in_range 0 max_slice (max_slice / 2)%Z user Hdef).
  subst max_slice. lia.
Qed.

Lemma slice_slider (n : nat) (user : option Z) (w : world) :
  2 <= n ->
  let max_slice := (Z.of_nat n - 1)%Z in
  st_slider 0 max_slice (max_slice / 2) user w
  = (Ok (slider_value 0 max_slice (max_slice / 2) user), w).
Proof.
  intros Hn max_slice.
  apply st_slider_proper; [subst max_slice; lia|].
  apply (slice_slider_in_range n user). lia.
Qed.

(** The first part of [show_grid], up to the 3D renderer. *)
Ltac show_grid_start Hinfo Hr :=
  unfold show_grid, bind; cbv zeta;
  rewrite (Hinfo _ _ Hr); unfold emit at 1 2; cbn [fs heap rng ui].

(** [show_grid] from start to end, when the charting calls and the slider
    of the slice index are accepted: what it returns, what it leaves alone,
    and the page it composes, from every world that holds the grid. *)
Lemma show_grid_run (i : inputs) (file_name : string) (mesh_obj : Trimesh)
    (b : vec3 * vec3) (vg : VoxelGrid) :
  bounds mesh_obj = Some b ->
  let selected_colormap := st_selectbox colormap_options 0 (in_colormap i) in
  let color_by := st_selectbox color_by_options 0 (in_color_by i) in
  let opacity := slider_value_float 0x1.999999999999ap-4 1 0x1.999999999999ap-1
                                    (in_opacity i) in
  let marker_size := slider_value 1 10 4 (in_marker_size i) in
  let slice_axis := st_selectbox ["x"; "y"; "z"] 0 (in_slice_axis i) in
  let max_slice := (Z.of_nat (sliced_length (matrix vg) slice_axis) - 1)%Z in
  let slice_index := slider_value 0 max_slice (max_slice / 2)%Z (in_slice_index i) in
  let slice_colormap :=
    st_selectbox colormap_options (list_index selected_colormap colormap_options)
                 (in_slice_colormap i) in
  plotly_scatter3d selected_colormap marker_size opacity = Ok tt ->
  2 <= sliced_length (matrix vg) slice_axis ->
  plotly_imshow slice_colormap = Ok tt ->
  exists mi info o fig_slice,
    (o = None <-> Np.count_true (Np.buf3 (matrix vg)) = 0) /\
    forall r w, heap w !! r = Some vg ->
      events_of (display_mesh_info mesh_obj r) w
        = [StMeshInfo mi; StBoundingBox b; StVoxelInfo info] /\
      fst (create_voxel_visualization r selected_colormap color_by marker_size opacity w)
        = Ok o /\
      create_slice_visualization r slice_axis (Some slice_index) slice_colormap w
        = (Ok fig_slice, w) /\
      exists g',
        show_grid i file_name mesh_obj r w
        = (Ok tt,
           {| fs := fs w; heap := heap w; rng := g';
              ui := ui w ++
                    grid_page i file_name vg
                      [StMeshInfo mi; StBoundingBox b; StVoxelInfo info]
                      match o with
                      | Some fig => [StPlotly3d fig]
                      | None => [StWarning "No voxels found in the mesh"]
                      end
                      fig_slice |}).
Proof.
  intros Hb selected_colormap color_by opacity marker_size slice_axis max_slice
         slice_index slice_colormap Hplot3 Hn Hplot2.
  destruct (display_mesh_info_run mesh_obj b vg Hb) as (mi & info & Hinfo).
  destruct (create_voxel_visualization_run vg selected_colormap color_by marker_size opacity
              Hplot3) as (o & Ho & Hfig).
  destruct (selected_axis (in_slice_axis i) (matrix vg)) as (a & Ha & Hlen).
  fold slice_axis in Ha, Hlen.
  assert (Hsl : forall w, st_slider 0 max_slice (max_slice / 2) (in_slice_index i) w
                          = (Ok slice_index, w)).
  { intros w. apply (slice_slider _ (in_slice_index i) w Hn). }
  assert (Hn1 : 1 <= sliced_length (matrix vg) slice_axis) by lia.
  pose proof (proj2 (slice_slider_in_range _ (in_slice_index i) Hn1)) as Hidx.
  cbv zeta in Hidx. fold max_slice slice_index in Hidx.
  destruct (slice_run vg slice_axis slice_index slice_colormap Hplot2)
    as (fig_slice & Hslice); [lia|].
  exists mi, info, o, fig_slice. split; [exact Ho|].
  intros r w Hr. split; [|split; [|split]].
  - unfold events_of. rewrite (Hinfo r w Hr). apply drop_ui_app.
  - destruct (Hfig r w Hr) as (g' & ->). reflexivity.
  - apply Hslice, Hr.
  - show_grid_start Hinfo Hr.
    fold selected_colormap color_by opacity marker_size slice_axis.
    match goal with
    | |- context [create_voxel_visualization r selected_colormap color_by marker_size opacity ?w1] =>
        destruct (Hfig r w1 Hr) as (g' & ->)
    end.
    cbn [fs heap rng ui]. exists g'. unfold grid_page.
    destruct o as [fig|];
      unfold emit, ret; cbn [fs heap rng ui];
      unfold deref; cbn [fs heap rng ui]; rewrite Hr; rewrite Ha, Hlen;
      fold max_slice; rewrite Hsl; fold slice_colormap;
      (rewrite Hslice by (cbn [heap]; exact Hr)); cbn [fs heap rng ui];
      destruct (in_npy_button i), (in_csv_button i);
        repeat (progress (cbn [fs heap rng ui]; rewrite ?Hr));
        rewrite <- ?List.app_assoc; cbn [List.app];
        rewrite ?List.app_nil_r; reflexivity.
Qed.

Lemma page_header_run (w : world) :
  page_header w
  = (Ok tt, {| fs := fs w; heap := heap w; rng := rng w;
               ui := ui w ++ header_page (fs w) |}).
Proof.
  unfold page_header, header_page, bind, try_except, st_image, st_warning, emit.
  cbn [fs heap rng ui].
  destruct (fs w !! "image.png"); cbn [fs heap rng ui];
    rewrite <- !List.app_assoc; reflexivity.
Qed.

(** [show_grid] when plotly refuses the marker of a grid with occupied
    cells: the exception leaves after the information panel and the
    heading of the 3D section. *)
Lemma show_grid_refused_3d (i : inputs) (file_name : string) (mesh_obj : Trimesh)
    (b : vec3 * vec3) (vg : VoxelGrid) (e : exn) :
  bounds mesh_obj = Some b ->
  plotly_scatter3d (st_selectbox colormap_options 0 (in_colormap i))
                   (slider_value 1 10 4 (in_marker_size i))
                   (slider_value_float 0x1.999999999999ap-4 1 0x1.999999999999ap-1
                                       (in_opacity i)) = Raise e ->
  0 < Np.count_true (Np.buf3 (matrix vg)) ->
  exists mi info, forall r w, heap w !! r = Some vg ->
    exists g',
      show_grid i file_name mesh_obj r w
      = (Raise e,
         {| fs := fs w; heap := heap w; rng := g';
            ui := ui w ++ [StMeshInfo mi; StBoundingBox b; StVoxelInfo info;
                           StText "---"; StText "3D Voxel Visualization"] |}).
Proof.
  intros Hb He Hpos.
  destruct (display_mesh_info_run mesh_obj b vg Hb) as (mi & info & Hinfo).
  exists mi, info. intros r w Hr.
  show_grid_start Hinfo Hr.
  match goal with
  | |- context [create_voxel_visualization r ?cm ?cb ?ms ?op ?w1] =>
      destruct (create_voxel_visualization_refused vg cm cb ms op e r w1 He Hpos Hr)
        as (g' & ->)
  end.
  cbn [fs heap rng ui]. exists g'. rewrite <- !List.app_assoc. reflexivity.
Qed.

(** [show_grid] when the 3D section succeeds and the slice section fails,
    at the slider of the slice index or at the charting call: the
    exception leaves after the heading of the slice section. *)
Lemma show_grid_refused_slice (i : inputs) (file_name : string) (mesh_obj : Trimesh)
    (b : vec3 * vec3) (vg : VoxelGrid) (e : exn) :
  bounds mesh_obj = Some b ->
  let selected_colormap := st_selectbox colormap_options 0 (in_colormap i) in
  let color_by := st_selectbox color_by_options 0 (in_color_by i) in
  let opacity := slider_value_float 0x1.999999999999ap-4 1 0x1.999999999999ap-1
                                    (in_opacity i) in
  let marker_size := slider_value 1 10 4 (in_marker_size i) in
  let slice_axis := st_selectbox ["x"; "y"; "z"] 0 (in_slice_axis i) in
  let n := sliced_length (matrix vg) slice_axis in
  let max_slice := (Z.of_nat n - 1)%Z in
  let slice_colormap :=
    st_selectbox colormap_options (list_index selected_colormap colormap_options)
                 (in_slice_colormap i) in
  plotly_scatter3d selected_colormap marker_size opacity = Ok tt ->
  (n <= 1 /\ streamlit_slider 0 max_slice (max_slice / 2) = Raise e) \/
  (2 <= n /\ plotly_imshow slice_colormap = Raise e) ->
  exists mi info o,
    (o = None <-> Np.count_true (Np.buf3 (matrix vg)) = 0) /\
    forall r w, heap w !! r = Some vg ->
      fst (create_voxel_visualization r selected_colormap color_by marker_size opacity w)
        = Ok o /\
      exists g',
        show_grid i file_name mesh_obj r w
        = (Raise e,
           {| fs := fs w; heap := heap w; rng := g';
              ui := ui w ++
                    [StMeshInfo mi; StBoundingBox b; StVoxelInfo info;
                     StText "---"; StText "3D Voxel Visualization"]
                    ++ match o with
                       | Some fig => [StPlotly3d fig]
                       | None => [StWarning "No voxels found in the mesh"]
                       end
                    ++ [StText "---"; StText "2D Slice Visualization"] |}).
Proof.
  intros Hb selected_colormap color_by opacity marker_size slice_axis n max_slice
         slice_colormap Hplot3 Hcase.
  destruct (display_mesh_info_run mesh_obj b vg Hb) as (mi & info & Hinfo).
  destruct (create_voxel_visualization_run vg selected_colormap color_by marker_size opacity
              Hplot3) as (o & Ho & Hfig).
  destruct (selected_axis (in_slice_axis i) (matrix vg)) as (a & Ha & Hlen).
  fold slice_axis in Ha, Hlen. fold n in Hlen.
  exists mi, info, o. split; [exact Ho|].
  intros r w Hr. split.
  { destruct (Hfig r w Hr) as (g' & ->). reflexivity. }
  show_grid_start Hinfo Hr.
  fold selected_colormap color_by opacity marker_size slice_axis.
  match goal with
  | |- context [create_voxel_visualization r selected_colormap color_by marker_size opacity ?w1] =>
      destruct (Hfig r w1 Hr) as (g' & ->)
  end.
  cbn [fs heap rng ui]. exists g'.
  destruct Hcase as [[Hn He] | [Hn He]].
  - destruct o as [fig|];
      unfold emit, ret; cbn [fs heap rng ui];
      unfold deref; cbn [fs heap rng ui]; rewrite Hr; rewrite Ha, Hlen;
      fold max_slice;
      (rewrite (st_slider_refused 0 max_slice (max_slice / 2) _ _ e)
        by (first [subst max_slice; lia | exact He]));
      rewrite <- ?List.app_assoc; reflexivity.
  - assert (Hn1 : 1 <= n) by lia.
    pose proof (proj2 (slice_slider_in_range n (in_slice_index i) Hn1)) as Hidx.
    cbv zeta in Hidx. fold max_slice in Hidx.
    destruct o as [fig|];
      unfold emit, ret; cbn [fs heap rng ui];
      unfold deref; cbn [fs heap rng ui]; rewrite Hr; rewrite Ha, Hlen;
      fold max_slice;
      rewrite (slice_slider n (in_slice_index i) _ Hn); fold max_slice;
      fold slice_colormap;
      (rewrite (slice_refused vg slice_axis _ slice_colormap e r _ He)
        by (first [fold n; lia | cbn [heap]; exact Hr]));
      rewrite <- ?List.app_assoc; reflexivity.
Qed.

(** [main] up to [show_grid], on an upload that loads and voxelizes. *)
Lemma main_to_show_grid (i : inputs) (file : UploadedFile) (mesh_obj : Trimesh)
    (b : vec3 * vec3) (g : VoxelGrid) (w : world) :
  uploaded_file i = Some file ->
  trimesh_load_mesh (snd file) = Ok mesh_obj ->
  bounds mesh_obj = Some b ->
  let pitch := PrimFloat.div (max_extent b)
                 (float_of_Z (slider_value 10 200 50 (in_resolution i))) in
  trimesh_voxelized mesh_obj pitch = Ok g ->
  let r := fresh (dom (heap w)) in
  let w1 := {| fs := delete (tempfile_name (fs w) ".stl")
                            (<[tempfile_name (fs w) ".stl" := snd file]> (fs w));
               heap := <[r := set__pitch pitch g]> (heap w);
               rng := rng w;
               ui := ui w ++ header_page (fs w) |} in
  main i w = show_grid i (fst file) mesh_obj r w1 /\
  heap w1 !! r = Some (set__pitch pitch g).
Proof.
  intros Hf Hl Hb pitch Hv r w1. split.
  - unfold main, bind. rewrite page_header_run, Hf.
    rewrite (load_stl_file_ok _ _ _ Hl).
    pose proof (voxelize_mesh_ok mesh_obj (slider_value 10 200 50 (in_resolution i))) as Hvox.
    cbv zeta in Hvox. rewrite (Hvox _ b g Hb Hv). reflexivity.
  - apply lookup_insert_eq.
Qed.

(** [main] on an upload that loads and voxelizes, the charting calls and
    the slider accepted, from every world. *)
Lemma main_run (i : inputs) (file : UploadedFile) (mesh_obj : Trimesh)
    (b : vec3 * vec3) (g : VoxelGrid) :
  uploaded_file i = Some file ->
  trimesh_load_mesh (snd file) = Ok mesh_obj ->
  bounds mesh_obj = Some b ->
  let pitch := PrimFloat.div (max_extent b)
                 (float_of_Z (slider_value 10 200 50 (in_resolution i))) in
  trimesh_voxelized mesh_obj pitch = Ok g ->
  let selected_colormap := st_selectbox colormap_options 0 (in_colormap i) in
  let color_by := st_selectbox color_by_options 0 (in_color_by i) in
  let opacity := slider_value_float 0x1.999999999999ap-4 1 0x1.999999999999ap-1
                                    (in_opacity i) in
  let marker_size := slider_value 1 10 4 (in_marker_size i) in
  let slice_axis := st_selectbox ["x"; "y"; "z"] 0 (in_slice_axis i) in
  let max_slice := (Z.of_nat (sliced_length (matrix g) slice_axis) - 1)%Z in
  let slice_index := slider_value 0 max_slice (max_slice / 2)%Z (in_slice_index i) in
  let slice_colormap :=
    st_selectbox colormap_options (list_index selected_colormap colormap_options)
                 (in_slice_colormap i) in
  plotly_scatter3d selected_colormap marker_size opacity = Ok tt ->
  2 <= sliced_length (matrix g) slice_axis ->
  plotly_imshow slice_colormap = Ok tt ->
  exists mi info o fig_slice,
    (o = None <-> Np.count_true (Np.buf3 (matrix g)) = 0) /\
    (forall r w, heap w !! r = Some (set__pitch pitch g) ->
       events_of (display_mesh_info mesh_obj r) w
         = [StMeshInfo mi; StBoundingBox b; StVoxelInfo info] /\
       fst (create_voxel_visualization r selected_colormap color_by marker_size opacity w)
         = Ok o /\
       create_slice_visualization r slice_axis (Some slice_index) slice_colormap w
         = (Ok fig_slice, w)) /\
    forall w, exists g',
      main i w
      = (Ok tt,
         {| fs := delete (tempfile_name (fs w) ".stl")
                         (<[tempfile_name (fs w) ".stl" := snd file]> (fs w));
            heap := <[fresh (dom (heap w)) := set__pitch pitch g]> (heap w);
            rng := g';
            ui := ui w ++ header_page (fs w) ++
                  grid_page i (fst file) g
                    [StMeshInfo mi; StBoundingBox b; StVoxelInfo info]
                    match o with
                    | Some fig => [StPlotly3d fig]
                    | None => [StWarning "No voxels found in the mesh"]
                    end
                    fig_slice |}).
Proof.
  intros Hf Hl Hb pitch Hv selected_colormap color_by opacity marker_size slice_axis
         max_slice slice_index slice_colormap Hplot3 Hn Hplot2.
  destruct (show_grid_run i (fst file) mesh_obj b (set__pitch pitch g) Hb Hplot3 Hn Hplot2)
    as (mi & info & o & fig_slice & Ho & Hrun).
  exists mi, info, o, fig_slice. split; [exact Ho|]. split.
  - intros r w Hr. destruct (Hrun r w Hr) as (H1 & H3 & H2 & _). auto.
  - intros w.
    destruct (main_to_show_grid i file mesh_obj b g w Hf Hl Hb Hv) as [-> Hr].
    destruct (Hrun _ _ Hr) as (_ & _ & _ & g' & ->).
    exists g'. cbn [fs heap rng ui]. rewrite <- List.app_assoc. reflexivity.
Qed.

(** X14. The page of an upload that loads and voxelizes, when plotly
    accepts the marker of the 3D figure and the colour scale of the slice
    and the chosen slice axis has at least two planes (so that the slider of
    the slice index has a proper range): [main] runs to its end and shows,
    after the header, the information panel, the 3D figure (or the warning,
    for a grid without occupied cells), the slice, and a download for each
    button pressed, in this order and nothing else.  The figures are those
    the two renderers return for the new grid and the values of the widgets,
    the array download holds [astype(np.uint8)] of the grid and the
    coordinate download its coordinate table; the grid is the one new
    object, and the temporary file is gone. *)
Theorem page_of_a_successful_upload (i : inputs) (file : UploadedFile)
    (mesh_obj : Trimesh) (b : vec3 * vec3) (g : VoxelGrid) (w : world) :
  uploaded_file i = Some file ->
  trimesh_load_mesh (snd file) = Ok mesh_obj ->
  bounds mesh_obj = Some b ->
  let pitch := PrimFloat.div (max_extent b)
                 (float_of_Z (slider_value 10 200 50 (in_resolution i))) in
  trimesh_voxelized mesh_obj pitch = Ok g ->
  let selected_colormap := st_selectbox colormap_options 0 (in_colormap i) in
  let color_by := st_selectbox color_by_options 0 (in_color_by i) in
  let opacity := slider_value_float 0x1.999999999999ap-4 1 0x1.999999999999ap-1
                                    (in_opacity i) in
  let marker_size := slider_value 1 10 4 (in_marker_size i) in
  let slice_axis := st_selectbox ["x"; "y"; "z"] 0 (in_slice_axis i) in
  let max_slice := (Z.of_nat (sliced_length (matrix g) slice_axis) - 1)%Z in
  let slice_index := slider_value 0 max_slice (max_slice / 2)%Z (in_slice_index i) in
  let slice_colormap :=
    st_selectbox colormap_options (list_index selected_colormap colormap_options)
                 (in_slice_colormap i) in
  plotly_scatter3d selected_colormap marker_size opacity = Ok tt ->
  2 <= sliced_length (matrix g) slice_axis ->
  plotly_imshow slice_colormap = Ok tt ->
  exists w' panel fig_3d fig_slice,
    main i w = (Ok tt, w') /\
    events_of (main i) w
      = header_page (fs w) ++ grid_page i (fst file) g panel fig_3d fig_slice /\
    let r := fresh (dom (heap w)) in
    heap w' = <[r := set__pitch pitch g]> (heap w) /\
    fs w' !! tempfile_name (fs w) ".stl" = None /\
    events_of (display_mesh_info mesh_obj r) w' = panel /\
    match fst (create_voxel_visualization r selected_colormap color_by marker_size opacity w')
    with
    | Ok (Some fig) => fig_3d = [StPlotly3d fig]
    | Ok None => fig_3d = [StWarning "No voxels found in the mesh"]
    | Raise _ => False
    end /\
    fst (create_slice_visualization r slice_axis (Some slice_index) slice_colormap w')
      = Ok fig_slice.
Proof.
  intros Hf Hl Hb pitch Hv selected_colormap color_by opacity marker_size slice_axis
         max_slice slice_index slice_colormap Hplot3 Hn Hplot2.
  destruct (main_run i file mesh_obj b g Hf Hl Hb Hv Hplot3 Hn Hplot2)
    as (mi & info & o & fig_slice & _ & Hfigs & Hrun).
  subst slice_colormap slice_index max_slice slice_axis marker_size opacity color_by
        selected_colormap pitch.
  destruct (Hrun w) as (g' & Hmain).
  eexists _, _, _, fig_slice. split; [exact Hmain|].
  split.
  { unfold events_of. rewrite Hmain. cbn [snd ui]. apply drop_ui_app. }
  cbv zeta. cbn [heap fs].
  split; [reflexivity|]. split; [apply lookup_delete_eq|].
  match goal with
  | |- context [display_mesh_info mesh_obj ?r] =>
      match goal with
      | |- context [events_of (display_mesh_info mesh_obj r) ?w1] =>
          destruct (Hfigs r w1) as (H1 & H3 & H2); [cbn [heap]; apply lookup_insert_eq|]
      end
  end.
  split; [exact H1|]. split.
  - rewrite H3. destruct o; reflexivity.
  - rewrite H2. reflexivity.
Qed.

(** X15. Running the script again (as happens after every interaction)
    on an upload that loads and voxelizes, the charting calls and the slider
    accepted as for the page above, gives the same page: the second run,
    started in the world the first one left, puts the same events on the
    page and leaves the same files, provided the temporary path of the
    first run was not in use. *)
Theorem rerun_gives_the_same_page (i : inputs) (file : UploadedFile)
    (mesh_obj : Trimesh) (b : vec3 * vec3) (g : VoxelGrid) (w : world) :
  uploaded_file i = Some file ->
  trimesh_load_mesh (snd file) = Ok mesh_obj ->
  bounds mesh_obj = Some b ->
  trimesh_voxelized mesh_obj
    (PrimFloat.div (max_extent b) (float_of_Z (slider_value 10 200 50 (in_resolution i))))
  = Ok g ->
  let selected_colormap := st_selectbox colormap_options 0 (in_colormap i) in
  plotly_scatter3d selected_colormap (slider_value 1 10 4 (in_marker_size i))
    (slider_value_float 0x1.999999999999ap-4 1 0x1.999999999999ap-1 (in_opacity i))
  = Ok tt ->
  2 <= sliced_length (matrix g) (st_selectbox ["x"; "y"; "z"] 0 (in_slice_axis i)) ->
  plotly_imshow
    (st_selectbox colormap_options (list_index selected_colormap colormap_options)
                  (in_slice_colormap i)) = Ok tt ->
  fs w !! tempfile_name (fs w) ".stl" = None ->
  let w' := snd (main i w) in
  events_of (main i) w' = events_of (main i) w /\
  fs (snd (main i w')) = fs w /\
  fst (main i w') = Ok tt.
Proof.
  intros Hf Hl Hb Hv selected_colormap Hplot3 Hn Hplot2 Hfresh w'. subst w'.
  destruct (main_run i file mesh_obj b g Hf Hl Hb Hv Hplot3 Hn Hplot2)
    as (mi & info & o & fig_slice & _ & _ & Hrun).
  destruct (Hrun w) as (g1 & H1).
  unfold events_of at 2. rewrite H1. cbn [snd ui].
  match goal with
  | |- context [main i ?w1] => destruct (Hrun w1) as (g2 & H2)
  end.
  unfold events_of. rewrite H2. cbn [fst snd ui fs].
  rewrite !drop_ui_app, !(delete_insert_id _ _ _ Hfresh). auto.
Qed.

(** X16. Without an upload the page is the header, the invitation and the
    help, and nothing but the page changes.  In the header the branding
    image is shown when the file "image.png" is there; when it is missing
    the failure is caught, a warning takes its place and the page goes
    on. *)
Theorem page_without_an_upload (i : inputs) (w : world) :
  uploaded_file i = None ->
  main i w
  = (Ok tt,
     {| fs := fs w; heap := heap w; rng := rng w;
        ui := ui w ++
              [ StText "Voxelize";
                match fs w !! "image.png" with
                | Some _ => StImage "image.png"
                | None => StWarning "Image 'image.png' not found in the current directory"
                end;
                StText "Upload an STL file to visualize it as voxels";
                StInfo "Upload an STL file to get started!";
                StText "How to use this app" ] |}).
Proof.
  intros Hf. unfold main, bind. rewrite page_header_run, Hf.
  unfold emit, header_page. cbn [fs heap rng ui].
  rewrite <- !List.app_assoc. reflexivity.
Qed.

Lemma list_index_nth (value : string) (options : list string) :
  In value options ->
  list_index value options < List.length options /\
  nth (list_index value options) options EmptyString = value.
Proof.
  induction options as [|o rest IH]; [intros []|].
  intros Hin. cbn [list_index].
  destruct (String.eqb_spec o value) as [->|Hne].
  - cbn. split; [lia | reflexivity].
  - destruct Hin as [->|Hin]; [contradiction|].
    destruct (IH Hin) as [Hlt Hnth]. cbn. split; [lia | exact Hnth].
Qed.

(** X17. The colour scheme of the slice: the scheme selected for the 3D
    figure is always one of the listed schemes, so looking up its position
    ([colormap_options.index]) succeeds, and as long as the slice's own
    select box is left alone the slice is drawn in the scheme of the 3D
    figure. *)
Theorem slice_scheme_follows_the_figure (i : inputs) :
  let selected_colormap := st_selectbox colormap_options 0 (in_colormap i) in
  In selected_colormap colormap_options /\
  list_index selected_colormap colormap_options < List.length colormap_options /\
  (in_slice_colormap i = None ->
   st_selectbox colormap_options (list_index selected_colormap colormap_options)
                (in_slice_colormap i)
   = selected_colormap).
Proof.
  intros selected_colormap.
  assert (Hin : In selected_colormap colormap_options).
  { subst selected_colormap. unfold st_selectbox.
    destruct (in_colormap i) as [k|]; [|left; reflexivity].
    destruct (Nat.ltb_spec k (List.length colormap_options)) as [Hk|Hk];
      [|left; reflexivity].
    apply List.nth_In. exact Hk. }
  destruct (list_index_nth _ _ Hin) as [Hlt Hnth].
  split; [exact Hin|]. split; [exact Hlt|].
  intros ->. exact Hnth.
Qed.

(** X18. When [main] returns.  Without an upload, with an upload that
    fails to load, and with a mesh that has no bounds or fails to voxelize,
    it returns whatever the widgets are set to.  With a grid it returns
    when plotly accepts the marker of the 3D figure and the colour scale of
    the slice and the chosen slice axis has at least two planes. *)
Theorem main_returns_when_charts_and_slider_are_accepted (i : inputs) (w : world) :
  (forall file mesh_obj b g,
     uploaded_file i = Some file ->
     trimesh_load_mesh (snd file) = Ok mesh_obj ->
     bounds mesh_obj = Some b ->
     trimesh_voxelized mesh_obj
       (PrimFloat.div (max_extent b) (float_of_Z (slider_value 10 200 50 (in_resolution i))))
     = Ok g ->
     let selected_colormap := st_selectbox colormap_options 0 (in_colormap i) in
     plotly_scatter3d selected_colormap (slider_value 1 10 4 (in_marker_size i))
       (slider_value_float 0x1.999999999999ap-4 1 0x1.999999999999ap-1 (in_opacity i))
     = Ok tt /\
     2 <= sliced_length (matrix g) (st_selectbox ["x"; "y"; "z"] 0 (in_slice_axis i)) /\
     plotly_imshow
       (st_selectbox colormap_options (list_index selected_colormap colormap_options)
                     (in_slice_colormap i)) = Ok tt) ->
  exists w', main i w = (Ok tt, w').
Proof.
  intros Hacc.
  destruct (uploaded_file i) as [file|] eqn:Hf.
  - destruct (trimesh_load_mesh (snd file)) as [mesh_obj|e] eqn:Hl.
    + destruct (bounds mesh_obj) as [b|] eqn:Hb.
      * destruct (trimesh_voxelized mesh_obj
                    (PrimFloat.div (max_extent b)
                       (float_of_Z (slider_value 10 200 50 (in_resolution i)))))
          as [g|e] eqn:Hv.
        -- destruct (Hacc file mesh_obj b g eq_refl Hl Hb Hv) as (Hplot3 & Hn & Hplot2).
           destruct (main_run i file mesh_obj b g Hf Hl Hb Hv Hplot3 Hn Hplot2)
             as (mi & info & o & fig_slice & _ & _ & Hrun).
           destruct (Hrun w) as (g' & Hm). rewrite Hm. eauto.
        -- unfold main, bind. rewrite page_header_run, Hf, (load_stl_file_ok _ _ _ Hl).
           rewrite (voxelize_mesh_raise _ _ _ _ _ Hb Hv). eauto.
      * unfold main, bind. rewrite page_header_run, Hf, (load_stl_file_ok _ _ _ Hl).
        rewrite (voxelize_mesh_no_bounds _ _ _ Hb). eauto.
    + unfold main, bind. rewrite page_header_run, Hf, (load_stl_file_raise _ _ _ Hl). eauto.
  - unfold main, bind. rewrite page_header_run, Hf. unfold emit. eauto.
Qed.

(** X19. A colour scheme plotly refuses ends the page.  When the upload
    loads and voxelizes to a grid with occupied cells and plotly raises on
    the marker built from the selected colour scheme, marker size and
    opacity, [main] ends in that exception: it is not caught, and the page
    stops after the information panel and the heading of the 3D section
    (no figure, no slice, no downloads). *)
Theorem refused_color_scheme_ends_the_page (i : inputs) (file : UploadedFile)
    (mesh_obj : Trimesh) (b : vec3 * vec3) (g : VoxelGrid) (w : world) (e : exn) :
  uploaded_file i = Some file ->
  trimesh_load_mesh (snd file) = Ok mesh_obj ->
  bounds mesh_obj = Some b ->
  trimesh_voxelized mesh_obj
    (PrimFloat.div (max_extent b) (float_of_Z (slider_value 10 200 50 (in_resolution i))))
  = Ok g ->
  0 < Np.count_true (Np.buf3 (matrix g)) ->
  plotly_scatter3d (st_selectbox colormap_options 0 (in_colormap i))
                   (slider_value 1 10 4 (in_marker_size i))
                   (slider_value_float 0x1.999999999999ap-4 1 0x1.999999999999ap-1
                                       (in_opacity i)) = Raise e ->
  exists mi info,
    fst (main i w) = Raise e /\
    events_of (main i) w
    = header_page (fs w)
      ++ [StMeshInfo mi; StBoundingBox b; StVoxelInfo info;
          StText "---"; StText "3D Voxel Visualization"].
Proof.
  intros Hf Hl Hb Hv Hpos He.
  destruct (main_to_show_grid i file mesh_obj b g w Hf Hl Hb Hv) as [Hmain Hr].
  destruct (show_grid_refused_3d i (fst file) mesh_obj b
              (set__pitch (PrimFloat.div (max_extent b)
                             (float_of_Z (slider_value 10 200 50 (in_resolution i)))) g)
              e Hb He Hpos) as (mi & info & Hrun).
  destruct (Hrun _ _ Hr) as (g' & Hshow).
  exists mi, info. unfold events_of. rewrite Hmain, Hshow. cbn [fst snd ui].
  split; [reflexivity|]. rewrite <- List.app_assoc. apply drop_ui_app.
Qed.

(** X20. A slice axis with a single plane (or none) ends the page when
    Streamlit refuses a slider whose bounds coincide.  The slider of the
    slice index is asked for the range from 0 to [n - 1]; when the upload
    loads and voxelizes, the 3D section succeeds, the chosen axis has
    [n <= 1] planes and Streamlit raises on that range, [main] ends in that
    exception: the page stops after the heading of the slice section (no
    slice, no downloads). *)
Theorem single_plane_axis_ends_the_page (i : inputs) (file : UploadedFile)
    (mesh_obj : Trimesh) (b : vec3 * vec3) (g : VoxelGrid) (w : world) (e : exn) :
  uploaded_file i = Some file ->
  trimesh_load_mesh (snd file) = Ok mesh_obj ->
  bounds mesh_obj = Some b ->
  trimesh_voxelized mesh_obj
    (PrimFloat.div (max_extent b) (float_of_Z (slider_value 10 200 50 (in_resolution i))))
  = Ok g ->
  plotly_scatter3d (st_selectbox colormap_options 0 (in_colormap i))
                   (slider_value 1 10 4 (in_marker_size i))
                   (slider_value_float 0x1.999999999999ap-4 1 0x1.999999999999ap-1
                                       (in_opacity i)) = Ok tt ->
  let n := sliced_length (matrix g) (st_selectbox ["x"; "y"; "z"] 0 (in_slice_axis i)) in
  n <= 1 ->
  streamlit_slider 0 (Z.of_nat n - 1) ((Z.of_nat n - 1) / 2) = Raise e ->
  exists mi info fig_3d,
    fst (main i w) = Raise e /\
    events_of (main i) w
    = header_page (fs w)
      ++ [StMeshInfo mi; StBoundingBox b; StVoxelInfo info;
          StText "---"; StText "3D Voxel Visualization"]
      ++ fig_3d
      ++ [StText "---"; StText "2D Slice Visualization"] /\
    List.length fig_3d = 1.
Proof.
  intros Hf Hl Hb Hv Hplot3 n Hn He.
  destruct (main_to_show_grid i file mesh_obj b g w Hf Hl Hb Hv) as [Hmain Hr].
  destruct (show_grid_refused_slice i (fst file) mesh_obj b
              (set__pitch (PrimFloat.div (max_extent b)
                             (float_of_Z (slider_value 10 200 50 (in_resolution i)))) g)
              e Hb Hplot3 (or_introl (conj Hn He))) as (mi & info & o & _ & Hrun).
  destruct (Hrun _ _ Hr) as (_ & g' & Hshow).
  exists mi, info. eexists. unfold events_of. rewrite Hmain, Hshow. cbn [fst snd ui].
  split; [reflexivity|]. split.
  - rewrite <- List.app_assoc. apply drop_ui_app.
  - destruct o; reflexivity.
Qed.

End More.

(** * The theorems at concrete inputs *)

Lemma demo_matrix_wf : Np.wf3 demo_matrix.
Proof. split; [reflexivity | vm_compute; reflexivity]. Qed.

Lemma pitch_is_max_extent_over_resolution_witness :
  exists r,
    fst (@voxelize_mesh demo_library unit_cube 50 demo_world) = Ok (Some r) /\
    (_pitch <$> heap (snd (@voxelize_mesh demo_library unit_cube 50 demo_world)) !! r)
      = Some (Some (PrimFloat.div
                      (vec3_max (vec3_sub (1%float, 1%float, 1%float)
                                          (0%float, 0%float, 0%float)))
                      (float_of_Z 50))) /\
    (matrix <$> heap (snd (@voxelize_mesh demo_library unit_cube 50 demo_world)) !! r)
      = Some demo_matrix.
Proof.
  apply (@pitch_is_max_extent_over_resolution demo_library unit_cube 50 demo_world
           ((0%float, 0%float, 0%float), (1%float, 1%float, 1%float)) demo_grid);
    [lia | reflexivity | reflexivity].
Defined.

(** C1, counterexample.  For the unit cube at resolution 49 the stored
    pitch is 1/49 rounded, and the extent divided by it is not 49. *)
Lemma pitch_quotient_is_not_the_resolution :
  fst (@voxelize_mesh demo_library unit_cube 49 demo_world) = Ok (Some 2) /\
  (_pitch <$> heap (snd (@voxelize_mesh demo_library unit_cube 49 demo_world)) !! 2)
    = Some (Some (PrimFloat.div 1%float 49%float)) /\
  PrimFloat.eqb
    (PrimFloat.div (max_extent ((0%float, 0%float, 0%float), (1%float, 1%float, 1%float)))
                   (PrimFloat.div 1%float 49%float))
    (float_of_Z 49) = false.
Proof. vm_compute. repeat split; reflexivity. Qed.

(** The scenario of the specification: extent (10, 10, 10) at resolution 50
    gives the pitch 0.2, and there the quotient is 50. *)
Example pitch_scenario :
  let b := ((0%float, 0%float, 0%float), (10%float, 10%float, 10%float)) in
  let pitch := PrimFloat.div (max_extent b) (float_of_Z 50) in
  pitch = 0x1.999999999999ap-3%float /\
  PrimFloat.div (max_extent b) pitch = float_of_Z 50.
Proof. vm_compute. split; reflexivity. Qed.

(** C2, at the failing input.  Loading an upload the mesh library rejects
    returns [None] and leaves the temporary file, with the uploaded bytes,
    in the file system; loading one it accepts removes the file. *)
Theorem failed_load_leaves_temporary_file :
  fs demo_world !! "/tmp/tmpvoxelize.stl" = None /\
  fst (@load_stl_file demo_library empty_file demo_world) = Ok None /\
  fs (snd (@load_stl_file demo_library empty_file demo_world)) !! "/tmp/tmpvoxelize.stl"
    = Some (snd empty_file) /\
  fst (@load_stl_file demo_library demo_file demo_world) = Ok (Some unit_cube) /\
  fs (snd (@load_stl_file demo_library demo_file demo_world)) !! "/tmp/tmpvoxelize.stl"
    = None.
Proof.
  split; [reflexivity|].
  rewrite (@load_stl_file_raise demo_library empty_file demo_world _ eq_refl).
  rewrite (@load_stl_file_ok demo_library demo_file demo_world _ eq_refl).
  simpl. rewrite lookup_insert_eq, lookup_delete_eq. repeat split; reflexivity.
Qed.

Lemma slice_shape_removes_axis_witness :
  (exists fig,
     @create_slice_visualization demo_library 0 "x" (Some 1%Z) "Viridis" demo_world
       = (Ok fig, demo_world)
     /\ Np.shape2 (img_data fig) = (2, 3) /\ Np.wf2 (img_data fig)) /\
  (exists fig,
     @create_slice_visualization demo_library 0 "y" (Some (-1)%Z) "Viridis" demo_world
       = (Ok fig, demo_world)
     /\ Np.shape2 (img_data fig) = (2, 3) /\ Np.wf2 (img_data fig)) /\
  (exists fig,
     @create_slice_visualization demo_library 0 "z" (Some 1%Z) "Viridis" demo_world
       = (Ok fig, demo_world)
     /\ Np.shape2 (img_data fig) = (2, 2) /\ Np.wf2 (img_data fig)) /\
  @create_slice_visualization demo_library 0 "z" None "Viridis" demo_world
    = @create_slice_visualization demo_library 0 "z" (Some 1%Z) "Viridis" demo_world.
Proof.
  destruct (@slice_shape_removes_axis demo_library demo_world 0 demo_grid 2 2 3 1%Z
              "Viridis" eq_refl eq_refl) as (Hx & _ & Hz & _ & _ & Hd).
  destruct (@slice_shape_removes_axis demo_library demo_world 0 demo_grid 2 2 3 (-1)%Z
              "Viridis" eq_refl eq_refl) as (_ & Hy & _).
  destruct Hx as (fx & _ & Sx & Wx & Rx); [lia|].
  destruct Hy as (fy & _ & Sy & Wy & Ry); [lia|].
  destruct Hz as (fz & _ & Sz & Wz & Rz); [lia|].
  split; [exists fx; exact (conj (Rx eq_refl) (conj Sx Wx))|].
  split; [exists fy; exact (conj (Ry eq_refl) (conj Sy Wy))|].
  split; [exists fz; exact (conj (Rz eq_refl) (conj Sz Wz))|].
  exact Hd.
Defined.

Lemma failures_are_caught_and_reported_witness :
  fst (@load_stl_file demo_library empty_file demo_world) = Ok None /\
  @events_of demo_library _ (load_stl_file empty_file) demo_world
    = [StError "Error loading STL file: file is empty"] /\
  @events_of demo_library _ (main (upload empty_file)) demo_world
    = @events_of demo_library _ page_header demo_world
      ++ [StError "Error loading STL file: file is empty"] /\
  fst (@voxelize_mesh demo_library flat_square 50 demo_world) = Ok None /\
  @events_of demo_library _ (voxelize_mesh flat_square 50) demo_world
    = [StError "Error voxelizing mesh: pitch must be positive"] /\
  @events_of demo_library _ (main (upload flat_file)) demo_world
    = @events_of demo_library _ page_header demo_world
      ++ [StError "Error voxelizing mesh: pitch must be positive"].
Proof.
  destruct (@failures_are_caught_and_reported demo_library (upload empty_file)
              empty_file flat_square demo_world) as (_ & _ & Hl & Hv & _).
  destruct (Hl (Exn "ValueError" "file is empty") eq_refl) as (H1 & H2 & H3).
  destruct (Hv 50%Z (Exn "ValueError" "pitch must be positive") eq_refl) as (H4 & H5).
  destruct (@failures_are_caught_and_reported demo_library (upload flat_file)
              flat_file flat_square demo_world) as (_ & _ & _ & _ & Hm).
  exact (conj H1 (conj H2 (conj (H3 eq_refl) (conj H4 (conj H5
           (Hm (Exn "ValueError" "pitch must be positive") eq_refl eq_refl eq_refl)))))).
Defined.



Lemma coordinates_are_grid_indices_witness :
  Np.argwhere demo_matrix = [(0, 0, 0); (0, 1, 0); (0, 1, 1); (1, 1, 1); (1, 1, 2)] /\
  StronglySorted lex_lt (Np.argwhere demo_matrix) /\
  (In (1, 1, 2) (Np.argwhere demo_matrix) <->
   1 < 2 /\ 1 < 2 /\ 2 < 3 /\ Np.get3 demo_matrix 1 1 2 = true) /\
  read_coordinates (export_coordinates demo_matrix) = Some (Np.argwhere demo_matrix) /\
  match fst (@create_voxel_visualization demo_library 0 "Viridis" "Random" 4
               0x1.999999999999ap-1%float demo_world) with
  | Ok (Some fig) =>
      fig_x fig = [0; 0; 0; 1; 1] /\ fig_y fig = [0; 1; 1; 1; 1] /\ fig_z fig = [0; 0; 1; 1; 2]
  | _ => False
  end.
Proof.
  destruct (@coordinates_are_grid_indices demo_library demo_world 0 demo_grid
              "Viridis" "Random" 4%Z 0x1.999999999999ap-1%float eq_refl demo_matrix_wf)
    as (Hf & He & Hi & Hs).
  split; [reflexivity|]. split; [exact Hs|]. split; [exact (Hi 1 1 2)|].
  split; [exact He|].
  vm_compute. repeat split; reflexivity.
Defined.

Lemma fill_ratio_is_occupied_over_total_witness :
  exists mi info,
    @events_of demo_library _ (display_mesh_info unit_cube 0) demo_world
      = [StMeshInfo mi;
         StBoundingBox ((0%float, 0%float, 0%float), (1%float, 1%float, 1%float));
         StVoxelInfo info]
    /\ info_total info = 12%Z
    /\ info_filled info = 5%Z
    /\ info_fill_ratio info = PrimFloat.div (float_of_Z 5) (float_of_Z 12)
    /\ PrimFloat.leb 0%float (info_fill_ratio info) = true
    /\ PrimFloat.leb (info_fill_ratio info) 1%float = true.
Proof.
  apply (@fill_ratio_is_occupied_over_total demo_library unit_cube 0 demo_world
           ((0%float, 0%float, 0%float), (1%float, 1%float, 1%float)) demo_grid
           eq_refl eq_refl demo_matrix_wf).
  vm_compute; lia.
Defined.

(** Why the grid must have cells: were [display_mesh_info] handed a grid of
    shape (0, 0, 0), the total shown would be 0 and the ratio 0/0, which is
    not a number.  The voxelizer returns no such grid. *)
Example fill_ratio_needs_a_cell :
  exists mi b info,
    @events_of demo_library _ (display_mesh_info unit_cube 1) demo_world
      = [StMeshInfo mi; StBoundingBox b; StVoxelInfo info]
    /\ info_total info = 0%Z
    /\ PrimFloat.is_nan (info_fill_ratio info) = true.
Proof.
  eexists _, _, _. split; [vm_compute; reflexivity|].
  vm_compute. repeat split; reflexivity.
Qed.

Lemma renderers_leave_grid_unchanged_witness :
  heap (snd (@create_voxel_visualization demo_library 0 "Viridis" "Random" 4
               0x1.999999999999ap-1%float demo_world)) = heap demo_world /\
  (matrix <$> heap (snd (@create_voxel_visualization demo_library 0 "Viridis" "Random" 4
                           0x1.999999999999ap-1%float demo_world)) !! 0)
    = Some demo_matrix /\
  (matrix <$> heap (snd (@create_slice_visualization demo_library 0 "z" None "Plasma"
                           demo_world)) !! 0)
    = Some demo_matrix.
Proof.
  destruct (@renderers_leave_grid_unchanged demo_library demo_world 0 "Viridis" "Random"
              4%Z 0x1.999999999999ap-1%float "z" None "Plasma") as (Hv & _ & Hm).
  destruct (Hm demo_grid eq_refl) as [Hm1 Hm2].
  exact (conj Hv (conj Hm1 Hm2)).
Defined.

(** ** The further properties at concrete inputs *)

Lemma slice_shows_plane_at_index_witness :
  (exists fig,
     @create_slice_visualization demo_library 0 "y" (Some (-1)%Z) "Hot" demo_world
       = (Ok fig, demo_world) /\
     (forall a b,
        a < fst (Np.shape2 (img_data fig)) -> b < snd (Np.shape2 (img_data fig)) ->
        Np.get2 (img_data fig) a b = Np.get3 demo_matrix a 1 b) /\
     img_title fig = "Y-slice at index -1" /\
     img_colorscale fig = "Hot") /\
  @create_slice_visualization demo_library 0 "y" (Some (-1)%Z) "Spring" demo_world
  = (Raise (Exn "ValueError" "Invalid value received for the 'colorscale' property"),
     demo_world).
Proof.
  split.
  - destruct (@slice_shows_plane_at_index demo_library demo_world 0 demo_grid "y" (-1)%Z
                "Hot" eq_refl) as (fig & _ & Hcells & Ht & Hc & Hok & _);
      [vm_compute; split; [discriminate | reflexivity]|].
    exists fig. exact (conj (Hok eq_refl) (conj Hcells (conj Ht Hc))).
  - destruct (@slice_shows_plane_at_index demo_library demo_world 0 demo_grid "y" (-1)%Z
                "Spring" eq_refl) as (fig & _ & _ & _ & _ & _ & Hno);
      [vm_compute; split; [discriminate | reflexivity]|].
    exact (Hno _ eq_refl).
Defined.

Lemma slice_index_out_of_range_raises_witness :
  exists msg,
    @create_slice_visualization demo_library 0 "x" (Some 2%Z) "Hot" demo_world
    = (Raise (Exn "IndexError" msg), demo_world).
Proof.
  apply (@slice_index_out_of_range_raises demo_library demo_world 0 demo_grid "x" 2%Z "Hot");
    [reflexivity | right; vm_compute; discriminate].
Defined.

Lemma unknown_axis_is_sliced_along_z_witness :
  @create_slice_visualization demo_library 0 "w" (Some 1%Z) "Hot" demo_world
  = @create_slice_visualization demo_library 0 "z" (Some 1%Z) "Hot" demo_world /\
  @create_slice_visualization demo_library 0 "w" None "Hot" demo_world
  = (Raise (Exn "KeyError" "w"), demo_world).
Proof.
  apply (@unknown_axis_is_sliced_along_z demo_library demo_world 0 demo_grid "w" 1%Z "Hot");
    [discriminate | discriminate | discriminate | reflexivity].
Defined.

Lemma default_slice_is_the_middle_plane_witness :
  (exists fig,
     @create_slice_visualization demo_library 0 "z" None "Hot" demo_world
       = (Ok fig, demo_world) /\
     forall a b,
       a < fst (Np.shape2 (img_data fig)) -> b < snd (Np.shape2 (img_data fig)) ->
       Np.get2 (img_data fig) a b = Np.get3 demo_matrix a b 1) /\
  (exists msg,
     @create_slice_visualization demo_library 1 "z" None "Hot" demo_world
     = (Raise (Exn "IndexError" msg), demo_world)).
Proof.
  split.
  - destruct (@default_slice_is_the_middle_plane demo_library demo_world 0 demo_grid "z"
                "Hot" eq_refl) as [Hmid _]; [right; right; reflexivity|].
    destruct Hmid as (fig & _ & Hcells & Hok); [vm_compute; lia|].
    exists fig. exact (conj (Hok eq_refl) Hcells).
  - apply (@default_slice_is_the_middle_plane demo_library demo_world 1 empty_grid "z" "Hot");
      [reflexivity | right; right; reflexivity | reflexivity].
Defined.

Lemma unknown_color_mode_is_random_witness :
  @create_voxel_visualization demo_library 0 "Hot" "Height" 4 0.5%float demo_world
  = @create_voxel_visualization demo_library 0 "Hot" "Random" 4 0.5%float demo_world.
Proof.
  apply (@unknown_color_mode_is_random demo_library demo_world 0 "Hot" "Height" 4%Z 0.5%float).
  cbn. intros [H | [H | [H | [H | [H | []]]]]]; discriminate H.
Defined.

Lemma rendering_reseeds_the_generator_witness :
  rng (snd (@create_voxel_visualization demo_library 0 "Hot" "Radial (XY)" 4 0.5%float
              demo_world)) = 7%Z /\
  rng (snd (@create_voxel_visualization demo_library 0 "Hot" "Random" 4 0.5%float
              demo_world)) = 47%Z.
Proof.
  destruct (@rendering_reseeds_the_generator demo_library demo_world 0 demo_grid
              "Hot" "Radial (XY)" 4%Z 0.5%float eq_refl) as [Hkeep _].
  destruct (@rendering_reseeds_the_generator demo_library demo_world 0 demo_grid
              "Hot" "Random" 4%Z 0.5%float eq_refl) as [_ Hseed].
  split.
  - apply Hkeep. left. cbn. tauto.
  - apply Hseed.
    + cbn. intros [H | [H | [H | [H | [H | []]]]]]; discriminate H.
    + vm_compute. lia.
Defined.

Lemma figure_has_one_point_per_cell_witness :
  exists fig,
    fst (@create_voxel_visualization demo_library 0 "Hot" "Z-coordinate" 4 0.5%float
           demo_world) = Ok (Some fig) /\
    List.length (fig_x fig) = 5 /\
    List.length (fig_text fig) = 5 /\
    fig_voxels fig = 5 /\
    color_length (fig_color fig) = 5 /\
    nth 4 (fig_text fig) EmptyString
    = voxel_label (nth 4 (fig_x fig) 0, nth 4 (fig_y fig) 0, nth 4 (fig_z fig) 0) /\
    fig_color fig = ColorInt (fig_z fig).
Proof.
  destruct (@figure_has_one_point_per_cell demo_library demo_world 0 demo_grid
              "Hot" "Z-coordinate" 4%Z 0.5%float eq_refl)
    as (fig & Hfig & Hx & _ & _ & Ht & Hv & Hc & Hl & _ & _ & Hz);
    [vm_compute; lia|].
  exists fig. split; [exact Hfig|]. split; [exact Hx|]. split; [exact Ht|].
  split; [exact Hv|]. split; [apply Hc; left; reflexivity|].
  split; [apply Hl; vm_compute; lia | apply Hz; reflexivity].
Defined.

Lemma successful_load_leaves_no_trace_witness :
  @load_stl_file demo_library demo_file demo_world = (Ok (Some unit_cube), demo_world).
Proof.
  apply (@successful_load_leaves_no_trace demo_library demo_file demo_world unit_cube);
    reflexivity.
Defined.

Lemma displayed_pitch_is_the_computed_one_witness :
  exists r w1 mi info,
    @voxelize_mesh demo_library unit_cube 50 demo_world = (Ok (Some r), w1) /\
    @events_of demo_library _ (display_mesh_info unit_cube r) w1
      = [StMeshInfo mi;
         StBoundingBox ((0%float, 0%float, 0%float), (1%float, 1%float, 1%float));
         StVoxelInfo info] /\
    info_pitch info = VoxelPitch (PrimFloat.div 1%float 50%float) /\
    info_grid_size info = (2, 2, 3) /\
    info_filled info = 5%Z /\
    info_total info = 12%Z.
Proof.
  apply (@displayed_pitch_is_the_computed_one demo_library unit_cube 50%Z demo_world
           ((0%float, 0%float, 0%float), (1%float, 1%float, 1%float)) demo_grid);
    reflexivity.
Defined.

Lemma coordinate_export_round_trip_witness :
  read_coordinates (export_coordinates demo_matrix)
  = Some [(0, 0, 0); (0, 1, 0); (0, 1, 1); (1, 1, 1); (1, 1, 2)] /\
  option_map (grid_of_cells (2, 2, 3)) (read_coordinates (export_coordinates demo_matrix))
  = Some demo_matrix.
Proof.
  apply (coordinate_export_round_trip demo_matrix demo_matrix_wf).
Defined.

Lemma download_name_drops_four_characters_witness :
  drop_last4 "cube.stl" = "cube" /\ drop_last4 "cube" = EmptyString.
Proof.
  destruct (download_name_drops_four_characters "cube" ".stl") as [Hext Hshort].
  split; [apply Hext; reflexivity | apply Hshort; vm_compute; lia].
Defined.

Lemma page_of_a_successful_upload_witness :
  exists w' panel fig_3d fig_slice,
    @main demo_library (busy_upload demo_file) demo_world = (Ok tt, w') /\
    @events_of demo_library _ (main (busy_upload demo_file)) demo_world
      = header_page ∅
        ++ grid_page (busy_upload demo_file) "cube.stl" demo_grid panel fig_3d fig_slice /\
    heap w' = <[2 := set__pitch (PrimFloat.div 1%float 80%float) demo_grid]>
                (heap demo_world) /\
    fs w' !! "/tmp/tmpvoxelize.stl" = None /\
    @events_of demo_library _ (display_mesh_info unit_cube 2) w' = panel /\
    match fst (@create_voxel_visualization demo_library 2 "Hot" "Random" 6 0.5%float w') with
    | Ok (Some fig) => fig_3d = [StPlotly3d fig]
    | Ok None => fig_3d = [StWarning "No voxels found in the mesh"]
    | Raise _ => False
    end /\
    fst (@create_slice_visualization demo_library 2 "z" (Some 2%Z) "Jet" w') = Ok fig_slice.
Proof.
  apply (@page_of_a_successful_upload demo_library (busy_upload demo_file) demo_file
           unit_cube ((0%float, 0%float, 0%float), (1%float, 1%float, 1%float))
           demo_grid demo_world);
    [reflexivity | reflexivity | reflexivity | reflexivity | reflexivity
    | vm_compute; lia | reflexivity].
Defined.

Lemma rerun_gives_the_same_page_witness :
  let w' := snd (@main demo_library (busy_upload demo_file) demo_world) in
  @events_of demo_library _ (main (busy_upload demo_file)) w'
  = @events_of demo_library _ (main (busy_upload demo_file)) demo_world /\
  fs (snd (@main demo_library (busy_upload demo_file) w')) = fs demo_world /\
  fst (@main demo_library (busy_upload demo_file) w') = Ok tt.
Proof.
  apply (@rerun_gives_the_same_page demo_library (busy_upload demo_file) demo_file
           unit_cube ((0%float, 0%float, 0%float), (1%float, 1%float, 1%float))
           demo_grid demo_world);
    [reflexivity | reflexivity | reflexivity | reflexivity | reflexivity
    | vm_compute; lia | reflexivity | reflexivity].
Defined.

Lemma page_without_an_upload_witness :
  @main demo_library no_input demo_world
  = (Ok tt,
     {| fs := fs demo_world; heap := heap demo_world; rng := rng demo_world;
        ui := [ StText "Voxelize";
                StWarning "Image 'image.png' not found in the current directory";
                StText "Upload an STL file to visualize it as voxels";
                StInfo "Upload an STL file to get started!";
                StText "How to use this app" ] |}).
Proof.
  apply (@page_without_an_upload demo_library no_input demo_world). reflexivity.
Defined.

Lemma main_returns_when_charts_and_slider_are_accepted_witness :
  exists w', @main demo_library (busy_upload demo_file) demo_world = (Ok tt, w').
Proof.
  apply (@main_returns_when_charts_and_slider_are_accepted demo_library
           (busy_upload demo_file) demo_world).
  intros file mesh_obj b g Hf Hl Hb Hv.
  injection Hf as <-. injection Hl as <-. injection Hb as <-.
  injection Hv as <-.
  split; [reflexivity|]. split; [vm_compute; lia | reflexivity].
Defined.

Lemma refused_color_scheme_ends_the_page_witness :
  exists mi info,
    fst (@main demo_library (spring_upload demo_file) demo_world)
    = Raise (Exn "ValueError" "Invalid value received for a property of scatter3d.marker") /\
    @events_of demo_library _ (main (spring_upload demo_file)) demo_world
    = header_page ∅
      ++ [StMeshInfo mi;
          StBoundingBox ((0%float, 0%float, 0%float), (1%float, 1%float, 1%float));
          StVoxelInfo info;
          StText "---"; StText "3D Voxel Visualization"].
Proof.
  apply (@refused_color_scheme_ends_the_page demo_library (spring_upload demo_file)
           demo_file unit_cube
           ((0%float, 0%float, 0%float), (1%float, 1%float, 1%float)) demo_grid demo_world);
    [reflexivity | reflexivity | reflexivity | reflexivity | vm_compute; lia | reflexivity].
Defined.

Lemma single_plane_axis_ends_the_page_witness :
  exists mi info fig_3d,
    fst (@main demo_library (upload_sliced_along_z plate_file) demo_world)
    = Raise (Exn "StreamlitAPIException"
               "Slider min_value must be less than the max_value") /\
    @events_of demo_library _ (main (upload_sliced_along_z plate_file)) demo_world
    = header_page ∅
      ++ [StMeshInfo mi;
          StBoundingBox ((0%float, 0%float, 0%float), (1%float, 1%float, 0%float));
          StVoxelInfo info;
          StText "---"; StText "3D Voxel Visualization"]
      ++ fig_3d
      ++ [StText "---"; StText "2D Slice Visualization"] /\
    List.length fig_3d = 1.
Proof.
  apply (@single_plane_axis_ends_the_page demo_library (upload_sliced_along_z plate_file)
           plate_file thin_plate
           ((0%float, 0%float, 0%float), (1%float, 1%float, 0%float)) plate_grid demo_world);
    [reflexivity | reflexivity | reflexivity | reflexivity | reflexivity
    | vm_compute; lia | reflexivity].
Defined.
